(** * Alkoteka product parser: normalization pipeline, variant detection,
      characteristics merge, discount arithmetic and proxy rotation.

    A shallow embedding of
      - [alkoteka_parser/items.py]        ([calculate_discount],
                                           [clean_title],
                                           [validate_required_field]),
      - [alkoteka_parser/pipelines.py]    (the three item pipelines),
      - [alkoteka_parser/spiders/alkoteka_spider.py]
                                          (characteristics, variants, URLs,
                                           price, stock and asset records),
      - [alkoteka_parser/middlewares.py]  ([ProxyMiddleware],
                                           [RegionMiddleware]),
      - [alkoteka_parser/utils.py]        ([save_proxies_to_file]),
      - [alkoteka_parser/commands/validate.py]
                                          ([DataValidator._validate_item]),
    followed by the properties the specification states about them and
    by further properties of the code. *)

From Stdlib Require Import ZArith NArith List Bool Lia String Ascii.
From Stdlib Require Import Sorting.Sorted Sorting.Permutation.
From Stdlib Require Import Floats.SpecFloat.
From stdpp Require Import gmap.
Import ListNotations.

Local Open Scope Z_scope.

(* ===================================================================== *)
(** * Python strings *)
(* ===================================================================== *)

(** A Python [str] is a sequence of Unicode code points. *)
Module PyStr.

Definition char := N.
Definition str := list N.

Definition bytes_of (s : string) : list N :=
  List.map N_of_ascii (list_ascii_of_string s).

(** Literals are written as UTF-8 text and decoded to code points. *)
Fixpoint utf8_decode (l : list N) : str :=
  match l with
  | [] => []
  | b0 :: t0 =>
    if (b0 <? 128)%N then b0 :: utf8_decode t0
    else match t0 with
    | [] => [b0]
    | b1 :: t1 =>
      if (b0 <? 224)%N then ((b0 - 192) * 64 + (b1 - 128))%N :: utf8_decode t1
      else match t1 with
      | [] => [b0; b1]
      | b2 :: t2 =>
        if (b0 <? 240)%N
        then ((b0 - 224) * 4096 + (b1 - 128) * 64 + (b2 - 128))%N :: utf8_decode t2
        else match t2 with
        | [] => [b0; b1; b2]
        | b3 :: t3 =>
          ((b0 - 240) * 262144 + (b1 - 128) * 4096 + (b2 - 128) * 64 + (b3 - 128))%N
            :: utf8_decode t3
        end
      end
    end
  end.

Definition lit (s : string) : str := utf8_decode (bytes_of s).

Fixpoint str_eqb (a b : str) : bool :=
  match a, b with
  | [], [] => true
  | x :: a', y :: b' => (x =? y)%N && str_eqb a' b'
  | _, _ => false
  end.

(** [a <= b] in the order [sorted] uses: lexicographic on code points. *)
Fixpoint str_leb (a b : str) : bool :=
  match a, b with
  | [], _ => true
  | _ :: _, [] => false
  | x :: a', y :: b' =>
    if (x <? y)%N then true else if (x =? y)%N then str_leb a' b' else false
  end.

(** [str.isspace] on one code point: what [split()], [strip()] and the
    regex class [\s] treat as whitespace. *)
Definition is_space (c : char) : bool :=
  ((9 <=? c) && (c <=? 13) || (28 <=? c) && (c <=? 32)
   || (c =? 133) || (c =? 160) || (c =? 5760)
   || (8192 <=? c) && (c <=? 8202)
   || (c =? 8232) || (c =? 8233) || (c =? 8239) || (c =? 8287)
   || (c =? 12288))%N.

Fixpoint lstrip (s : str) : str :=
  match s with
  | [] => []
  | c :: t => if is_space c then lstrip t else s
  end.

Definition rstrip (s : str) : str := rev (lstrip (rev s)).

(** [s.strip()] *)
Definition strip (s : str) : str := rstrip (lstrip s).

(** [s.split()]: the maximal runs of non-whitespace; [cur] holds the run
    being read, reversed. *)
Fixpoint split_from (cur : str) (s : str) : list str :=
  match s with
  | [] => match cur with [] => [] | _ => [rev cur] end
  | c :: t =>
    if is_space c
    then match cur with
         | [] => split_from [] t
         | _ => rev cur :: split_from [] t
         end
    else split_from (c :: cur) t
  end.

Definition split (s : str) : list str := split_from [] s.

(** [sep.join(parts)] *)
Fixpoint join (sep : str) (parts : list str) : str :=
  match parts with
  | [] => []
  | [p] => p
  | p :: rest => p ++ sep ++ join sep rest
  end.

(** [' '.join(s.split())] *)
Definition collapse_ws (s : str) : str := join [32%N] (split s).

Fixpoint starts_with (p s : str) : bool :=
  match p, s with
  | [], _ => true
  | x :: p', y :: s' => (x =? y)%N && starts_with p' s'
  | _ :: _, [] => false
  end.

(** [p in s] for strings *)
Fixpoint contains (p s : str) : bool :=
  starts_with p s ||
  match s with
  | [] => false
  | _ :: t => contains p t
  end.

(** [s.replace(c, r)] for a one-character [c] *)
Definition replace_char (c : char) (r : str) (s : str) : str :=
  flat_map (fun x => if (x =? c)%N then r else [x]) s.

(** Insertion sort by [str_leb]; on strings every correct sort returns
    the same list as [sorted]. *)
Fixpoint insert_sorted (x : str) (l : list str) : list str :=
  match l with
  | [] => [x]
  | y :: t => if str_leb x y then x :: l else y :: insert_sorted x t
  end.

Definition sorted (l : list str) : list str :=
  fold_right insert_sorted [] l.

(** First occurrences, in order: [list(dict.fromkeys(l))] on strings. *)
Fixpoint dedup (l : list str) : list str :=
  match l with
  | [] => []
  | x :: t => x :: List.filter (fun y => negb (str_eqb x y)) (dedup t)
  end.

(** [re.sub(r'\s+', ' ', s)]: every maximal run of whitespace becomes
    one space; [in_run] tells that the character before was whitespace. *)
Fixpoint sub_ws_from (in_run : bool) (s : str) : str :=
  match s with
  | [] => []
  | c :: t =>
    if is_space c
    then (if in_run then sub_ws_from true t else 32%N :: sub_ws_from true t)
    else c :: sub_ws_from false t
  end.

Definition re_sub_ws (s : str) : str := sub_ws_from false s.




End PyStr.
Import PyStr.

(* ===================================================================== *)
(** * Python floats *)
(* ===================================================================== *)

(** A Python [float] is an IEEE 754 binary64 number: precision 53,
    infinities at exponent 1024, round to nearest even. *)
Module Float64.

Definition float64 := spec_float.
Definition prec : Z := 53.
Definition emax : Z := 1024.

Definition of_Z (z : Z) : float64 := binary_normalize prec emax z 0 false.

Definition zero : float64 := S754_zero false.
Definition sub : float64 -> float64 -> float64 := SFsub prec emax.
Definition mul : float64 -> float64 -> float64 := SFmul prec emax.
Definition div : float64 -> float64 -> float64 := SFdiv prec emax.
Definition ltb : float64 -> float64 -> bool := SFltb.
Definition leb : float64 -> float64 -> bool := SFleb.
Definition eqb : float64 -> float64 -> bool := SFeqb.

Definition is_nan (f : float64) : bool :=
  match f with S754_nan => true | _ => false end.

Definition is_inf (f : float64) : bool :=
  match f with S754_infinity _ => true | _ => false end.

(** Truncation toward zero of a finite float; [0] on the others, which
    callers rule out first. *)
Definition trunc (f : float64) : Z :=
  match f with
  | S754_finite s m e =>
    let a := if 0 <=? e then Z.shiftl (Zpos m) e else Z.shiftr (Zpos m) (- e) in
    if s then - a else a
  | _ => 0
  end.

(** Exact comparison of a float with an integer, as [==] does. *)
Definition eq_Z (f : float64) (z : Z) : bool :=
  match f with
  | S754_zero _ => z =? 0
  | S754_finite s m e =>
    let sm := if s then Zneg m else Zpos m in
    if 0 <=? e then z =? Z.shiftl sm e else Z.shiftl z (- e) =? sm
  | _ => false
  end.

End Float64.
Import Float64.

(* ===================================================================== *)
(** * Python values *)
(* ===================================================================== *)

Module Py.

(** The loosely typed values a candidate record or a decoded JSON
    document holds.  A [dict] keeps its keys (strings here) in insertion
    order and holds each key once. *)
#[warnings="-register-all"]
Inductive value : Type :=
  | VNone
  | VBool (b : bool)
  | VInt (z : Z)
  | VFloat (f : float64)
  | VStr (s : str)
  | VList (l : list value)
  | VDict (d : list (str * value)).

Definition dict := list (str * value).

Inductive exn := ValueError | TypeError | OverflowError.

(** The result of an expression that may raise. *)
Inductive res (A : Type) : Type :=
  | Ok (a : A)
  | Raise (e : exn).
Arguments Ok {A} a.
Arguments Raise {A} e.

#[export] Instance res_ret : MRet res := fun A a => Ok a.
#[export] Instance res_bind : MBind res := fun A B k r =>
  match r with
  | Ok a => k a
  | Raise e => Raise e
  end.

(** What the interpreter provides and the repository does not define:
    the string parsers behind [float(s)] and [int(s)] ([None] stands for
    [ValueError]), [str.lower], and [str(v)] on a value that is not a
    string. *)
Class Builtins := {
  float_of_str : str -> option float64;
  int_of_str : str -> option Z;
  str_lower : str -> str;
  repr : value -> str
}.

(** [bool(v)] *)
Definition truthy (v : value) : bool :=
  match v with
  | VNone => false
  | VBool b => b
  | VInt z => negb (z =? 0)
  | VFloat f => negb (eqb f zero)
  | VStr s => match s with [] => false | _ => true end
  | VList l => match l with [] => false | _ => true end
  | VDict d => match d with [] => false | _ => true end
  end.

Definition is_none (v : value) : bool :=
  match v with VNone => true | _ => false end.

(** [isinstance(v, (int, float))]; [bool] is a subclass of [int]. *)
Definition is_number (v : value) : bool :=
  match v with VBool _ | VInt _ | VFloat _ => true | _ => false end.

(** [float(v)] *)
Definition py_float `{Builtins} (v : value) : res float64 :=
  match v with
  | VNone => Raise TypeError
  | VBool b => Ok (of_Z (if b then 1 else 0))
  | VInt z => let f := of_Z z in if is_inf f then Raise OverflowError else Ok f
  | VFloat f => Ok f
  | VStr s =>
    match float_of_str s with
    | Some f => Ok f
    | None => Raise ValueError
    end
  | VList _ | VDict _ => Raise TypeError
  end.

(** [int(v)] *)
Definition py_int `{Builtins} (v : value) : res Z :=
  match v with
  | VNone => Raise TypeError
  | VBool b => Ok (if b then 1 else 0)
  | VInt z => Ok z
  | VFloat f =>
    if is_nan f then Raise ValueError
    else if is_inf f then Raise OverflowError
    else Ok (trunc f)
  | VStr s =>
    match int_of_str s with
    | Some z => Ok z
    | None => Raise ValueError
    end
  | VList _ | VDict _ => Raise TypeError
  end.

(** [str(v)] *)
Definition py_str `{Builtins} (v : value) : str :=
  match v with
  | VStr s => s
  | _ => repr v
  end.

(** [v < 0] for a number *)
Definition lt_zero (v : value) : bool :=
  match v with
  | VInt z => z <? 0
  | VFloat f => ltb f zero
  | _ => false
  end.

(** ** Dictionaries *)

Fixpoint dict_get (k : str) (d : dict) : option value :=
  match d with
  | [] => None
  | (k', v) :: t => if str_eqb k' k then Some v else dict_get k t
  end.

(** [k in d] *)
Definition dict_has (k : str) (d : dict) : bool :=
  match dict_get k d with Some _ => true | None => false end.

(** [d.get(k)] *)
Definition py_get (d : dict) (k : str) : value :=
  match dict_get k d with Some v => v | None => VNone end.

(** [d.get(k, default)] *)
Definition py_get_or (d : dict) (k : str) (dflt : value) : value :=
  match dict_get k d with Some v => v | None => dflt end.

(** [d[k] = v]: a present key keeps its place, a new one goes last. *)
Fixpoint dict_set (k : str) (v : value) (d : dict) : dict :=
  match d with
  | [] => [(k, v)]
  | (k', v') :: t =>
    if str_eqb k' k then (k', v) :: t else (k', v') :: dict_set k v t
  end.

(** [d.update(other)] *)
Definition dict_update (d other : dict) : dict :=
  fold_left (fun acc kv => dict_set (fst kv) (snd kv) acc) other d.

(** ** Hashing and [dict.fromkeys] *)

Definition hashable (v : value) : bool :=
  match v with VList _ | VDict _ => false | _ => true end.

(** [a == b] between hashable values: numbers compare by value across
    [bool], [int] and [float]; a NaN equals nothing.  Values carry no
    object identity here: every occurrence of a NaN is an object of its
    own, as after [json.loads] or [float()].  One and the same NaN
    object listed twice, which a [dict] keeps once because it is
    identical to itself, is outside the model. *)
Definition key_eqb (a b : value) : bool :=
  match a, b with
  | VNone, VNone => true
  | VStr x, VStr y => str_eqb x y
  | VBool x, VBool y => Bool.eqb x y
  | VBool x, VInt y | VInt y, VBool x => (if x then 1 else 0) =? y
  | VBool x, VFloat f | VFloat f, VBool x => eq_Z f (if x then 1 else 0)
  | VInt x, VInt y => x =? y
  | VInt x, VFloat f | VFloat f, VInt x => eq_Z f x
  | VFloat f, VFloat g => eqb f g
  | _, _ => false
  end.

Fixpoint fromkeys (l : list value) : list value :=
  match l with
  | [] => []
  | x :: t => x :: List.filter (fun y => negb (key_eqb x y)) (fromkeys t)
  end.

(** [list(dict.fromkeys(l))]: an unhashable element raises. *)
Definition unique_values (l : list value) : res (list value) :=
  if forallb hashable l then Ok (fromkeys l) else Raise TypeError.

End Py.
Import Py.

(* ===================================================================== *)
(** * items.py *)
(* ===================================================================== *)

Module Items.

(** [min(100, x)] for a float [x]: the first argument stays unless the
    second is smaller. *)
Definition min_100 (x : float64) : value :=
  if ltb x (of_Z 100) then VFloat x else VInt 100.

(** [max(0, y)] *)
Definition max_0 (y : value) : value :=
  match y with
  | VFloat x => if ltb zero x then y else VInt 0
  | VInt z => if 0 <? z then y else VInt 0
  | _ => y
  end.

(** [int(y)] on what [max_0] returns: an [int], or a float strictly
    between 0 and 100. *)
Definition to_int (y : value) : Z :=
  match y with
  | VInt z => z
  | VFloat x => trunc x
  | _ => 0
  end.

(** [calculate_discount(original: float, current: float) -> Optional[int]];
    [None] is the absent operand the callers and the tests pass. *)
Definition calculate_discount (original current : option float64) : option Z :=
  match original with
  | None => None
  | Some o =>
    if eqb o zero then None
    else match current with
    | None => None
    | Some c =>
      if eqb c zero then None
      else if leb o zero then None
      else
        let discount := mul (div (sub o c) o) (of_Z 100) in
        Some (to_int (max_0 (min_100 discount)))
    end
  end.

(** [validate_required_field(value, field_name)]: the value, or the
    [ValueError] raised for [None] and for a string that is empty once
    stripped. *)
Definition validate_required_field (v : value) : res value :=
  if is_none v then Raise ValueError
  else match v with
       | VStr s => if negb (truthy (VStr (strip s))) then Raise ValueError else Ok v
       | _ => Ok v
       end.

Section WithBuiltins.
Context `{Builtins}.

(** [clean_title(title)] *)
Definition clean_title (title : value) : str :=
  if negb (truthy title) then []
  else re_sub_ws (strip (py_str title)).

End WithBuiltins.

End Items.

(* ===================================================================== *)
(** * pipelines.py *)
(* ===================================================================== *)

Module Pipelines.

(** What [process_item] does with an item: it returns it, raises
    [DropItem] with a message, or lets another exception escape. *)
Inductive outcome : Type :=
  | Accepted (item : dict)
  | Rejected (reason : str)
  | Crashed (e : exn).

Definition of_res (r : res dict) : outcome :=
  match r with
  | Ok item => Accepted item
  | Raise e => Crashed e
  end.

Definition and_then (o : outcome) (k : dict -> outcome) : outcome :=
  match o with
  | Accepted item => k item
  | _ => o
  end.

(** [if adapter.get(field): nested = adapter[field];
     if isinstance(nested, dict): ...], the nested dict being changed in place. *)
Definition on_nested (field : str) (f : dict -> dict) (item : dict) : dict :=
  if truthy (py_get item field) then
    match py_get item field with
    | VDict nested => dict_set field (VDict (f nested)) item
    | _ => item
    end
  else item.

(** ** ValidationPipeline *)

Module ValidationPipeline.
Section WithBuiltins.
Context `{Builtins}.

Definition required_fields : list str :=
  [lit "product_id"; lit "name"; lit "product_url"; lit "scraped_at"].

(** [field not in adapter or not adapter.get(field)] *)
Definition missing (item : dict) (field : str) : bool :=
  negb (dict_has field item) || negb (truthy (py_get item field)).

Definition validation_errors (item : dict) : list str :=
  List.map (fun field => lit "Missing required field: " ++ field)
           (List.filter (missing item) required_fields).

Definition drop_message (errors : list str) : str :=
  lit "Validation failed: " ++ join (lit "; ") errors.

Definition fix_price_data (item : dict) : res dict :=
  if truthy (py_get item (lit "price_data")) then
    match py_get item (lit "price_data") with
    | VDict price_data =>
      let current := py_get price_data (lit "current") in
      let original := py_get price_data (lit "original") in
      if negb (is_none current) && negb (is_none original) then
        if truthy current && truthy original then
          c ← py_float current;
          o ← py_float original;
          if ltb o c
          then Ok (dict_set (lit "price_data")
                     (VDict (dict_set (lit "current") original price_data)) item)
          else Ok item
        else Ok item
      else Ok item
    | _ => Ok item
    end
  else Ok item.

Definition fix_stock_data (item : dict) : dict :=
  if truthy (py_get item (lit "stock_data")) then
    match py_get item (lit "stock_data") with
    | VDict stock_data =>
      let count := py_get stock_data (lit "count") in
      if negb (is_none count) && is_number count && lt_zero count
      then dict_set (lit "stock_data")
             (VDict (dict_set (lit "count") (VInt 0) stock_data)) item
      else item
    | _ => item
    end
  else item.

Definition fix_price (item : dict) : res dict :=
  if negb (is_none (py_get item (lit "price")))
     && negb (is_none (py_get item (lit "original_price")))
  then
    price ← py_float (py_get item (lit "price"));
    original ← py_float (py_get item (lit "original_price"));
    if ltb original price
    then Ok (dict_set (lit "price") (VFloat original) item)
    else Ok item
  else Ok item.

(** [ValidationPipeline.process_item] *)
Definition process_item (item : dict) : outcome :=
  match validation_errors item with
  | (_ :: _) as errors => Rejected (drop_message errors)
  | [] =>
    of_res (item1 ← fix_price_data item;
            fix_price (fix_stock_data item1))
  end.

End WithBuiltins.
End ValidationPipeline.

(** ** DefaultValuesPipeline *)

Module DefaultValuesPipeline.

Definition defaults : dict :=
  [ (lit "marketing_tags", VList []);
    (lit "attributes", VDict []);
    (lit "image_urls", VList []);
    (lit "tags", VList []);
    (lit "validation_errors", VList []);
    (lit "scraper_notes", VStr []);
    (lit "is_valid", VBool true);
    (lit "review_count", VInt 0);
    (lit "stock_quantity", VInt 0);
    (lit "currency", VStr (lit "RUB"));
    (lit "region", VStr (lit "krasnodar"));
    (lit "source", VStr (lit "alkoteka.com")) ].

(** [key not in d or d.get(key) is None] *)
Definition unset (d : dict) (key : str) : bool :=
  negb (dict_has key d) || is_none (py_get d key).

(** [for key, default in table.items(): if unset: d[key] = default] *)
Definition fill_defaults (table : dict) (d : dict) : dict :=
  fold_left (fun acc kv =>
               if unset acc (fst kv) then dict_set (fst kv) (snd kv) acc else acc)
            table d.

Definition defaults_assets : dict :=
  [ (lit "main_image", VNone);
    (lit "gallery_images", VList []);
    (lit "view_360", VList []);
    (lit "video", VList []);
    (lit "cached_images", VList []) ].

Definition defaults_stock : dict :=
  [ (lit "in_stock", VBool false);
    (lit "count", VInt 0);
    (lit "status", VStr (lit "unknown"));
    (lit "available_regions", VList []) ].

Definition default_price_data (price_data : dict) : dict :=
  let pd1 :=
    if negb (dict_has (lit "currency") price_data)
       || negb (truthy (py_get price_data (lit "currency")))
    then dict_set (lit "currency") (VStr (lit "RUB")) price_data
    else price_data in
  if negb (dict_has (lit "sale_tag") pd1)
  then dict_set (lit "sale_tag") VNone pd1
  else pd1.

(** [DefaultValuesPipeline.process_item]; [now] is what
    [int(time.time())] returns. *)
Definition process_item (now : Z) (item : dict) : dict :=
  let item1 := fill_defaults defaults item in
  let item2 :=
    if is_none (py_get item1 (lit "scraped_at"))
    then dict_set (lit "scraped_at") (VInt now) item1
    else item1 in
  let item3 := on_nested (lit "price_data") default_price_data item2 in
  let item4 := on_nested (lit "assets") (fill_defaults defaults_assets) item3 in
  on_nested (lit "stock_data") (fill_defaults defaults_stock) item4.

End DefaultValuesPipeline.

(** ** DataCleaningPipeline *)

Module DataCleaningPipeline.
Section WithBuiltins.
Context `{Builtins}.

Definition string_fields : list str :=
  [lit "name"; lit "brand"; lit "description"; lit "tasting_notes";
   lit "food_pairing"; lit "category"].

Definition clean_string_field (item : dict) (field : str) : dict :=
  if dict_has field item then
    match py_get item field with
    | VStr s =>
      let cleaned := collapse_ws s in
      if str_eqb cleaned s then item else dict_set field (VStr cleaned) item
    | _ => item
    end
  else item.

(** [tag.strip() for tag in tags if tag and isinstance(tag, str)] *)
Definition stripped_tags (tags : list value) : list str :=
  flat_map (fun tag =>
              match tag with
              | VStr s => if truthy tag then [strip s] else []
              | _ => []
              end) tags.

(** [sorted(list(set(...)))] and [sorted(list(dict.fromkeys(...)))] on
    strings: the distinct entries, sorted. *)
Definition clean_tags (field : str) (item : dict) : dict :=
  if truthy (py_get item field) then
    match py_get item field with
    | VList tags =>
      dict_set field (VList (List.map VStr (sorted (dedup (stripped_tags tags))))) item
    | _ => item
    end
  else item.

Definition clean_attribute (v : value) : value :=
  match v with
  | VStr s => VStr (collapse_ws s)
  | VList l => VList (List.filter truthy l)
  | _ => v
  end.

Definition clean_attributes (item : dict) : dict :=
  on_nested (lit "attributes")
    (fun attributes =>
       fold_left (fun cleaned_attrs kv =>
                    if truthy (VStr (fst kv)) && negb (is_none (snd kv))
                    then dict_set (fst kv) (clean_attribute (snd kv)) cleaned_attrs
                    else cleaned_attrs)
                 attributes [])
    item.

Definition clean_image_urls (item : dict) : res dict :=
  if truthy (py_get item (lit "image_urls")) then
    match py_get item (lit "image_urls") with
    | VList urls =>
      unique_urls ← unique_values urls;
      Ok (dict_set (lit "image_urls") (VList unique_urls) item)
    | _ => Ok item
    end
  else Ok item.

(** [if key in assets and isinstance(assets[key], list):
       assets[key] = list(dict.fromkeys(assets[key]))] *)
Definition dedup_asset (key : str) (assets : dict) : res dict :=
  match dict_get key assets with
  | Some (VList l) =>
    unique ← unique_values l;
    Ok (dict_set key (VList unique) assets)
  | _ => Ok assets
  end.

Definition clean_assets (item : dict) : res dict :=
  if truthy (py_get item (lit "assets")) then
    match py_get item (lit "assets") with
    | VDict assets =>
      a1 ← dedup_asset (lit "gallery_images") assets;
      a2 ← dedup_asset (lit "view_360") a1;
      a3 ← dedup_asset (lit "video") a2;
      a4 ← dedup_asset (lit "cached_images") a3;
      Ok (dict_set (lit "assets") (VDict a4) item)
    | _ => Ok item
    end
  else Ok item.

Definition clean_description (item : dict) : dict :=
  if truthy (py_get item (lit "description")) then
    match py_get item (lit "description") with
    | VStr desc =>
      let cleaned_desc := replace_char 10%N [32%N] (replace_char 13%N [] desc) in
      dict_set (lit "description") (VStr (collapse_ws cleaned_desc)) item
    | _ => item
    end
  else item.

(** [try: x = float(adapter[field]); if x < 0: adapter[field] = 0
     except (ValueError, TypeError): adapter[field] = None] *)
Definition clean_nonnegative (field : str) (item : dict) : res dict :=
  if negb (is_none (py_get item field)) then
    match py_float (py_get item field) with
    | Ok x => if ltb x zero then Ok (dict_set field (VInt 0) item) else Ok item
    | Raise OverflowError => Raise OverflowError
    | Raise _ => Ok (dict_set field VNone item)
    end
  else Ok item.

Definition clean_rating (item : dict) : res dict :=
  if negb (is_none (py_get item (lit "rating"))) then
    match py_float (py_get item (lit "rating")) with
    | Ok rating =>
      if ltb rating zero || ltb (of_Z 5) rating
      then Ok (dict_set (lit "rating") VNone item)
      else Ok item
    | Raise OverflowError => Raise OverflowError
    | Raise _ => Ok (dict_set (lit "rating") VNone item)
    end
  else Ok item.

Definition clean_discount (item : dict) : res dict :=
  if negb (is_none (py_get item (lit "discount_percentage"))) then
    match py_int (py_get item (lit "discount_percentage")) with
    | Ok discount =>
      if (discount <? 0) || (100 <? discount)
      then Ok (dict_set (lit "discount_percentage") (VInt 0) item)
      else Ok item
    | Raise OverflowError => Raise OverflowError
    | Raise _ => Ok (dict_set (lit "discount_percentage") VNone item)
    end
  else Ok item.

(** [DataCleaningPipeline.process_item] *)
Definition process_item (item : dict) : res dict :=
  let item1 := fold_left clean_string_field string_fields item in
  let item2 := clean_tags (lit "marketing_tags") item1 in
  let item3 := clean_attributes item2 in
  item4 ← clean_image_urls item3;
  let item5 := clean_tags (lit "tags") item4 in
  item6 ← clean_assets item5;
  let item7 := clean_description item6 in
  item8 ← clean_nonnegative (lit "price") item7;
  item9 ← clean_nonnegative (lit "original_price") item8;
  item10 ← clean_rating item9;
  clean_discount item10.

End WithBuiltins.
End DataCleaningPipeline.

(** ** The three stages in the order of [ITEM_PIPELINES] (300, 400, 500) *)

Definition normalize `{Builtins} (now : Z) (item : dict) : outcome :=
  and_then (ValidationPipeline.process_item item) (fun validated =>
  of_res (DataCleaningPipeline.process_item
            (DefaultValuesPipeline.process_item now validated))).

End Pipelines.

(* ===================================================================== *)
(** * spiders/alkoteka_spider.py *)
(* ===================================================================== *)

Module AlkotekaSpider.

(** The text of a JSON attribute or script as [json.loads] sees it:
    either it raises [JSONDecodeError] on the text, or it decodes a
    (non-empty) text to a value. *)
Inductive json_text : Type :=
  | Invalid (text : str)
  | Json (data : value).

(** [if text:] on such a text *)
Definition nonempty_text (t : json_text) : bool :=
  match t with
  | Invalid [] => false
  | _ => true
  end.

(** A [tr] of a characteristics table: the first text under the key
    selectors, the first under the value selectors, and all its
    [td::text]. *)
Record table_row := {
  row_key : option str;
  row_value : option str;
  row_cells : list str
}.

(** An element of a specification list or container: the first text
    under its label selectors and under its value selectors. *)
Record labelled := {
  label_text : option str;
  value_text : option str
}.

(** The page-level [response.css(...).getall()] queries of variant
    detection. *)
Inductive query : Type :=
  | VolumeSelectorOptions      (* .volume-selector option::text *)
  | SelectNameVolumeOptions    (* select[name*=volume] option::text *)
  | SelectClassVolumeOptions   (* select[class*=volume] option::text *)
  | VolumeBtn                  (* .volume-btn::text *)
  | ClassVolumeBtn             (* [class*=volume][class*=btn]::text *)
  | SizeButtonDataVolume       (* .size-button[data-volume]::text *)
  | ColorSelectorOptions       (* .color-selector option::text *)
  | SelectNameColorOptions     (* select[name*=color] option::text *)
  | SelectClassColorOptions    (* select[class*=color] option::text *)
  | ColorBtn                   (* .color-btn::text *)
  | ClassColorBtn              (* [class*=color][class*=btn]::text *)
  | DataColor.                 (* [data-color]::text *)

(** What the spider reads from a product page. *)
Record response := {
  url : str;
  table_rows : list table_row;
  specs_lists : list labelled;
  spec_divs : list labelled;
  jsonld_scripts : list json_text;
  getall : query -> list str;
  data_available_colors : option json_text;
  data_variants : option json_text;
  script_variants : option json_text
}.

Section WithBuiltins.
Context `{Builtins}.

Definition text_truthy (t : option str) : bool :=
  match t with
  | Some (_ :: _) => true
  | _ => false
  end.

(** [if key and value: k = key.strip(); v = value.strip();
     if k and v: chars[k] = v] *)
Definition add_pair (chars : dict) (key value : option str) : dict :=
  match key, value with
  | Some k, Some v =>
    if truthy (VStr k) && truthy (VStr v) then
      let key_cleaned := strip k in
      let value_cleaned := strip v in
      if truthy (VStr key_cleaned) && truthy (VStr value_cleaned)
      then dict_set key_cleaned (VStr value_cleaned) chars
      else chars
    else chars
  | _, _ => chars
  end.

Definition _parse_table_characteristics (r : response) : dict :=
  fold_left
    (fun chars row =>
       let key := row_key row in
       let value := row_value row in
       if negb (text_truthy key) then
         match row_cells row with
         | c0 :: _ :: _ => add_pair chars (Some c0) (Some (List.last (row_cells row) c0))
         | _ => add_pair chars key value
         end
       else add_pair chars key value)
    (table_rows r) [].

Definition _parse_list_characteristics (r : response) : dict :=
  fold_left (fun chars item => add_pair chars (label_text item) (value_text item))
            (specs_lists r) [].

Definition _parse_div_characteristics (r : response) : dict :=
  fold_left (fun chars item => add_pair chars (label_text item) (value_text item))
            (spec_divs r) [].

(** [for prop in props]: [None] when [props] cannot be iterated. *)
Definition iterate (props : value) : option (list value) :=
  match props with
  | VList l => Some l
  | VDict d => Some (List.map (fun kv => VStr (fst kv)) d)
  | VStr s => Some (List.map (fun c => VStr [c]) s)
  | _ => None
  end.

Definition add_property (chars : dict) (prop : value) : dict :=
  match prop with
  | VDict p =>
    let name := py_get_or p (lit "name") (VStr []) in
    let value := py_get_or p (lit "value") (VStr []) in
    if truthy name && truthy value
    then dict_set (py_str name) (VStr (py_str value)) chars
    else chars
  | _ => chars
  end.

Definition skipped_keys : list str :=
  [lit "@context"; lit "@type"; lit "url"; lit "image"; lit "name"; lit "description"].

Definition add_plain_entry (chars : dict) (kv : str * value) : dict :=
  if negb (existsb (str_eqb (fst kv)) skipped_keys) then
    match snd kv with
    | VStr s => if (length s <? 200)%nat then dict_set (fst kv) (VStr s) chars else chars
    | _ => chars
    end
  else chars.

(** One decoded script; [None] when the [TypeError] of a property list
    that cannot be iterated escapes to the outer handler. *)
Definition jsonld_document (chars : dict) (data : value) : option dict :=
  match data with
  | VDict d =>
    if dict_has (lit "additionalProperty") d then
      match iterate (py_get_or d (lit "additionalProperty") (VList [])) with
      | Some props =>
        Some (fold_left add_plain_entry d (fold_left add_property props chars))
      | None => None
      end
    else Some (fold_left add_plain_entry d chars)
  | _ => Some chars
  end.

Fixpoint jsonld_scripts_loop (chars : dict) (scripts : list json_text) : dict :=
  match scripts with
  | [] => chars
  | Invalid _ :: rest => jsonld_scripts_loop chars rest
  | Json data :: rest =>
    match jsonld_document chars data with
    | Some chars' => jsonld_scripts_loop chars' rest
    | None => chars
    end
  end.

Definition _extract_jsonld_characteristics (r : response) : dict :=
  jsonld_scripts_loop [] (jsonld_scripts r).

Definition is_empty (d : dict) : bool :=
  match d with [] => true | _ => false end.

Definition _extract_characteristics (r : response) : dict :=
  let c0 := dict_update [] (_parse_table_characteristics r) in
  let c1 := if is_empty c0 then dict_update c0 (_parse_list_characteristics r) else c0 in
  let c2 := if is_empty c1 then dict_update c1 (_parse_div_characteristics r) else c1 in
  dict_update c2 (_extract_jsonld_characteristics r).

(** ** Variants *)

Definition invalid_keywords : list str :=
  [lit "размер"; lit "size"; lit "одежда"; lit "clothing"; lit "shirt";
   lit "pants"; lit "dress"; lit "обувь"; lit "shoe"; lit "носок"; lit "sock";
   lit "width"; lit "длина"; lit "height"; lit "высота";
   lit "material"; lit "материал"; lit "ткань"; lit "fabric";
   lit "large"; lit "small"; lit "medium"; lit "extra"].

(** The alternatives of [(xs|s|m|l|xl|xxl)], in the order tried. *)
Definition size_tokens : list str :=
  [lit "xs"; lit "s"; lit "m"; lit "l"; lit "xl"; lit "xxl"].

(** [re.match(r'^\s*(xs|s|m|l|xl|xxl)\s*$', s)] *)
Definition match_bare_size (s : str) : bool :=
  let body := lstrip s in
  existsb (fun tok => starts_with tok body
                      && forallb is_space (skipn (length tok) body))
          size_tokens.

(** [re.match(r'size\s+(xs|s|m|l|xl|xxl)', s)] *)
Definition match_size_then_token (s : str) : bool :=
  starts_with (lit "size") s &&
  let rest := skipn 4 s in
  match rest with
  | c :: _ => is_space c && existsb (fun tok => starts_with tok (lstrip rest)) size_tokens
  | [] => false
  end.

(** [re.match(r'(xs|s|m|l|xl|xxl)\s*size', s)] *)
Definition match_token_then_size (s : str) : bool :=
  existsb (fun tok => starts_with tok s
                      && starts_with (lit "size") (lstrip (skipn (length tok) s)))
          size_tokens.

Definition placeholders : list str :=
  [lit "select"; lit "выбрать"; lit "choose"; lit "выбор"].

Definition _validate_variant (variant : str) : bool :=
  if negb (truthy (VStr variant)) then false
  else
    let normalized := strip (str_lower variant) in
    if negb (truthy (VStr normalized)) || (100 <? length normalized)%nat then false
    else if existsb (fun keyword => contains keyword normalized) invalid_keywords then false
    else if match_bare_size normalized
            || match_size_then_token normalized
            || match_token_then_size normalized then false
    else if existsb (str_eqb normalized) placeholders then false
    else true.

Fixpoint dedup_from (seen : list str) (variants : list str) : list str :=
  match variants with
  | [] => []
  | variant :: rest =>
    let normalized := strip (str_lower variant) in
    if existsb (str_eqb normalized) seen
    then dedup_from seen rest
    else variant :: dedup_from (normalized :: seen) rest
  end.

Definition _deduplicate_variants (variants : list str) : list str :=
  dedup_from [] variants.

(** [a or b or c] on query results: the first non-empty list. *)
Definition first_nonempty (r : response) (q1 q2 q3 : query) : list str :=
  match getall r q1 with
  | _ :: _ => getall r q1
  | [] =>
    match getall r q2 with
    | _ :: _ => getall r q2
    | [] => getall r q3
    end
  end.

(** [for t in texts: if t and t.strip(): cleaned = t.strip();
     if keep(cleaned): variants.append(cleaned)] *)
Definition cleaned_where (keep : str -> bool) (texts : list str) : list str :=
  flat_map (fun t =>
              if truthy (VStr t) && truthy (VStr (strip t))
              then (if keep (strip t) then [strip t] else [])
              else [])
           texts.

Definition _extract_volume_variants (r : response) : list str :=
  let option_variants :=
    first_nonempty r VolumeSelectorOptions SelectNameVolumeOptions SelectClassVolumeOptions in
  let button_variants :=
    first_nonempty r VolumeBtn ClassVolumeBtn SizeButtonDataVolume in
  _deduplicate_variants
    (cleaned_where _validate_variant option_variants
     ++ cleaned_where _validate_variant button_variants).

Definition colors_from_attr (r : response) : list str :=
  match data_available_colors r with
  | Some (Json (VList colors)) =>
    flat_map (fun color =>
                match color with
                | VStr s => if _validate_variant s then [s] else []
                | _ => []
                end) colors
  | _ => []
  end.

Definition _extract_color_variants (r : response) : list str :=
  let color_options :=
    first_nonempty r ColorSelectorOptions SelectNameColorOptions SelectClassColorOptions in
  let color_buttons :=
    first_nonempty r ColorBtn ClassColorBtn DataColor in
  _deduplicate_variants
    (cleaned_where
       (fun cleaned =>
          (contains (lit "color") (str_lower (url r))
           || contains (lit "цвет") (str_lower cleaned))
          && _validate_variant cleaned)
       color_options
     ++ cleaned_where _validate_variant color_buttons
     ++ colors_from_attr r).

(** [len([v for v in entries if self._validate_variant(str(v))])] *)
Definition count_valid (entries : list value) : Z :=
  Z.of_nat (length (List.filter (fun v => _validate_variant (py_str v)) entries)).

Definition is_list (v : value) : bool :=
  match v with VList _ => true | _ => false end.

Definition entries_of (v : value) : list value :=
  match v with VList l => l | _ => [] end.

Definition _extract_variants_from_json (r : response) : Z :=
  let variants_json :=
    match data_variants r with
    | Some t => if nonempty_text t then data_variants r else script_variants r
    | None => script_variants r
    end in
  match variants_json with
  | Some (Json data) =>
    match data with
    | VDict d =>
      if dict_has (lit "variants") d && is_list (py_get d (lit "variants"))
      then count_valid (entries_of (py_get d (lit "variants")))
      else if dict_has (lit "options") d && is_list (py_get d (lit "options"))
      then count_valid (entries_of (py_get d (lit "options")))
      else 0
    | VList l => count_valid l
    | _ => 0
    end
  | _ => 0
  end.

(** The markup-derived count: the distinct labels of both selectors that
    pass validation. *)
Definition markup_count (r : response) : Z :=
  let variants := dedup (_extract_volume_variants r ++ _extract_color_variants r) in
  Z.of_nat (length (List.filter _validate_variant variants)).

Definition _detect_variants (r : response) : Z :=
  let json_variants_count := _extract_variants_from_json r in
  if 0 <? json_variants_count then json_variants_count
  else markup_count r.

(** [_calculate_discount] repeats [items.calculate_discount]. *)
Definition _calculate_discount (original current : option float64) : option Z :=
  match original with
  | None => None
  | Some o =>
    if eqb o zero then None
    else match current with
    | None => None
    | Some c =>
      if eqb c zero then None
      else if leb o zero then None
      else
        let discount := mul (div (sub o c) o) (of_Z 100) in
        Some (Items.to_int (Items.max_0 (Items.min_100 discount)))
    end
  end.

End WithBuiltins.
(** ** Prices, stock and assets *)

Section PageData.
Context `{Builtins}.

(** [not p] on an [Optional[float]] *)
Definition no_price (p : option float64) : bool :=
  match p with
  | Some f => negb (truthy (VFloat f))
  | None => true
  end.

Definition price_value (p : option float64) : value :=
  match p with
  | Some f => VFloat f
  | None => VNone
  end.

(** [_extract_price_data], on what [_extract_current_price] and
    [_extract_original_price] return. *)
Definition _extract_price_data (current_price original_price : option float64)
  : option dict :=
  if no_price current_price then None
  else
    let original_price :=
      if no_price original_price then current_price else original_price in
    let discount := _calculate_discount original_price current_price in
    let sale_tag :=
      match discount with
      | Some d =>
        if truthy (VInt d) && (0 <? d)
        then VStr (lit "Скидка " ++ py_str (VInt d) ++ lit "%")
        else VNone
      | None => VNone
      end in
    Some [(lit "current", price_value current_price);
          (lit "original", price_value original_price);
          (lit "sale_tag", sale_tag);
          (lit "currency", VStr (lit "RUB"))].

Definition text_value (t : option str) : value :=
  match t with
  | Some s => VStr s
  | None => VNone
  end.

(** [_extract_stock_data], on what [_check_in_stock],
    [_extract_stock_count] and [_extract_stock_status] return. *)
Definition _extract_stock_data (in_stock : option bool) (count : option Z)
           (status : option str) : option dict :=
  match in_stock, text_truthy status with
  | None, false => None
  | _, _ =>
    Some [(lit "in_stock", VBool (match in_stock with Some b => b | None => true end));
          (lit "count", VInt (match count with Some n => n | None => 0 end));
          (lit "status", text_value status);
          (lit "available_regions", VList [])]
  end.

Definition no_urls (urls : list str) : bool :=
  match urls with [] => true | _ => false end.

(** [_extract_assets], on what [_extract_main_image],
    [_extract_gallery_images], [_extract_360_view] and
    [_extract_video_urls] return. *)
Definition _extract_assets (main_image : option str)
           (gallery_images view_360 video_urls : list str) : option dict :=
  if negb (text_truthy main_image) && no_urls gallery_images && no_urls video_urls
  then None
  else
    Some [(lit "main_image", text_value main_image);
          (lit "gallery_images", VList (List.map VStr gallery_images));
          (lit "view_360", VList (List.map VStr view_360));
          (lit "video", VList (List.map VStr video_urls));
          (lit "cached_images", VList [])].

(** ** URLs *)

(** [response.urljoin] *)
Variable urljoin : str -> str.

Definition _normalize_url (url : str) : option str :=
  if negb (truthy (VStr url)) then None
  else
    let url := strip url in
    if starts_with (lit "http://") url || starts_with (lit "https://") url
    then Some url
    else if starts_with (lit "//") url
    then Some (lit "https:" ++ url)
    else Some (urljoin url).

(** One turn of the loop of [_extract_gallery_images] and
    [_extract_360_view], on the list [normalized] and the set [seen]
    (held as a list). *)
Definition normalize_step (state : list str * list str) (img : str)
  : list str * list str :=
  if truthy (VStr img) then
    match _normalize_url img with
    | Some normalized_url =>
      if truthy (VStr normalized_url)
         && negb (existsb (str_eqb normalized_url) (snd state))
      then (fst state ++ [normalized_url], normalized_url :: snd state)
      else state
    | None => state
    end
  else state.

Definition normalize_each (images : list str) : list str * list str :=
  fold_left normalize_step images ([], []).

(** [a or b] on lists *)
Definition or_else (a b : list str) : list str :=
  match a with
  | _ :: _ => a
  | [] => b
  end.

(** The images [_extract_gallery_images] works on: the first non-empty
    result of its four queries, else those of
    [_extract_images_from_json]. *)
Definition gallery_sources (gallery carousel class_gallery class_product from_json
                            : list str) : list str :=
  or_else (or_else (or_else (or_else gallery carousel) class_gallery) class_product)
          from_json.

Definition _extract_gallery_images (gallery carousel class_gallery class_product
                                    from_json : list str) : list str :=
  let images := gallery_sources gallery carousel class_gallery class_product from_json in
  sorted (fst (normalize_each images)).

(** The images [_extract_360_view] works on. *)
Definition view_360_sources (data_360 view_img typed_img : list str) : list str :=
  or_else (or_else data_360 view_img) typed_img.

Definition _extract_360_view (data_360 view_img typed_img : list str) : list str :=
  let normalized := fst (normalize_each (view_360_sources data_360 view_img typed_img)) in
  match normalized with
  | _ :: _ => sorted normalized
  | [] => []
  end.

End PageData.

End AlkotekaSpider.

(* ===================================================================== *)
(** * middlewares.py *)
(* ===================================================================== *)

Module Middlewares.

(** The state of a [ProxyMiddleware].  [proxy_pool] is [None] or the
    iterator [cycle(self.proxies)], held as the period it yields next:
    [next] returns its head and moves it to the back. *)
Record ProxyMiddleware := {
  enabled : bool;
  proxies : list str;
  proxy_pool : option (list str);
  blacklist : gset str;
  stats_total : Z;
  stats_success : Z;
  stats_failed : Z
}.

Definition set_pool (pool : list str) (m : ProxyMiddleware) : ProxyMiddleware :=
  {| enabled := enabled m; proxies := proxies m; proxy_pool := Some pool;
     blacklist := blacklist m; stats_total := stats_total m;
     stats_success := stats_success m; stats_failed := stats_failed m |}.

Definition set_blacklist (bl : gset str) (m : ProxyMiddleware) : ProxyMiddleware :=
  {| enabled := enabled m; proxies := proxies m; proxy_pool := proxy_pool m;
     blacklist := bl; stats_total := stats_total m;
     stats_success := stats_success m; stats_failed := stats_failed m |}.

Definition count_total (m : ProxyMiddleware) : ProxyMiddleware :=
  {| enabled := enabled m; proxies := proxies m; proxy_pool := proxy_pool m;
     blacklist := blacklist m; stats_total := stats_total m + 1;
     stats_success := stats_success m; stats_failed := stats_failed m |}.

Definition count_success (m : ProxyMiddleware) : ProxyMiddleware :=
  {| enabled := enabled m; proxies := proxies m; proxy_pool := proxy_pool m;
     blacklist := blacklist m; stats_total := stats_total m;
     stats_success := stats_success m + 1; stats_failed := stats_failed m |}.

Definition count_failed (m : ProxyMiddleware) : ProxyMiddleware :=
  {| enabled := enabled m; proxies := proxies m; proxy_pool := proxy_pool m;
     blacklist := blacklist m; stats_total := stats_total m;
     stats_success := stats_success m; stats_failed := stats_failed m + 1 |}.

(** [[line.strip() for line in lines
      if line.strip() and not line.startswith('#')]] *)
Definition parse_proxy_lines (lines : list str) : list str :=
  flat_map (fun line =>
              if truthy (VStr (strip line)) && negb (starts_with (lit "#") line)
              then [strip line] else [])
           lines.

(** [file] holds the lines of the proxy file, [None] when it does not
    exist or cannot be read. *)
Definition _load_proxies (file : option (list str)) : list str :=
  match file with
  | Some lines => parse_proxy_lines lines
  | None => []
  end.

(** [__init__] with the settings [PROXY_ENABLED] and the content of
    [PROXY_FILE]. *)
Definition init (proxy_enabled : bool) (file : option (list str)) : ProxyMiddleware :=
  let loaded := if proxy_enabled then _load_proxies file else [] in
  {| enabled := proxy_enabled;
     proxies := loaded;
     proxy_pool :=
       if proxy_enabled
       then match loaded with [] => None | _ => Some loaded end
       else None;
     blacklist := ∅;
     stats_total := 0; stats_success := 0; stats_failed := 0 |}.

(** The loop of [_get_next_proxy], [attempts_left] being
    [len(self.proxies) - attempts]. *)
Fixpoint scan (attempts_left : nat) (pool : list str) (bl : gset str)
  : option str * list str :=
  match attempts_left with
  | O => (None, pool)
  | S n =>
    match pool with
    | [] => (None, pool)
    | proxy :: rest =>
      if decide (proxy ∈ bl)
      then scan n (rest ++ [proxy]) bl
      else (Some proxy, rest ++ [proxy])
    end
  end.

Definition _get_next_proxy (m : ProxyMiddleware) : option str * ProxyMiddleware :=
  match proxy_pool m with
  | None => (None, m)
  | Some pool =>
    let r := scan (length (proxies m)) pool (blacklist m) in
    (fst r, set_pool (snd r) m)
  end.

Definition is_nil (l : list str) : bool :=
  match l with [] => true | _ => false end.

(** [process_request]: the proxy written to [request.meta], if any. *)
Definition process_request (m : ProxyMiddleware) : option str * ProxyMiddleware :=
  if negb (enabled m) || is_nil (proxies m) then (None, m)
  else
    let r := _get_next_proxy m in
    match fst r with
    | Some proxy =>
      if truthy (VStr proxy) then (Some proxy, count_total (snd r)) else (None, snd r)
    | None => (None, snd r)
    end.

(** [process_response], [proxy_current] being
    [request.meta.get('proxy_current')]. *)
Definition process_response (proxy_current : option str) (m : ProxyMiddleware)
  : ProxyMiddleware :=
  match proxy_current with
  | Some proxy =>
    if truthy (VStr proxy) then
      let m1 := count_success m in
      if decide (proxy ∈ blacklist m1)
      then set_blacklist (blacklist m1 ∖ {[proxy]}) m1
      else m1
    else m
  | None => m
  end.

(** [process_exception]: the new state, and whether a retry request is
    returned. *)
Definition process_exception (proxy_current : option str) (m : ProxyMiddleware)
  : bool * ProxyMiddleware :=
  match proxy_current with
  | Some proxy =>
    if truthy (VStr proxy) then
      let m1 := count_failed (set_blacklist ({[proxy]} ∪ blacklist m) m) in
      ((size (blacklist m1) <? length (proxies m1))%nat, m1)
    else (false, m)
  | None => (false, m)
  end.

(** The calls the downloader makes on the middleware. *)
Inductive event : Type :=
  | Request
  | Response (proxy_current : option str)
  | Failure (proxy_current : option str).

Definition step (m : ProxyMiddleware) (e : event) : ProxyMiddleware :=
  match e with
  | Request => snd (process_request m)
  | Response p => process_response p m
  | Failure p => snd (process_exception p m)
  end.

Definition run (m : ProxyMiddleware) (events : list event) : ProxyMiddleware :=
  fold_left step events m.

(** A state is reachable when some settings and some calls lead to it. *)
Definition reachable (m : ProxyMiddleware) : Prop :=
  exists proxy_enabled file events, m = run (init proxy_enabled file) events.

(** [k] consecutive calls of [_get_next_proxy]. *)
Fixpoint advance (k : nat) (m : ProxyMiddleware) : ProxyMiddleware :=
  match k with
  | O => m
  | S k' => advance k' (snd (_get_next_proxy m))
  end.

(** [get_stats] *)
Definition get_stats (m : ProxyMiddleware) : dict :=
  [(lit "total_requests", VInt (stats_total m));
   (lit "successful", VInt (stats_success m));
   (lit "failed", VInt (stats_failed m));
   (lit "blacklisted_proxies", VInt (Z.of_nat (size (blacklist m))));
   (lit "available_proxies",
    VInt (Z.of_nat (length (proxies m)) - Z.of_nat (size (blacklist m))))].

(** ** RegionMiddleware *)

Module RegionMiddleware.

(** What the middleware reads and writes of a request; [cookies] and
    [headers] are mappings, as in the tests of the repository. *)
Record request := {
  meta : dict;
  cookies : dict;
  headers : dict
}.

(** [for key, value in table.items(): if key not in d: d[key] = value] *)
Definition set_missing (table : dict) (d : dict) : dict :=
  fold_left (fun acc kv =>
               if negb (dict_has (fst kv) acc) then dict_set (fst kv) (snd kv) acc
               else acc)
            table d.

Section WithRegion.

(** [self.region]: the setting [REGION_NAME], in lower case. *)
Variable region : str.

(** [str.capitalize] *)
Variable capitalize : str -> str.

Definition region_cookies : dict :=
  [(lit "city", VStr region); (lit "selected_region", VStr region)].

Definition region_headers : dict :=
  [(lit "X-Region", VStr (capitalize region)); (lit "X-City", VStr (capitalize region))].

Definition _set_region_cookie (r : request) : request :=
  {| meta := if negb (dict_has (lit "cookies") (meta r))
             then dict_set (lit "cookies") (VDict []) (meta r)
             else meta r;
     cookies := set_missing region_cookies (cookies r);
     headers := headers r |}.

Definition _set_region_headers (r : request) : request :=
  {| meta := meta r;
     cookies := cookies r;
     headers := set_missing region_headers (headers r) |}.

Definition process_request (r : request) : request :=
  _set_region_headers (_set_region_cookie r).

End WithRegion.
End RegionMiddleware.

End Middlewares.

(* ===================================================================== *)
(** * utils.py *)
(* ===================================================================== *)

Module Utils.



End Utils.

(* ===================================================================== *)
(** * commands/validate.py *)
(* ===================================================================== *)

Module Validate.

(** [DataValidator._validate_item] *)
Definition _validate_item (item : dict) : bool :=
  forallb (fun field => truthy (py_get item field)) [lit "product_id"; lit "name"].

End Validate.

(* ===================================================================== *)
(** * A runtime for concrete evaluation *)
(* ===================================================================== *)

(** The example records below use no numeric strings beyond plain
    decimal digits and no letters beyond ASCII and basic Cyrillic; this
    instance of [Builtins] agrees with the interpreter on those. *)
Module Runtime.

Definition lower_char (c : char) : char :=
  (if (65 <=? c) && (c <=? 90) then c + 32
   else if (1040 <=? c) && (c <=? 1071) then c + 32
   else if (1024 <=? c) && (c <=? 1039) then c + 80
   else c)%N.

Definition lower (s : str) : str := List.map lower_char s.

Fixpoint digits_value (acc : Z) (s : str) : option Z :=
  match s with
  | [] => Some acc
  | c :: t =>
    if ((48 <=? c) && (c <=? 57))%N
    then digits_value (10 * acc + Z.of_N (c - 48)) t
    else None
  end.

Definition parse_digits (s : str) : option Z :=
  match s with
  | [] => None
  | _ => digits_value 0 s
  end.

Definition simple_repr (v : value) : str :=
  match v with
  | VNone => lit "None"
  | VBool true => lit "True"
  | VBool false => lit "False"
  | _ => []
  end.


Definition sample : Builtins := {|
  float_of_str := fun s => option_map of_Z (parse_digits s);
  int_of_str := parse_digits;
  str_lower := lower;
  repr := simple_repr
|}.

End Runtime.

(* ===================================================================== *)
(** * Vocabulary of the specification *)
(* ===================================================================== *)

Import Pipelines.
Import ValidationPipeline DefaultValuesPipeline DataCleaningPipeline.

Module Spec.

(** A field is absent from the record, or holds a value that is empty
    in Python's sense ([None], [0], [''], [[]], [{}], [False]). *)
Definition absent_or_empty (item : dict) (field : str) : Prop :=
  dict_get field item = None \/
  exists v, dict_get field item = Some v /\ truthy v = false.

Definition missing_fields `{Builtins} (item : dict) : list str :=
  List.filter (missing item) required_fields.

(** *** Fields a stage leaves alone *)

(** [d'] agrees with [d] on every key outside [keys]. *)
Definition untouched (keys : list str) (d d' : dict) : Prop :=
  forall k, existsb (str_eqb k) keys = false -> dict_get k d' = dict_get k d.

Definition validation_keys : list str :=
  [lit "price_data"; lit "stock_data"; lit "price"].

Definition defaults_keys : list str :=
  List.map fst defaults
  ++ [lit "scraped_at"; lit "price_data"; lit "assets"; lit "stock_data"].

Definition cleaning_keys : list str :=
  string_fields
  ++ [lit "marketing_tags"; lit "attributes"; lit "image_urls"; lit "tags";
      lit "assets"; lit "description"; lit "price"; lit "original_price";
      lit "rating"; lit "discount_percentage"].

Definition cleaning_prefix_keys : list str :=
  string_fields
  ++ [lit "marketing_tags"; lit "attributes"; lit "image_urls"; lit "tags";
      lit "assets"; lit "description"; lit "price"; lit "original_price"].

(** The keys of the cleaning stage other than [field]. *)
Definition cleaning_keys_except (field : str) : list str :=
  List.filter (fun k => negb (str_eqb field k)) cleaning_keys.

Definition cleaning_head_keys : list str :=
  string_fields
  ++ [lit "marketing_tags"; lit "attributes"; lit "image_urls"; lit "tags";
      lit "assets"; lit "description"].

(** *** Nested structures *)

(** The fields [items.py] declares for [PriceDataItem], [StockItem]
    and [AssetsItem]. *)
Definition price_data_fields : list str :=
  [lit "current"; lit "original"; lit "sale_tag"; lit "currency"].

Definition stock_fields : list str :=
  [lit "in_stock"; lit "count"; lit "status"; lit "available_regions"].

Definition assets_fields : list str :=
  [lit "main_image"; lit "gallery_images"; lit "view_360"; lit "video";
   lit "cached_images"].

(** Every key of [keys] is present in the nested mapping [field] of a
    record that has one. *)
Definition nested_complete (field : str) (keys : list str) (record : dict) : bool :=
  match py_get record field with
  | VDict nested => forallb (fun k => dict_has k nested) keys
  | _ => true
  end.

(** No key occurs twice in a table of defaults. *)
Fixpoint distinct_keys (table : dict) : bool :=
  match table with
  | [] => true
  | kv :: t => negb (existsb (str_eqb (fst kv)) (List.map fst t)) && distinct_keys t
  end.

(** A record with a price but no original price, and an empty stock
    mapping. *)
Definition sparse_nested_record : dict :=
  [ (lit "product_id", VStr (lit "12345"));
    (lit "name", VStr (lit "Vodka Absolut"));
    (lit "product_url", VStr (lit "https://example.com/product"));
    (lit "scraped_at", VInt 1234567890);
    (lit "price_data", VDict [(lit "current", VInt 1000)]);
    (lit "stock_data", VDict []) ].

(** *** Tag lists *)

Definition str_le (a b : str) : Prop := str_leb a b = true.

(** Two tags that differ at most by case and surrounding whitespace. *)
Definition same_ignoring_case `{Builtins} (a b : str) : Prop :=
  str_lower (strip a) = str_lower (strip b).

(** *** Numeric ranges of a normalized record *)

(** [lo <= v <= hi] for a value that is a number. *)
Definition number_between (lo hi : Z) (v : value) : bool :=
  match v with
  | VInt z => (lo <=? z) && (z <=? hi)
  | VFloat f => leb (of_Z lo) f && leb f (of_Z hi)
  | _ => false
  end.

(** The record of the tests, with one more field. *)
Definition minimal_record_with (field : str) (v : value) : dict :=
  [ (lit "product_id", VStr (lit "12345"));
    (lit "name", VStr (lit "Vodka Absolut"));
    (lit "product_url", VStr (lit "https://example.com/product"));
    (lit "scraped_at", VInt 1234567890);
    (field, v) ].

(** A record whose name is one space. *)
Definition blank_name_record : dict :=
  [ (lit "product_id", VStr (lit "1"));
    (lit "name", VStr (lit " "));
    (lit "product_url", VStr (lit "https://x"));
    (lit "scraped_at", VInt 1) ].

(** A record whose discounted price is set against an original price
    of zero. *)
Definition zero_original_record : dict :=
  minimal_record_with (lit "price_data")
    (VDict [(lit "current", VInt 5); (lit "original", VInt 0)]).

(** 100.5 *)
Definition f_100_5 : float64 := div (of_Z 201) (of_Z 2).

(** -0.5 *)
Definition f_minus_0_5 : float64 := div (of_Z (-1)) (of_Z 2).

(** *** Discount, in the words of the specification *)

(** An operand is absent or zero. *)
Definition absent_or_zero (x : option float64) : Prop :=
  x = None \/ exists f, x = Some f /\ eqb f zero = true.

(** [original <= 0] *)
Definition not_positive (x : option float64) : Prop :=
  exists f, x = Some f /\ leb f zero = true.

(** A number: neither NaN nor an infinity. *)
Definition is_finite (f : float64) : bool :=
  match f with
  | S754_zero _ | S754_finite _ _ _ => true
  | _ => false
  end.

(** [(original - current) / original * 100] *)
Definition discount_ratio (original current : float64) : float64 :=
  mul (div (sub original current) original) (of_Z 100).

(** [clamp(lo, hi, x)]: [x] brought into the interval. *)
Definition clamp (lo hi x : float64) : float64 :=
  if ltb x lo then lo else if ltb hi x then hi else x.

(** [round_down(x)]: the largest integer not above a finite [x]. *)
Definition round_down (x : float64) : Z :=
  match x with
  | S754_finite s m e =>
    let sm := if s then Zneg m else Zpos m in
    if 0 <=? e then Z.shiftl sm e else Z.shiftr sm (- e)
  | _ => 0
  end.

(** *** Proxy pool *)

(** The rotation advanced by [k] calls of [next]. *)
Definition rotate (k : nat) (pool : list str) : list str :=
  skipn k pool ++ firstn k pool.

(** What holds of every state the middleware can be in: no proxy is the
    empty string, and the iterator exists exactly when the middleware
    is enabled with a non-empty list, over which it then cycles. *)
Definition well_formed (m : Middlewares.ProxyMiddleware) : Prop :=
  Forall (fun p => p <> []) (Middlewares.proxies m) /\
  match Middlewares.proxy_pool m with
  | None => Middlewares.proxies m = []
  | Some pool =>
    Middlewares.enabled m = true /\ Middlewares.proxies m <> []
    /\ Permutation pool (Middlewares.proxies m)
  end.

(** No [report_success] on [p] among the events. *)
Definition no_success_on (p : str) (events : list Middlewares.event) : Prop :=
  Forall (fun e => e <> Middlewares.Response (Some p)) events.

(** The proxies that [n] successive requests are given. *)
Fixpoint request_trace (n : nat) (m : Middlewares.ProxyMiddleware)
  : list (option str) :=
  match n with
  | O => []
  | S n' =>
    fst (Middlewares.process_request m)
      :: request_trace n' (snd (Middlewares.process_request m))
  end.

(** The three-proxy file of the tests. *)
Definition three_proxies : list str :=
  [lit "http://10.0.0.1:8080"; lit "http://10.0.0.2:8080"; lit "http://10.0.0.3:8080"].

(** *** Characteristics and variants *)

(** The mapping the structural sources (table rows, else definition
    lists, else attribute containers) give, before the JSON-LD source is
    merged. *)
Definition structural_characteristics `{Builtins} (r : AlkotekaSpider.response) : dict :=
  let c0 := dict_update [] (AlkotekaSpider._parse_table_characteristics r) in
  let c1 := if AlkotekaSpider.is_empty c0
            then dict_update c0 (AlkotekaSpider._parse_list_characteristics r) else c0 in
  if AlkotekaSpider.is_empty c1
  then dict_update c1 (AlkotekaSpider._parse_div_characteristics r) else c1.

(** Each key occurs once. *)
Definition unique_keys (d : dict) : Prop := List.NoDup (List.map fst d).

(** The embedded variants or options list of a page, when there is one
    and it decodes. *)
Definition json_variant_entries (r : AlkotekaSpider.response) : option (list value) :=
  let variants_json :=
    match AlkotekaSpider.data_variants r with
    | Some t => if AlkotekaSpider.nonempty_text t
                then AlkotekaSpider.data_variants r else AlkotekaSpider.script_variants r
    | None => AlkotekaSpider.script_variants r
    end in
  match variants_json with
  | Some (AlkotekaSpider.Json (VDict d)) =>
    if dict_has (lit "variants") d && AlkotekaSpider.is_list (py_get d (lit "variants"))
    then Some (AlkotekaSpider.entries_of (py_get d (lit "variants")))
    else if dict_has (lit "options") d && AlkotekaSpider.is_list (py_get d (lit "options"))
    then Some (AlkotekaSpider.entries_of (py_get d (lit "options")))
    else None
  | Some (AlkotekaSpider.Json (VList l)) => Some l
  | _ => None
  end.

Definition no_results (q : AlkotekaSpider.query) : list str := [].

(** A page whose table gives a volume and whose JSON-LD block gives
    another. *)
Definition page_with_two_volumes : AlkotekaSpider.response :=
  {| AlkotekaSpider.url := lit "https://alkoteka.com/product/1";
     AlkotekaSpider.table_rows :=
       [ {| AlkotekaSpider.row_key := Some (lit "Volume");
            AlkotekaSpider.row_value := Some (lit "0.5");
            AlkotekaSpider.row_cells := [] |} ];
     AlkotekaSpider.specs_lists := [];
     AlkotekaSpider.spec_divs := [];
     AlkotekaSpider.jsonld_scripts :=
       [ AlkotekaSpider.Json
           (VDict [ (lit "@type", VStr (lit "Product"));
                    (lit "additionalProperty",
                     VList [ VDict [ (lit "name", VStr (lit "Volume"));
                                     (lit "value", VStr (lit "0.7")) ] ]) ]) ];
     AlkotekaSpider.getall := no_results;
     AlkotekaSpider.data_available_colors := None;
     AlkotekaSpider.data_variants := None;
     AlkotekaSpider.script_variants := None |}.

(** A page with two volume options in its markup and an embedded
    variants list whose only entry is a clothing size. *)
Definition page_with_size_json : AlkotekaSpider.response :=
  {| AlkotekaSpider.url := lit "https://alkoteka.com/product/2";
     AlkotekaSpider.table_rows := [];
     AlkotekaSpider.specs_lists := [];
     AlkotekaSpider.spec_divs := [];
     AlkotekaSpider.jsonld_scripts := [];
     AlkotekaSpider.getall :=
       (fun q => match q with
                 | AlkotekaSpider.VolumeSelectorOptions => [lit "500ml"; lit "700ml"]
                 | _ => []
                 end);
     AlkotekaSpider.data_available_colors := None;
     AlkotekaSpider.data_variants := Some (AlkotekaSpider.Json (VList [VStr (lit "XL")]));
     AlkotekaSpider.script_variants := None |}.

(** *** Fields a stage keeps *)

(** Every field of [d] is still a field of [d']. *)
Definition keeps_fields (d d' : dict) : Prop :=
  forall k, dict_has k d = true -> dict_has k d' = true.

(** What [on_nested] leaves under its field: a non-empty mapping is
    replaced by its image, anything else stays. *)
Definition nested_image (f : dict -> dict) (x : value) : value :=
  match x with
  | VDict (kv :: t) => VDict (f (kv :: t))
  | _ => x
  end.

(** *** Whitespace *)

Definition nonspace (c : char) : bool := negb (is_space c).

(** Every whitespace character of [s] is a U+0020 that follows a
    character which is not whitespace; [after_space] tells that the
    text starts here or that the character before was a space. *)
Fixpoint spaced (after_space : bool) (s : str) : bool :=
  match s with
  | [] => true
  | c :: t =>
    if is_space c then (c =? 32)%N && negb after_space && spaced true t
    else spaced false t
  end.

(** Words separated by single spaces, with no whitespace at either end. *)
Definition single_spaced (s : str) : bool :=
  spaced true s && str_eqb (strip s) s.

(** *** Attributes *)

(** An attribute the cleaning stage keeps: its key is not empty and its
    value is not null. *)
Definition attribute_kept (k : str) (v : value) : bool :=
  truthy (VStr k) && negb (is_none v).

(** *** URLs *)

(** The URL names its scheme: it starts with [http://] or [https://]. *)
Definition absolute_url (u : str) : bool :=
  starts_with (lit "http://") u || starts_with (lit "https://") u.

(** *** Proxy files *)



(** Failures are reported for proxies of the pool only. *)
Definition fails_within (pool : list str) (e : Middlewares.event) : Prop :=
  match e with
  | Middlewares.Failure (Some p) => p = [] \/ In p pool
  | _ => True
  end.

(** What the statistics rest on: the blacklist holds proxies of the
    list only, and no more of them than failures were counted. *)
Definition stats_invariant (m : Middlewares.ProxyMiddleware) : Prop :=
  (forall p, p ∈ Middlewares.blacklist m -> In p (Middlewares.proxies m))
  /\ Z.of_nat (size (Middlewares.blacklist m)) <= Middlewares.stats_failed m.

End Spec.
Import Spec.

(* ===================================================================== *)
(** * Properties *)
(* ===================================================================== *)

(** ** Strings and dictionaries *)

Lemma str_eqb_eq (a b : str) : str_eqb a b = true <-> a = b.
Proof.
  revert b; induction a as [|x a IH]; intros [|y b]; simpl; try easy.
  rewrite andb_true_iff, N.eqb_eq, IH. split.
  - intros [-> ->]; reflexivity.
  - intros [= -> ->]; auto.
Qed.

Lemma str_eqb_refl (a : str) : str_eqb a a = true.
Proof. apply str_eqb_eq; reflexivity. Qed.

Lemma str_eqb_neq (a b : str) : str_eqb a b = false <-> a <> b.
Proof.
  rewrite <- str_eqb_eq. destruct (str_eqb a b); split; congruence.
Qed.

Lemma str_eqb_sym (a b : str) : str_eqb a b = str_eqb b a.
Proof.
  destruct (str_eqb a b) eqn:E.
  - apply str_eqb_eq in E; subst; symmetry; apply str_eqb_refl.
  - symmetry; apply str_eqb_neq; apply str_eqb_neq in E; congruence.
Qed.

Lemma dict_get_set_eq (k : str) (v : value) (d : dict) :
  dict_get k (dict_set k v d) = Some v.
Proof.
  induction d as [|[k' v'] t IH]; simpl.
  - rewrite str_eqb_refl; reflexivity.
  - destruct (str_eqb k' k) eqn:E; simpl; rewrite E; auto.
Qed.

Lemma dict_get_set_ne (k1 k2 : str) (v : value) (d : dict) :
  str_eqb k1 k2 = false -> dict_get k2 (dict_set k1 v d) = dict_get k2 d.
Proof.
  intros Hne. induction d as [|[k' v'] t IH]; simpl.
  - rewrite Hne; reflexivity.
  - destruct (str_eqb k' k1) eqn:E; simpl.
    + apply str_eqb_eq in E; subst k'. rewrite Hne; reflexivity.
    + rewrite IH; reflexivity.
Qed.

Lemma py_get_set_eq (k : str) (v : value) (d : dict) :
  py_get (dict_set k v d) k = v.
Proof. unfold py_get; rewrite dict_get_set_eq; reflexivity. Qed.

Lemma py_get_set_ne (k1 k2 : str) (v : value) (d : dict) :
  str_eqb k1 k2 = false -> py_get (dict_set k1 v d) k2 = py_get d k2.
Proof. intros E; unfold py_get; rewrite dict_get_set_ne by exact E; reflexivity. Qed.

Lemma dict_has_set_ne (k1 k2 : str) (v : value) (d : dict) :
  str_eqb k1 k2 = false -> dict_has k2 (dict_set k1 v d) = dict_has k2 d.
Proof. intros E; unfold dict_has; rewrite dict_get_set_ne by exact E; reflexivity. Qed.

Lemma dict_has_set_eq (k : str) (v : value) (d : dict) :
  dict_has k (dict_set k v d) = true.
Proof. unfold dict_has; rewrite dict_get_set_eq; reflexivity. Qed.

(** ** Validation rejects incomplete records *)

Lemma missing_iff `{Builtins} (item : dict) (field : str) :
  missing item field = true <-> absent_or_empty item field.
Proof.
  unfold missing, absent_or_empty, dict_has, py_get.
  destruct (dict_get field item) as [v|]; simpl.
  - rewrite negb_true_iff. split.
    + intros E; right; exists v; auto.
    + intros [E|[v' [[= <-] E]]]; [discriminate | exact E].
  - split; auto.
Qed.

Section Validation.
Context `{Builtins}.

(** C1. A candidate record in which a required field ([product_id],
    [name], [product_url], [scraped_at]) is absent or empty is rejected
    by [normalize]: the validation stage raises [DropItem], whatever
    would follow it is not run, and the message lists every missing
    required field, and only those. *)
Theorem normalize_rejects_missing_required (now : Z) (item : dict) (field : str) :
  In field required_fields ->
  absent_or_empty item field ->
  let reason :=
    lit "Validation failed: "
    ++ join (lit "; ")
         (List.map (fun f => lit "Missing required field: " ++ f)
                   (missing_fields item)) in
  normalize now item = Rejected reason
  /\ (forall later, and_then (ValidationPipeline.process_item item) later
                    = Rejected reason)
  /\ In field (missing_fields item)
  /\ (forall f, In f (missing_fields item)
                <-> In f required_fields /\ absent_or_empty item f).
Proof.
  intros Hin Habs reason.
  assert (Hm : In field (missing_fields item)).
  { apply filter_In; split; [exact Hin | apply missing_iff; exact Habs]. }
  assert (Hv : ValidationPipeline.process_item item = Rejected reason).
  { unfold ValidationPipeline.process_item, validation_errors.
    fold (missing_fields item). subst reason.
    destruct (missing_fields item) as [|f0 rest] eqn:E; [destruct Hm |].
    reflexivity. }
  split; [unfold normalize; rewrite Hv; reflexivity |].
  split; [intros later; rewrite Hv; reflexivity |].
  split; [exact Hm |].
  intros f. unfold missing_fields. rewrite filter_In, missing_iff. reflexivity.
Qed.

End Validation.

Lemma normalize_rejects_missing_required_witness :
  @normalize Runtime.sample 0 [(lit "name", VStr (lit "x")); (lit "scraped_at", VInt 0)]
  = Rejected (lit "Validation failed: Missing required field: product_id; Missing required field: product_url; Missing required field: scraped_at").
Proof.
  pose proof (@normalize_rejects_missing_required Runtime.sample 0
                [(lit "name", VStr (lit "x")); (lit "scraped_at", VInt 0)]
                (lit "scraped_at")) as W.
  destruct W as [W _].
  - vm_compute. auto 10.
  - right. exists (VInt 0). split; reflexivity.
  - rewrite W. vm_compute. reflexivity.
Defined.

(** ** Float comparison *)

Lemma SFcompare_antisym (x y : float64) :
  SFcompare y x = option_map CompOpp (SFcompare x y).
Proof.
  destruct x as [sx|sx| |sx mx ex], y as [sy|sy| |sy my ey]; simpl;
    try reflexivity;
    try (destruct sx; reflexivity);
    try (destruct sy; reflexivity);
    try (destruct sx, sy; reflexivity).
  destruct sx, sy; simpl; try reflexivity;
    rewrite (Z.compare_antisym ex ey);
    destruct (ex ?= ey); simpl; try reflexivity;
    rewrite (Pos.compare_cont_antisym mx my Eq); reflexivity.
Qed.

Lemma ltb_asym (x y : float64) : ltb x y = true -> ltb y x = false.
Proof.
  unfold ltb, SFltb. rewrite (SFcompare_antisym x y).
  destruct (SFcompare x y) as [[]|]; simpl; congruence.
Qed.

Lemma not_ltb_leb (x y : float64) :
  is_nan x = false -> is_nan y = false -> ltb x y = false -> leb y x = true.
Proof.
  unfold ltb, leb, SFltb, SFleb. intros Hx Hy.
  rewrite (SFcompare_antisym x y).
  destruct (SFcompare x y) as [[]|] eqn:E; simpl; try congruence.
  destruct x, y; simpl in *; try discriminate;
    repeat match goal with s : bool |- _ => destruct s end; discriminate.
Qed.

Lemma SFcompare_finite_Eq (s : bool) (m1 m2 : positive) (e1 e2 : Z) :
  SFcompare (S754_finite s m1 e1) (S754_finite s m2 e2) = Some Eq ->
  m1 = m2 /\ e1 = e2.
Proof.
  simpl. destruct s; destruct (e1 ?= e2) eqn:E; try discriminate;
    apply Z.compare_eq in E; subst; intros [= E];
    (split; [| reflexivity]).
  - destruct (Pos.compare_cont Eq m1 m2) eqn:C; try discriminate.
    apply Pos.compare_eq in C; exact C.
  - apply Pos.compare_eq in E; exact E.
Qed.

(** ** Rounding never invents a NaN *)

Lemma iter_pos_invariant {A : Type} (P : A -> Prop) (f : A -> A) :
  (forall x, P x -> P (f x)) -> forall p x, P x -> P (SpecFloat.iter_pos f p x).
Proof. intros Hf p; induction p; simpl; auto. Qed.

Lemma shr_1_nonneg (mrs : shr_record) : 0 <= shr_m mrs -> 0 <= shr_m (shr_1 mrs).
Proof.
  destruct mrs as [m r s]; simpl.
  destruct m as [|[p|p|]|[p|p|]]; simpl; lia.
Qed.

Lemma shr_fexp_nonneg (m e : Z) (l : location) :
  0 <= m -> 0 <= shr_m (fst (shr_fexp prec emax m e l)).
Proof.
  intros Hm. unfold shr_fexp, shr.
  assert (H0 : 0 <= shr_m (shr_record_of_loc m l)) by (destruct l as [|[]]; exact Hm).
  destruct (fexp prec emax (Zdigits2 m + e) - e); simpl; auto.
  apply (iter_pos_invariant (fun r => 0 <= shr_m r)); auto using shr_1_nonneg.
Qed.

Lemma round_nearest_even_nonneg (m : Z) (l : location) :
  0 <= m -> 0 <= round_nearest_even m l.
Proof.
  intros Hm; destruct l as [|[]]; simpl; try lia.
  destruct (Z.even m); lia.
Qed.

Lemma binary_round_aux_not_nan (s : bool) (m e : Z) (l : location) :
  0 <= m -> is_nan (binary_round_aux prec emax s m e l) = false.
Proof.
  intros Hm. unfold binary_round_aux.
  pose proof (shr_fexp_nonneg m e l Hm) as H1.
  destruct (shr_fexp prec emax m e l) as [mrs' e'] eqn:E1; simpl in H1.
  pose proof (shr_fexp_nonneg
                (round_nearest_even (shr_m mrs') (loc_of_shr_record mrs')) e' loc_Exact
                (round_nearest_even_nonneg _ _ H1)) as H2.
  destruct (shr_fexp prec emax (round_nearest_even _ _) e' loc_Exact) as [mrs'' e''];
    simpl in H2.
  destruct (shr_m mrs'') as [|p|p]; simpl; try reflexivity; [| lia].
  destruct (e'' <=? emax - prec); reflexivity.
Qed.

Lemma binary_normalize_not_nan (m e : Z) :
  is_nan (binary_normalize prec emax m e false) = false.
Proof.
  destruct m as [|p|p]; simpl; try reflexivity;
    unfold binary_round;
    destruct (shl_align _ _ _) as [mz ez];
    apply binary_round_aux_not_nan; lia.
Qed.

Lemma sub_not_nan (x y : float64) :
  is_finite x = true -> is_finite y = true -> is_nan (sub x y) = false.
Proof.
  destruct x as [sx|sx| |sx mx ex], y as [sy|sy| |sy my ey]; simpl;
    try discriminate; intros _ _.
  - destruct sx, sy; reflexivity.
  - reflexivity.
  - reflexivity.
  - apply binary_normalize_not_nan.
Qed.

Lemma div_finite_not_nan (x : float64) (s : bool) (m : positive) (e : Z) :
  is_nan x = false -> is_nan (div x (S754_finite s m e)) = false.
Proof.
  destruct x as [sx|sx| |sx mx ex]; simpl; try discriminate; intros _;
    try reflexivity.
  unfold SFdiv_core_binary.
  set (m' := match _ - _ - _ with Z0 => _ | Zpos _ => _ | Zneg _ => _ end).
  assert (Hm' : 0 <= m').
  { subst m'. destruct (_ - _ - _); try lia. apply Z.shiftl_nonneg; lia. }
  pose proof (Z.div_pos m' (Zpos m) Hm' eq_refl) as Hq.
  unfold Z.div in Hq. destruct (Z.div_eucl m' (Z.pos m)) as [q r]; simpl in Hq.
  apply binary_round_aux_not_nan; exact Hq.
Qed.

Lemma mul_finite_not_nan (x : float64) (s : bool) (m : positive) (e : Z) :
  is_nan x = false -> is_nan (mul x (S754_finite s m e)) = false.
Proof.
  destruct x as [sx|sx| |sx mx ex]; simpl; try discriminate; intros _;
    try reflexivity.
  apply binary_round_aux_not_nan; lia.
Qed.

Lemma nonzero_finite (f : float64) :
  is_finite f = true -> eqb f zero = false ->
  exists s m e, f = S754_finite s m e.
Proof.
  destruct f as [s|s| |s m e]; simpl; try discriminate; eauto.
Qed.

Lemma discount_ratio_not_nan (o c : float64) :
  is_finite o = true -> is_finite c = true -> eqb o zero = false ->
  is_nan (discount_ratio o c) = false.
Proof.
  intros Ho Hc Hz. destruct (nonzero_finite o Ho Hz) as (s & m & e & ->).
  unfold discount_ratio.
  change (of_Z 100) with (S754_finite false 7036874417766400 (-46)).
  apply mul_finite_not_nan, div_finite_not_nan, sub_not_nan; assumption.
Qed.

(** ** calculate_discount *)

Lemma clamp_agrees_at (mh : positive) (eh top : Z) :
  0 < top ->
  round_down (S754_finite false mh eh) = top ->
  forall d : float64,
    is_nan d = false ->
    Items.to_int (Items.max_0 (if ltb d (S754_finite false mh eh)
                               then VFloat d else VInt top))
    = round_down (clamp zero (S754_finite false mh eh) d).
Proof.
  intros Htop Hround d Hd. unfold clamp.
  assert (Hmax : Items.to_int (Items.max_0 (VInt top)) = top).
  { unfold Items.max_0. apply Z.ltb_lt in Htop. rewrite Htop. reflexivity. }
  destruct d as [s|s| |s m e]; try discriminate.
  - destruct s; reflexivity.
  - destruct s; [reflexivity |].
    change (ltb (S754_infinity false) (S754_finite false mh eh)) with false.
    change (ltb (S754_infinity false) zero) with false.
    change (ltb (S754_finite false mh eh) (S754_infinity false)) with true.
    cbv iota. rewrite Hmax. symmetry. exact Hround.
  - destruct s; [reflexivity |].
    change (ltb (S754_finite false m e) zero) with false. cbv iota.
    destruct (ltb (S754_finite false m e) (S754_finite false mh eh)) eqn:L.
    + rewrite (ltb_asym _ _ L). reflexivity.
    + rewrite Hmax.
      destruct (ltb (S754_finite false mh eh) (S754_finite false m e)) eqn:G;
        [symmetry; exact Hround |].
      assert (E : SFcompare (S754_finite false m e) (S754_finite false mh eh) = Some Eq).
      { unfold ltb, SFltb in L, G.
        rewrite (SFcompare_antisym (S754_finite false m e) (S754_finite false mh eh)) in G.
        destruct (SFcompare (S754_finite false m e) (S754_finite false mh eh))
          as [[]|] eqn:C; try discriminate L; try discriminate G; try discriminate C.
        reflexivity. }
      apply SFcompare_finite_Eq in E. destruct E as [-> ->].
      symmetry. exact Hround.
Qed.

Lemma clamp_agrees (d : float64) :
  is_nan d = false ->
  Items.to_int (Items.max_0 (Items.min_100 d)) = round_down (clamp zero (of_Z 100) d).
Proof.
  unfold Items.min_100.
  change (of_Z 100) with (S754_finite false 7036874417766400 (-46)).
  apply clamp_agrees_at; [reflexivity | vm_compute; reflexivity].
Qed.

Lemma calculate_discount_absent (o c : option float64) :
  Items.calculate_discount o c = None
  <-> absent_or_zero o \/ absent_or_zero c \/ not_positive o.
Proof.
  unfold Items.calculate_discount, absent_or_zero, not_positive.
  destruct o as [o|]; [| split; auto].
  destruct (eqb o zero) eqn:Eo; [split; eauto 6 |].
  destruct c as [c|]; [| split; auto].
  destruct (eqb c zero) eqn:Ec; [split; eauto 8 |].
  destruct (leb o zero) eqn:Lo; [split; eauto 8 |].
  split; [discriminate |].
  intros [[?|(f & [= <-] & ?)]|[[?|(f & [= <-] & ?)]|(f & [= <-] & ?)]];
    congruence.
Qed.

(** C10. [calculate_discount(original, current)] is absent exactly when
    an operand is absent or zero or [original <= 0]; otherwise, the
    quotient [(original - current) / original * 100] being a number, it
    is [round_down(clamp(0, 100, quotient))], and the quotient is a
    number whenever both operands are; [calculate_discount(1000, 750)]
    is 25, [calculate_discount(0, 750)] is absent and
    [calculate_discount(1000, 1000)] is 0.  The spider's
    [_calculate_discount] is the same function. *)
Theorem calculate_discount_spec :
  (forall o c : option float64,
      Items.calculate_discount o c = None
      <-> absent_or_zero o \/ absent_or_zero c \/ not_positive o)
  /\ (forall o c : float64,
         ~ (absent_or_zero (Some o) \/ absent_or_zero (Some c) \/ not_positive (Some o)) ->
         is_nan (discount_ratio o c) = false ->
         Items.calculate_discount (Some o) (Some c)
         = Some (round_down (clamp zero (of_Z 100) (discount_ratio o c))))
  /\ (forall o c : float64,
         is_finite o = true -> is_finite c = true -> eqb o zero = false ->
         is_nan (discount_ratio o c) = false)
  /\ Items.calculate_discount (Some (of_Z 1000)) (Some (of_Z 750)) = Some 25
  /\ Items.calculate_discount (Some (of_Z 0)) (Some (of_Z 750)) = None
  /\ Items.calculate_discount (Some (of_Z 1000)) (Some (of_Z 1000)) = Some 0
  /\ (forall o c : option float64,
         AlkotekaSpider._calculate_discount o c = Items.calculate_discount o c).
Proof.
  split; [exact calculate_discount_absent |].
  split.
  { intros o c Hdef Hnan.
    assert (Eo : eqb o zero = false).
    { destruct (eqb o zero) eqn:X; [| reflexivity].
      exfalso; apply Hdef; left; right; eauto. }
    assert (Ec : eqb c zero = false).
    { destruct (eqb c zero) eqn:X; [| reflexivity].
      exfalso; apply Hdef; right; left; right; eauto. }
    assert (Lo : leb o zero = false).
    { destruct (leb o zero) eqn:X; [| reflexivity].
      exfalso; apply Hdef; right; right; exists o; auto. }
    unfold Items.calculate_discount. rewrite Eo, Ec, Lo. cbv zeta.
    f_equal. apply (clamp_agrees _ Hnan). }
  split; [exact discount_ratio_not_nan |].
  repeat split; try (vm_compute; reflexivity).
Qed.

Lemma calculate_discount_spec_witness :
  Items.calculate_discount (Some (of_Z 1000)) (Some (of_Z 710))
  = Some (round_down (clamp zero (of_Z 100) (discount_ratio (of_Z 1000) (of_Z 710))))
  /\ round_down (clamp zero (of_Z 100) (discount_ratio (of_Z 1000) (of_Z 710))) = 28.
Proof.
  split; [| vm_compute; reflexivity].
  destruct calculate_discount_spec as (_ & F & N & _).
  apply F.
  - intros [[E|(f & [= <-] & E)]|[[E|(f & [= <-] & E)]|(f & [= <-] & E)]];
      discriminate E.
  - apply N; reflexivity.
Defined.

(** ** Proxy rotation *)

Section ProxyPool.
Import Middlewares.

Lemma rotate_0 (pool : list str) : rotate 0 pool = pool.
Proof. unfold rotate; simpl; apply app_nil_r. Qed.

Lemma rotate_snoc (k : nat) (p : str) (rest : list str) :
  (k <= length rest)%nat ->
  rotate k (rest ++ [p]) = rotate (S k) (p :: rest).
Proof.
  intros Hk. unfold rotate; simpl.
  rewrite skipn_app, firstn_app.
  replace (k - length rest)%nat with O by lia. simpl.
  rewrite app_nil_r, <- app_assoc. reflexivity.
Qed.

Lemma rotate_perm (k : nat) (pool : list str) : Permutation (rotate k pool) pool.
Proof.
  unfold rotate. rewrite Permutation_app_comm, firstn_skipn. reflexivity.
Qed.

Lemma rotate_length (k : nat) (pool : list str) : length (rotate k pool) = length pool.
Proof. apply Permutation_length, rotate_perm. Qed.

(** The loop stops at the first proxy that is not blacklisted, having
    called [next] once for each proxy up to it, or gives up after
    [n] calls that all hit the blacklist. *)
Lemma scan_spec (bl : gset str) (n : nat) :
  forall pool, (n <= length pool)%nat ->
  match scan n pool bl with
  | (Some p, pool') =>
    exists j, (j < n)%nat /\ nth_error pool j = Some p /\ (p ∉ bl)
              /\ Forall (fun q => q ∈ bl) (firstn j pool)
              /\ pool' = rotate (S j) pool
  | (None, pool') =>
    Forall (fun q => q ∈ bl) (firstn n pool) /\ pool' = rotate n pool
  end.
Proof.
  induction n as [|n IH]; intros pool Hlen; simpl.
  - split; [constructor | symmetry; apply rotate_0].
  - destruct pool as [|p rest]; [simpl in Hlen; lia |].
    simpl in Hlen. assert (Hn : (n <= length rest)%nat) by lia.
    destruct (decide (p ∈ bl)) as [Hin|Hout].
    + specialize (IH (rest ++ [p])).
      rewrite length_app in IH; simpl in IH.
      specialize (IH ltac:(lia)).
      destruct (scan n (rest ++ [p]) bl) as [[q|] pool'].
      * destruct IH as (j & Hj & Hnth & Hq & Hall & ->).
        exists (S j). split; [lia |]. split.
        { simpl. rewrite nth_error_app1 in Hnth by lia. exact Hnth. }
        split; [exact Hq |]. split.
        { rewrite firstn_app in Hall.
          replace (j - length rest)%nat with O in Hall by lia.
          simpl in Hall. rewrite app_nil_r in Hall.
          simpl. constructor; assumption. }
        apply rotate_snoc; lia.
      * destruct IH as (Hall & ->). split.
        { rewrite firstn_app in Hall.
          replace (n - length rest)%nat with O in Hall by lia.
          simpl in Hall. rewrite app_nil_r in Hall.
          simpl. constructor; assumption. }
        apply rotate_snoc; lia.
    + exists O. split; [lia |]. split; [reflexivity |].
      split; [exact Hout |]. split; [constructor |].
      unfold rotate; simpl. reflexivity.
Qed.

Lemma scan_cycle (bl : gset str) (pool ps : list str) :
  Permutation pool ps ->
  match scan (length ps) pool bl with
  | (Some p, pool') =>
    exists j, (j < length ps)%nat /\ nth_error pool j = Some p /\ (p ∉ bl)
              /\ Forall (fun q => q ∈ bl) (firstn j pool)
              /\ pool' = rotate (S j) pool
  | (None, pool') =>
    Forall (fun q => q ∈ bl) ps /\ pool' = rotate (length ps) pool
  end.
Proof.
  intros Hperm.
  pose proof (scan_spec bl (length ps) pool) as S.
  rewrite <- (Permutation_length Hperm) in *. specialize (S (le_n _)).
  destruct (scan (length pool) pool bl) as [[q|] pool']; [exact S |].
  destruct S as [Hall ->]. split; [| reflexivity].
  rewrite firstn_all in Hall.
  rewrite List.Forall_forall in *. intros p Hin. apply Hall.
  apply (Permutation_in _ (Permutation_sym Hperm)), Hin.
Qed.

Lemma parse_proxy_lines_nonempty (lines : list str) :
  Forall (fun p => p <> []) (parse_proxy_lines lines).
Proof.
  unfold parse_proxy_lines. apply List.Forall_forall. intros p Hin.
  apply in_flat_map in Hin. destruct Hin as (line & _ & Hin).
  cbv beta in Hin.
  destruct (truthy (VStr (strip line)) && negb (starts_with (lit "#") line)) eqn:C;
    [| destruct Hin].
  destruct Hin as [<-|[]].
  apply andb_true_iff in C. destruct C as [C _].
  destruct (strip line); [discriminate C | discriminate].
Qed.

Lemma init_well_formed (proxy_enabled : bool) (file : option (list str)) :
  well_formed (init proxy_enabled file).
Proof.
  unfold well_formed, init; simpl. destruct proxy_enabled; simpl.
  - split.
    + destruct file; simpl; [apply parse_proxy_lines_nonempty | constructor].
    + destruct (_load_proxies file) eqn:E; [reflexivity |].
      repeat split; [discriminate | reflexivity].
  - split; [constructor | reflexivity].
Qed.

Lemma get_next_well_formed (m : ProxyMiddleware) :
  well_formed m -> well_formed (snd (_get_next_proxy m)).
Proof.
  unfold well_formed, _get_next_proxy. intros [Hne Hpool].
  destruct (proxy_pool m) as [pool|] eqn:E; simpl; [| rewrite E; auto].
  destruct Hpool as (He & Hp & Hperm). repeat split; try assumption.
  pose proof (scan_cycle (blacklist m) pool (proxies m) Hperm) as S.
  destruct (scan _ pool _) as [[q|] pool']; simpl.
  - destruct S as (j & _ & _ & _ & _ & ->). rewrite rotate_perm. exact Hperm.
  - destruct S as (_ & ->). rewrite rotate_perm. exact Hperm.
Qed.

Lemma step_well_formed (m : ProxyMiddleware) (e : event) :
  well_formed m -> well_formed (step m e).
Proof.
  intros W. destruct e as [|p|p]; simpl.
  - unfold process_request.
    destruct (negb (enabled m) || is_nil (proxies m)); [exact W |].
    pose proof (get_next_well_formed m W) as W'.
    destruct (fst (_get_next_proxy m)) as [q|]; [| exact W'].
    destruct (truthy (VStr q)); exact W'.
  - unfold process_response. destruct p as [p|]; [| exact W].
    destruct (truthy (VStr p)); [| exact W].
    destruct (decide _); exact W.
  - unfold process_exception. destruct p as [p|]; [| exact W].
    destruct (truthy (VStr p)); exact W.
Qed.

Lemma run_well_formed (events : list event) :
  forall m, well_formed m -> well_formed (run m events).
Proof.
  induction events as [|e es IH]; intros m W; simpl; [exact W |].
  apply IH, step_well_formed, W.
Qed.

Lemma reachable_well_formed (m : ProxyMiddleware) : reachable m -> well_formed m.
Proof.
  intros (en & file & events & ->). apply run_well_formed, init_well_formed.
Qed.

(** *** What a call of [_get_next_proxy] returns *)

Lemma get_next_some (m m' : ProxyMiddleware) (p : str) :
  well_formed m -> _get_next_proxy m = (Some p, m') ->
  (p ∉ blacklist m) /\ In p (proxies m).
Proof.
  unfold well_formed, _get_next_proxy. intros [_ Hpool].
  destruct (proxy_pool m) as [pool|]; [| discriminate].
  destruct Hpool as (_ & _ & Hperm).
  pose proof (scan_cycle (blacklist m) pool (proxies m) Hperm) as S.
  destruct (scan _ pool _) as [[q|] pool']; simpl; [| discriminate].
  intros [= -> _]. destruct S as (j & _ & Hnth & Hq & _).
  split; [exact Hq |].
  apply (Permutation_in _ Hperm), (nth_error_In _ _ Hnth).
Qed.

Lemma get_next_none (m : ProxyMiddleware) :
  well_formed m ->
  (fst (_get_next_proxy m) = None
   <-> enabled m = false \/ proxies m = []
       \/ Forall (fun p => p ∈ blacklist m) (proxies m)).
Proof.
  unfold well_formed, _get_next_proxy. intros [_ Hpool].
  destruct (proxy_pool m) as [pool|]; simpl.
  - destruct Hpool as (He & Hp & Hperm).
    pose proof (scan_cycle (blacklist m) pool (proxies m) Hperm) as S.
    destruct (scan _ pool _) as [[q|] pool']; simpl.
    + destruct S as (j & _ & Hnth & Hq & _). split; [discriminate |].
      intros [E|[E|E]]; try congruence.
      exfalso. apply Hq. rewrite List.Forall_forall in E. apply E.
      apply (Permutation_in _ Hperm), (nth_error_In _ _ Hnth).
    + destruct S as (Hall & _). split; [| reflexivity]. intros _.
      right; right. exact Hall.
  - split; [| reflexivity]. intros _. auto.
Qed.

Lemma get_next_scans_once (m : ProxyMiddleware) :
  well_formed m ->
  exists k, (k <= length (proxies m))%nat
            /\ proxy_pool (snd (_get_next_proxy m))
               = option_map (rotate k) (proxy_pool m).
Proof.
  unfold well_formed, _get_next_proxy. intros [_ Hpool].
  destruct (proxy_pool m) as [pool|] eqn:E; simpl.
  - destruct Hpool as (_ & _ & Hperm).
    pose proof (scan_cycle (blacklist m) pool (proxies m) Hperm) as S.
    destruct (scan _ pool _) as [[q|] pool']; simpl.
    + destruct S as (j & Hj & _ & _ & _ & ->). exists (S j). split; [lia | reflexivity].
    + destruct S as (_ & ->). exists (length (proxies m)). split; [lia | reflexivity].
  - exists O. split; [lia |]. rewrite E. reflexivity.
Qed.

(** *** The blacklist across calls *)

Lemma request_blacklist (m : ProxyMiddleware) :
  blacklist (snd (process_request m)) = blacklist m.
Proof.
  unfold process_request, _get_next_proxy.
  destruct (negb (enabled m) || is_nil (proxies m)); [reflexivity |].
  destruct (proxy_pool m); cbn [fst snd]; [| reflexivity].
  destruct (fst (scan _ _ _)) as [q|]; [| reflexivity].
  destruct (truthy (VStr q)); reflexivity.
Qed.

Lemma failure_blacklists (p : str) (m : ProxyMiddleware) :
  p <> [] -> p ∈ blacklist (snd (process_exception (Some p) m)).
Proof.
  intros Hp. unfold process_exception.
  destruct p as [|c s]; [congruence |]. simpl. set_solver.
Qed.

Lemma success_clears (p : str) (m : ProxyMiddleware) :
  p <> [] -> p ∉ blacklist (process_response (Some p) m).
Proof.
  intros Hp. unfold process_response.
  destruct p as [|c s]; [congruence |]. simpl.
  destruct (decide _) as [Hin|Hout]; simpl; [| exact Hout].
  rewrite elem_of_difference, elem_of_singleton. tauto.
Qed.

Lemma step_keeps_blacklisted (p : str) (m : ProxyMiddleware) (e : event) :
  e <> Response (Some p) -> p ∈ blacklist m -> p ∈ blacklist (step m e).
Proof.
  intros He Hin. destruct e as [|q|q]; simpl.
  - rewrite request_blacklist. exact Hin.
  - unfold process_response. destruct q as [q|]; [| exact Hin].
    destruct (truthy (VStr q)); [| exact Hin].
    destruct (decide _); simpl; [| exact Hin].
    assert (q <> p) by congruence. set_solver.
  - unfold process_exception. destruct q as [q|]; [| exact Hin].
    destruct (truthy (VStr q)); [| exact Hin]. simpl. set_solver.
Qed.

Lemma run_keeps_blacklisted (p : str) (events : list event) :
  no_success_on p events ->
  forall m, p ∈ blacklist m -> p ∈ blacklist (run m events).
Proof.
  unfold no_success_on.
  induction events as [|e es IH]; intros Hall m Hin; simpl; [exact Hin |].
  inversion Hall; subst. apply IH; [assumption |].
  apply step_keeps_blacklisted; assumption.
Qed.

Lemma step_proxies (m : ProxyMiddleware) (e : event) : proxies (step m e) = proxies m.
Proof.
  destruct e as [|q|q]; simpl.
  - unfold process_request, _get_next_proxy.
    destruct (negb (enabled m) || is_nil (proxies m)); [reflexivity |].
    destruct (proxy_pool m); cbn [fst snd]; [| reflexivity].
    destruct (fst (scan _ _ _)) as [q|]; [| reflexivity].
    destruct (truthy (VStr q)); reflexivity.
  - unfold process_response. destruct q as [q|]; [| reflexivity].
    destruct (truthy (VStr q)); [| reflexivity].
    destruct (decide _); reflexivity.
  - unfold process_exception. destruct q as [q|]; [| reflexivity].
    destruct (truthy (VStr q)); reflexivity.
Qed.

Lemma run_proxies (events : list event) :
  forall m, proxies (run m events) = proxies m.
Proof.
  induction events as [|e es IH]; intros m; simpl; [reflexivity |].
  rewrite IH. apply step_proxies.
Qed.

Lemma failed_proxy_not_returned (m : ProxyMiddleware) (p : str) (events : list event) :
  well_formed m -> no_success_on p events ->
  fst (_get_next_proxy (run (snd (process_exception (Some p) m)) events)) <> Some p.
Proof.
  intros W Hev E.
  set (m1 := snd (process_exception (Some p) m)) in *.
  assert (W1 : well_formed m1) by (apply (step_well_formed m (Failure (Some p))), W).
  pose proof (run_well_formed events m1 W1) as W2.
  destruct (_get_next_proxy (run m1 events)) as [r m2] eqn:G; simpl in E; subst r.
  destruct (get_next_some _ _ _ W2 G) as [Hout Hin].
  apply Hout. apply run_keeps_blacklisted; [exact Hev |].
  apply failure_blacklists. intros ->.
  destruct W2 as [Hne _]. rewrite List.Forall_forall in Hne.
  apply (Hne [] Hin). reflexivity.
Qed.

(** *** A proxy that is not blacklisted comes up again *)

Lemma get_next_fst (m : ProxyMiddleware) (pool : list str) :
  proxy_pool m = Some pool ->
  _get_next_proxy m
  = (fst (scan (length (proxies m)) pool (blacklist m)),
     set_pool (snd (scan (length (proxies m)) pool (blacklist m))) m).
Proof. intros E. unfold _get_next_proxy. rewrite E. reflexivity. Qed.

Lemma eligible_within (k : nat) :
  forall (m : ProxyMiddleware) (l1 l2 : list str) (p : str),
    well_formed m ->
    proxy_pool m = Some (l1 ++ p :: l2) ->
    length l1 = k ->
    p ∉ blacklist m ->
    exists i, (i <= k)%nat /\ fst (_get_next_proxy (advance i m)) = Some p.
Proof.
  induction k as [k IH] using lt_wf_ind.
  intros m l1 l2 p W Epool Hlen Hout.
  pose proof W as [_ Hpool]. rewrite Epool in Hpool.
  destruct Hpool as (_ & _ & Hperm).
  pose proof (scan_cycle (blacklist m) _ _ Hperm) as S.
  pose proof (get_next_fst m _ Epool) as G.
  destruct (scan (length (proxies m)) (l1 ++ p :: l2) (blacklist m))
    as [[q|] pool'] eqn:Escan; simpl in G.
  - destruct S as (j & Hj & Hnth & Hq & Hall & ->).
    destruct (lt_eq_lt_dec j k) as [[Hlt|Heq]|Hgt].
    + assert (W1 : well_formed (snd (_get_next_proxy m)))
        by (apply get_next_well_formed, W).
      destruct (IH (k - S j)%nat ltac:(lia) (snd (_get_next_proxy m))
                  (skipn (S j) l1) (l2 ++ firstn (S j) (l1 ++ p :: l2)) p W1)
        as (i & Hi & Hres).
      * rewrite G. simpl. f_equal. unfold rotate.
        rewrite skipn_app. replace (S j - length l1)%nat with O by lia.
        simpl. rewrite <- app_assoc. reflexivity.
      * rewrite length_skipn. lia.
      * rewrite G. exact Hout.
      * exists (S i). split; [lia | exact Hres].
    + exists O. split; [lia |]. simpl. rewrite G. simpl.
      subst j. rewrite nth_error_app2 in Hnth by lia.
      replace (k - length l1)%nat with O in Hnth by lia.
      simpl in Hnth. congruence.
    + exfalso. apply Hout. rewrite List.Forall_forall in Hall. apply Hall.
      rewrite firstn_app. apply in_or_app. right.
      replace (j - length l1)%nat with (S (j - length l1 - 1)) by lia.
      simpl. left. reflexivity.
  - exfalso. destruct S as (Hall & _). apply Hout.
    rewrite List.Forall_forall in Hall. apply Hall.
    apply (Permutation_in _ Hperm), in_or_app. right. left. reflexivity.
Qed.

Lemma eligible_returned (m : ProxyMiddleware) (p : str) :
  well_formed m -> In p (proxies m) -> p ∉ blacklist m ->
  exists i, (i < length (proxies m))%nat
            /\ fst (_get_next_proxy (advance i m)) = Some p.
Proof.
  intros W Hin Hout. pose proof W as [_ Hpool].
  destruct (proxy_pool m) as [pool|] eqn:Epool.
  - destruct Hpool as (_ & _ & Hperm).
    apply (Permutation_in _ (Permutation_sym Hperm)) in Hin.
    apply in_split in Hin. destruct Hin as (l1 & l2 & ->).
    destruct (eligible_within (length l1) m l1 l2 p W Epool eq_refl Hout)
      as (i & Hi & Hres).
    exists i. split; [| exact Hres].
    rewrite <- (Permutation_length Hperm), length_app. simpl. lia.
  - rewrite Hpool in Hin. destruct Hin.
Qed.

Lemma process_request_some (m m' : ProxyMiddleware) (p : str) :
  well_formed m -> process_request m = (Some p, m') ->
  (p ∉ blacklist m) /\ In p (proxies m) /\ stats_total m' = stats_total m + 1.
Proof.
  intros W. unfold process_request.
  destruct (negb (enabled m) || is_nil (proxies m)); [discriminate |].
  destruct (_get_next_proxy m) as [[q|] m1] eqn:G; cbn [fst snd]; [| discriminate].
  destruct (truthy (VStr q)); [| discriminate].
  intros [= -> <-].
  destruct (get_next_some _ _ _ W G) as [Hout Hin].
  repeat split; try assumption.
  unfold _get_next_proxy in G. destruct (proxy_pool m); [| discriminate].
  injection G as _ <-. reflexivity.
Qed.

(** C9. In every reachable state of the proxy pool, [_get_next_proxy]
    (the specification's [acquire]) returns only proxies of the pool
    that are not blacklisted; it returns none exactly when the pool is
    disabled or empty or every proxy is blacklisted; it advances the
    rotation by at most one full turn; a proxy reported as failed is not
    returned by any later call until a success is reported on it; and
    after such a success the proxy is off the blacklist and comes up
    again within one turn of the rotation. *)
Theorem proxy_acquire_respects_blacklist (m : ProxyMiddleware) :
  reachable m ->
  (forall p m', _get_next_proxy m = (Some p, m') ->
                (p ∉ blacklist m) /\ In p (proxies m))
  /\ (fst (_get_next_proxy m) = None
      <-> enabled m = false \/ proxies m = []
          \/ Forall (fun p => p ∈ blacklist m) (proxies m))
  /\ (exists k, (k <= length (proxies m))%nat
                /\ proxy_pool (snd (_get_next_proxy m))
                   = option_map (rotate k) (proxy_pool m))
  /\ (forall p events,
         no_success_on p events ->
         fst (_get_next_proxy (run (snd (process_exception (Some p) m)) events))
         <> Some p)
  /\ (forall p,
         In p (proxies m) ->
         (p ∉ blacklist (process_response (Some p) m))
         /\ exists i, (i < length (proxies m))%nat
                      /\ fst (_get_next_proxy
                                (advance i (process_response (Some p) m)))
                         = Some p).
Proof.
  intros R. pose proof (reachable_well_formed m R) as W.
  split; [intros p m'; apply get_next_some, W |].
  split; [apply get_next_none, W |].
  split; [apply get_next_scans_once, W |].
  split; [intros p events; apply failed_proxy_not_returned, W |].
  intros p Hin.
  assert (Hp : p <> []).
  { destruct W as [Hne _]. rewrite List.Forall_forall in Hne. apply Hne, Hin. }
  pose proof (success_clears p m Hp) as Hclear.
  split; [exact Hclear |].
  pose proof (step_well_formed m (Response (Some p)) W) as W'.
  pose proof (step_proxies m (Response (Some p))) as Eprox.
  change (step m (Response (Some p))) with (process_response (Some p) m) in W', Eprox.
  rewrite <- Eprox.
  apply eligible_returned; [exact W' | rewrite Eprox; exact Hin | exact Hclear].
Qed.

End ProxyPool.

Lemma proxy_acquire_respects_blacklist_witness :
  fst (Middlewares._get_next_proxy
         (Middlewares.run
            (snd (Middlewares.process_exception
                    (Some (lit "http://10.0.0.1:8080"))
                    (Middlewares.init true (Some three_proxies))))
            [Middlewares.Request]))
  <> Some (lit "http://10.0.0.1:8080").
Proof.
  assert (R : Middlewares.reachable (Middlewares.init true (Some three_proxies))).
  { exists true, (Some three_proxies), []. reflexivity. }
  destruct (proxy_acquire_respects_blacklist _ R) as (_ & _ & _ & F & _).
  apply F. repeat constructor. discriminate.
Defined.

(** ** Which fields each pipeline stage writes *)

Lemma bind_ok {A B : Type} (r : res A) (k : A -> res B) (b : B) :
  mbind k r = Ok b -> exists a, r = Ok a /\ k a = Ok b.
Proof. destruct r as [a|e]; simpl; [eauto | discriminate]. Qed.

Lemma untouched_refl (ks : list str) (d : dict) : untouched ks d d.
Proof. intros k _; reflexivity. Qed.

Lemma untouched_trans (ks : list str) (d1 d2 d3 : dict) :
  untouched ks d1 d2 -> untouched ks d2 d3 -> untouched ks d1 d3.
Proof. intros H12 H23 k Hk. rewrite (H23 k Hk). apply H12, Hk. Qed.

Lemma untouched_set (ks : list str) (key : str) (v : value) (d : dict) :
  existsb (str_eqb key) ks = true -> untouched ks d (dict_set key v d).
Proof.
  intros Hin k Hk. apply dict_get_set_ne.
  destruct (str_eqb key k) eqn:E; [| reflexivity].
  apply str_eqb_eq in E; subst k. congruence.
Qed.

Lemma untouched_py_get (ks : list str) (d d' : dict) (k : str) :
  untouched ks d d' -> existsb (str_eqb k) ks = false -> py_get d' k = py_get d k.
Proof. intros U Hk. unfold py_get. rewrite (U k Hk). reflexivity. Qed.

Lemma existsb_app_true (k : str) (ks1 ks2 : list str) :
  existsb (str_eqb k) ks1 = true \/ existsb (str_eqb k) ks2 = true ->
  existsb (str_eqb k) (ks1 ++ ks2) = true.
Proof. rewrite existsb_app, orb_true_iff. auto. Qed.

Create HintDb untouched.
#[local] Hint Resolve untouched_refl untouched_set : untouched.

Section PipelineFrames.
Context `{Builtins}.

Lemma fix_price_data_untouched (ks : list str) (d d' : dict) :
  existsb (str_eqb (lit "price_data")) ks = true ->
  fix_price_data d = Ok d' -> untouched ks d d'.
Proof.
  intros Hk. unfold fix_price_data.
  repeat match goal with
         | |- context [if ?b then _ else _] => destruct b
         | |- context [match py_get ?a ?b with _ => _ end] => destruct (py_get a b)
         | |- context [mbind _ ?r] => destruct r; simpl
         end;
    intros [= <-] || discriminate; auto with untouched.
Qed.

Lemma fix_stock_data_untouched (ks : list str) (d : dict) :
  existsb (str_eqb (lit "stock_data")) ks = true ->
  untouched ks d (fix_stock_data d).
Proof.
  intros Hk. unfold fix_stock_data.
  repeat match goal with
         | |- context [if ?b then _ else _] => destruct b
         | |- context [match py_get ?a ?b with _ => _ end] => destruct (py_get a b)
         end; auto with untouched.
Qed.

Lemma fix_price_untouched (ks : list str) (d d' : dict) :
  existsb (str_eqb (lit "price")) ks = true ->
  fix_price d = Ok d' -> untouched ks d d'.
Proof.
  intros Hk. unfold fix_price.
  repeat match goal with
         | |- context [if ?b then _ else _] => destruct b
         | |- context [mbind _ ?r] => destruct r; simpl
         end;
    intros [= <-] || discriminate; auto with untouched.
Qed.

Lemma fill_defaults_untouched (ks : list str) (table : dict) :
  forallb (fun kv => existsb (str_eqb (fst kv)) ks) table = true ->
  forall d, untouched ks d (fill_defaults table d).
Proof.
  unfold fill_defaults.
  induction table as [|[key v] t IH]; intros Hall d; simpl; [auto with untouched |].
  simpl in Hall. apply andb_true_iff in Hall. destruct Hall as [Hkey Ht].
  eapply untouched_trans; [| apply IH, Ht].
  destruct (unset d key); auto with untouched.
Qed.

Lemma on_nested_untouched (ks : list str) (field : str) (f : dict -> dict) (d : dict) :
  existsb (str_eqb field) ks = true -> untouched ks d (on_nested field f d).
Proof.
  intros Hk. unfold on_nested.
  destruct (truthy (py_get d field)); [| auto with untouched].
  destruct (py_get d field); auto with untouched.
Qed.

Lemma validation_untouched (d d' : dict) :
  ValidationPipeline.process_item d = Accepted d' -> untouched validation_keys d d'.
Proof.
  unfold ValidationPipeline.process_item.
  destruct (validation_errors d); [| discriminate].
  destruct (fix_price_data d) as [d1|] eqn:E1; simpl; [| discriminate].
  destruct (fix_price (fix_stock_data d1)) as [d2|] eqn:E2; simpl; [| discriminate].
  intros [= <-].
  eapply untouched_trans; [| eapply fix_price_untouched; [reflexivity | exact E2]].
  eapply untouched_trans; [| apply fix_stock_data_untouched; reflexivity].
  eapply fix_price_data_untouched; [reflexivity | exact E1].
Qed.

Lemma defaults_untouched (now : Z) (d : dict) :
  untouched defaults_keys d (DefaultValuesPipeline.process_item now d).
Proof.
  unfold DefaultValuesPipeline.process_item. cbv zeta.
  eapply untouched_trans; [| apply on_nested_untouched; reflexivity].
  eapply untouched_trans; [| apply on_nested_untouched; reflexivity].
  eapply untouched_trans; [| apply on_nested_untouched; reflexivity].
  apply (untouched_trans _ _ (fill_defaults defaults d));
    [apply fill_defaults_untouched; reflexivity |].
  destruct (is_none _); [apply untouched_set; reflexivity | apply untouched_refl].
Qed.

Lemma clean_string_field_untouched (ks : list str) (field : str) (d : dict) :
  existsb (str_eqb field) ks = true -> untouched ks d (clean_string_field d field).
Proof.
  intros Hk. unfold clean_string_field.
  destruct (dict_has field d); [| auto with untouched].
  destruct (py_get d field); auto with untouched.
  destruct (str_eqb _ _); auto with untouched.
Qed.

Lemma clean_string_fields_untouched (ks : list str) (fields : list str) :
  forallb (fun f => existsb (str_eqb f) ks) fields = true ->
  forall d, untouched ks d (fold_left clean_string_field fields d).
Proof.
  induction fields as [|f t IH]; intros Hall d; simpl; [auto with untouched |].
  simpl in Hall. apply andb_true_iff in Hall. destruct Hall as [Hf Ht].
  eapply untouched_trans; [apply clean_string_field_untouched, Hf | apply IH, Ht].
Qed.

Lemma clean_tags_untouched (ks : list str) (field : str) (d : dict) :
  existsb (str_eqb field) ks = true -> untouched ks d (clean_tags field d).
Proof.
  intros Hk. unfold clean_tags.
  destruct (truthy (py_get d field)); [| auto with untouched].
  destruct (py_get d field); auto with untouched.
Qed.

Lemma clean_image_urls_untouched (ks : list str) (d d' : dict) :
  existsb (str_eqb (lit "image_urls")) ks = true ->
  clean_image_urls d = Ok d' -> untouched ks d d'.
Proof.
  intros Hk. unfold clean_image_urls.
  destruct (truthy _); [| intros [= <-]; auto with untouched].
  destruct (py_get d (lit "image_urls")); try (intros [= <-]; auto with untouched).
  destruct (unique_values l); simpl; [| discriminate].
  intros [= <-]; auto with untouched.
Qed.

Lemma clean_assets_untouched (ks : list str) (d d' : dict) :
  existsb (str_eqb (lit "assets")) ks = true ->
  clean_assets d = Ok d' -> untouched ks d d'.
Proof.
  intros Hk. unfold clean_assets.
  destruct (truthy _); [| intros [= <-]; auto with untouched].
  destruct (py_get d (lit "assets")); try (intros [= <-]; auto with untouched).
  intros E. repeat (apply bind_ok in E; destruct E as (? & _ & E)).
  injection E as <-. auto with untouched.
Qed.

Lemma clean_description_untouched (ks : list str) (d : dict) :
  existsb (str_eqb (lit "description")) ks = true ->
  untouched ks d (clean_description d).
Proof.
  intros Hk. unfold clean_description.
  destruct (truthy _); [| auto with untouched].
  destruct (py_get d (lit "description")); auto with untouched.
Qed.

Lemma clean_nonnegative_untouched (ks : list str) (field : str) (d d' : dict) :
  existsb (str_eqb field) ks = true ->
  clean_nonnegative field d = Ok d' -> untouched ks d d'.
Proof.
  intros Hk. unfold clean_nonnegative.
  destruct (negb _); [| intros [= <-]; auto with untouched].
  destruct (py_float _) as [x|[]]; try discriminate;
    try (intros [= <-]; auto with untouched).
  destruct (ltb x zero); intros [= <-]; auto with untouched.
Qed.

Lemma clean_rating_untouched (ks : list str) (d d' : dict) :
  existsb (str_eqb (lit "rating")) ks = true ->
  clean_rating d = Ok d' -> untouched ks d d'.
Proof.
  intros Hk. unfold clean_rating.
  destruct (negb _); [| intros [= <-]; auto with untouched].
  destruct (py_float _) as [x|[]]; try discriminate;
    try (intros [= <-]; auto with untouched).
  destruct (_ || _); intros [= <-]; auto with untouched.
Qed.

Lemma clean_discount_untouched (ks : list str) (d d' : dict) :
  existsb (str_eqb (lit "discount_percentage")) ks = true ->
  clean_discount d = Ok d' -> untouched ks d d'.
Proof.
  intros Hk. unfold clean_discount.
  destruct (negb _); [| intros [= <-]; auto with untouched].
  destruct (py_int _) as [x|[]]; try discriminate;
    try (intros [= <-]; auto with untouched).
  destruct (_ || _); intros [= <-]; auto with untouched.
Qed.

(** The steps of the cleaning stage, named. *)
Lemma cleaning_steps (d out : dict) :
  DataCleaningPipeline.process_item d = Ok out ->
  exists d4 d6 d8 d9 d10,
    clean_image_urls
      (clean_attributes
         (clean_tags (lit "marketing_tags")
            (fold_left clean_string_field string_fields d))) = Ok d4
    /\ clean_assets (clean_tags (lit "tags") d4) = Ok d6
    /\ clean_nonnegative (lit "price") (clean_description d6) = Ok d8
    /\ clean_nonnegative (lit "original_price") d8 = Ok d9
    /\ clean_rating d9 = Ok d10
    /\ clean_discount d10 = Ok out.
Proof.
  unfold DataCleaningPipeline.process_item. intros E.
  apply bind_ok in E. destruct E as (d4 & E4 & E).
  apply bind_ok in E. destruct E as (d6 & E6 & E).
  apply bind_ok in E. destruct E as (d8 & E8 & E).
  apply bind_ok in E. destruct E as (d9 & E9 & E).
  apply bind_ok in E. destruct E as (d10 & E10 & E).
  exists d4, d6, d8, d9, d10. auto 10.
Qed.

Lemma cleaning_untouched (d out : dict) :
  DataCleaningPipeline.process_item d = Ok out -> untouched cleaning_keys d out.
Proof.
  intros E. apply cleaning_steps in E.
  destruct E as (d4 & d6 & d8 & d9 & d10 & E4 & E6 & E8 & E9 & E10 & E11).
  eapply untouched_trans; [| eapply clean_discount_untouched; [reflexivity | exact E11]].
  eapply untouched_trans; [| eapply clean_rating_untouched; [reflexivity | exact E10]].
  eapply untouched_trans;
    [| eapply (clean_nonnegative_untouched _ (lit "original_price"));
       [reflexivity | exact E9]].
  eapply untouched_trans;
    [| eapply (clean_nonnegative_untouched _ (lit "price")); [reflexivity | exact E8]].
  eapply untouched_trans; [| apply clean_description_untouched; reflexivity].
  eapply untouched_trans; [| eapply clean_assets_untouched; [reflexivity | exact E6]].
  eapply untouched_trans; [| apply clean_tags_untouched; reflexivity].
  eapply untouched_trans; [| eapply clean_image_urls_untouched; [reflexivity | exact E4]].
  eapply untouched_trans; [| apply on_nested_untouched; reflexivity].
  eapply untouched_trans; [| apply clean_tags_untouched; reflexivity].
  apply clean_string_fields_untouched; reflexivity.
Qed.

(** [normalize] accepts exactly when validation passes and cleaning
    raises nothing. *)
Lemma normalize_accepted (now : Z) (item out : dict) :
  normalize now item = Accepted out ->
  exists validated,
    ValidationPipeline.process_item item = Accepted validated
    /\ DataCleaningPipeline.process_item (DefaultValuesPipeline.process_item now validated) = Ok out.
Proof.
  unfold normalize, and_then.
  destruct (ValidationPipeline.process_item item) as [v| |]; try discriminate.
  destruct (DataCleaningPipeline.process_item _) as [o|] eqn:E; simpl; [| discriminate].
  intros [= <-]. eauto.
Qed.

Lemma cleaning_prefix_untouched (d d4 d6 d8 d9 : dict) :
  clean_image_urls
    (clean_attributes
       (clean_tags (lit "marketing_tags")
          (fold_left clean_string_field string_fields d))) = Ok d4 ->
  clean_assets (clean_tags (lit "tags") d4) = Ok d6 ->
  clean_nonnegative (lit "price") (clean_description d6) = Ok d8 ->
  clean_nonnegative (lit "original_price") d8 = Ok d9 ->
  untouched cleaning_prefix_keys d d9.
Proof.
  intros E4 E6 E8 E9.
  eapply untouched_trans;
    [| eapply (clean_nonnegative_untouched _ (lit "original_price"));
       [reflexivity | exact E9]].
  eapply untouched_trans;
    [| eapply (clean_nonnegative_untouched _ (lit "price")); [reflexivity | exact E8]].
  eapply untouched_trans; [| apply clean_description_untouched; reflexivity].
  eapply untouched_trans; [| eapply clean_assets_untouched; [reflexivity | exact E6]].
  eapply untouched_trans; [| apply clean_tags_untouched; reflexivity].
  eapply untouched_trans; [| eapply clean_image_urls_untouched; [reflexivity | exact E4]].
  eapply untouched_trans; [| apply on_nested_untouched; reflexivity].
  eapply untouched_trans; [| apply clean_tags_untouched; reflexivity].
  apply clean_string_fields_untouched; reflexivity.
Qed.

(** ** Ranges of rating and discount *)

Lemma is_none_true (v : value) : is_none v = true -> v = VNone.
Proof. destruct v; simpl; congruence. Qed.

Lemma clean_rating_spec (d d' : dict) :
  clean_rating d = Ok d' ->
  (py_get d' (lit "rating") = VNone
   \/ exists f, py_float (py_get d' (lit "rating")) = Ok f
                /\ ltb f zero = false /\ ltb (of_Z 5) f = false)
  /\ (forall f, py_float (py_get d (lit "rating")) = Ok f ->
                ltb f zero = true \/ ltb (of_Z 5) f = true ->
                py_get d' (lit "rating") = VNone).
Proof.
  unfold clean_rating. intros E.
  destruct (is_none (py_get d (lit "rating"))) eqn:N; cbn [negb] in E.
  - injection E as <-. apply is_none_true in N. rewrite N.
    split; [left; reflexivity | intros f; discriminate].
  - destruct (py_float (py_get d (lit "rating"))) as [x|e] eqn:Ef.
    + destruct (ltb x zero || ltb (of_Z 5) x) eqn:Range; injection E as <-.
      * rewrite py_get_set_eq. split; [left; reflexivity | reflexivity].
      * apply orb_false_iff in Range. destruct Range as [L0 L5]. split.
        { right. exists x. auto. }
        { intros f [= <-] [?|?]; congruence. }
    + destruct e; try discriminate; injection E as <-;
        rewrite py_get_set_eq; (split; [left; reflexivity | reflexivity]).
Qed.

Lemma clean_discount_spec (d d' : dict) :
  clean_discount d = Ok d' ->
  (py_get d' (lit "discount_percentage") = VNone
   \/ exists z, py_int (py_get d' (lit "discount_percentage")) = Ok z
                /\ 0 <= z <= 100)
  /\ (forall z, py_int (py_get d (lit "discount_percentage")) = Ok z ->
                z < 0 \/ 100 < z ->
                py_get d' (lit "discount_percentage") = VInt 0).
Proof.
  unfold clean_discount. intros E.
  destruct (is_none (py_get d (lit "discount_percentage"))) eqn:N; cbn [negb] in E.
  - injection E as <-. apply is_none_true in N. rewrite N.
    split; [left; reflexivity | intros f; discriminate].
  - destruct (py_int (py_get d (lit "discount_percentage"))) as [x|e] eqn:Ef.
    + destruct ((x <? 0) || (100 <? x)) eqn:Range; injection E as <-.
      * rewrite py_get_set_eq. split; [| reflexivity].
        right. exists 0. split; [reflexivity | lia].
      * apply orb_false_iff in Range. destruct Range as [L0 L5].
        apply Z.ltb_ge in L0, L5. split.
        { right. exists x. split; [exact Ef | lia]. }
        { intros f [= <-] [?|?]; lia. }
    + destruct e; try discriminate; injection E as <-;
        rewrite py_get_set_eq; (split; [left; reflexivity | discriminate]).
Qed.

(** What the range checks of the cleaning stage do establish.  In
    every record accepted by [normalize], [discount_percentage] is
    absent or null, or [int()] of it lies in [0, 100] (so an integer
    discount lies in [0, 100]); a discount whose integer part is out of
    range has been set to 0.  [rating] is absent or null, or [float()]
    of it is neither below 0 nor above 5, hence within [0, 5] unless it
    is NaN; a rating out of range has been cleared to null, never
    clamped. *)
Theorem normalized_rating_and_discount_ranges (now : Z) (item out : dict) :
  normalize now item = Accepted out ->
  (py_get out (lit "discount_percentage") = VNone
   \/ exists z, py_int (py_get out (lit "discount_percentage")) = Ok z
                /\ 0 <= z <= 100)
  /\ (forall z, py_get out (lit "discount_percentage") = VInt z -> 0 <= z <= 100)
  /\ (forall z, py_int (py_get item (lit "discount_percentage")) = Ok z ->
                z < 0 \/ 100 < z ->
                py_get out (lit "discount_percentage") = VInt 0)
  /\ (py_get out (lit "rating") = VNone
      \/ exists f, py_float (py_get out (lit "rating")) = Ok f
                   /\ ltb f zero = false /\ ltb (of_Z 5) f = false
                   /\ (is_nan f = false ->
                       leb zero f = true /\ leb f (of_Z 5) = true))
  /\ (forall f, py_float (py_get item (lit "rating")) = Ok f ->
                ltb f zero = true \/ ltb (of_Z 5) f = true ->
                py_get out (lit "rating") = VNone).
Proof.
  intros E. apply normalize_accepted in E. destruct E as (v & Ev & Ec).
  pose proof (validation_untouched _ _ Ev) as U1.
  pose proof (defaults_untouched now v) as U2.
  apply cleaning_steps in Ec.
  destruct Ec as (d4 & d6 & d8 & d9 & d10 & E4 & E6 & E8 & E9 & E10 & E11).
  pose proof (cleaning_prefix_untouched _ _ _ _ _ E4 E6 E8 E9) as U3.
  pose proof (clean_rating_untouched [lit "rating"] _ _ eq_refl E10) as U4.
  pose proof (clean_discount_untouched [lit "discount_percentage"] _ _ eq_refl E11) as U5.
  destruct (clean_rating_spec _ _ E10) as [R1 R2].
  destruct (clean_discount_spec _ _ E11) as [D1 D2].
  assert (Hd : py_get d10 (lit "discount_percentage")
               = py_get item (lit "discount_percentage")).
  { rewrite (untouched_py_get _ _ _ _ U4) by reflexivity.
    rewrite (untouched_py_get _ _ _ _ U3) by reflexivity.
    rewrite (untouched_py_get _ _ _ _ U2) by reflexivity.
    apply (untouched_py_get _ _ _ _ U1). reflexivity. }
  assert (Hr : py_get d9 (lit "rating") = py_get item (lit "rating")).
  { rewrite (untouched_py_get _ _ _ _ U3) by reflexivity.
    rewrite (untouched_py_get _ _ _ _ U2) by reflexivity.
    apply (untouched_py_get _ _ _ _ U1). reflexivity. }
  assert (Ho : py_get out (lit "rating") = py_get d10 (lit "rating")).
  { apply (untouched_py_get _ _ _ _ U5). reflexivity. }
  split; [exact D1 |].
  split.
  { intros z Hz. destruct D1 as [D1|(z' & Hz' & Hrange)]; [congruence |].
    rewrite Hz in Hz'. injection Hz' as <-. exact Hrange. }
  split; [rewrite <- Hd; exact D2 |].
  split.
  - rewrite Ho. destruct R1 as [R1|(f & Hf & L0 & L5)]; [left; exact R1 |].
    right. exists f. repeat split; try assumption.
    + apply not_ltb_leb; [assumption | reflexivity | exact L0].
    + apply not_ltb_leb; [reflexivity | assumption | exact L5].
  - rewrite Ho, <- Hr. exact R2.
Qed.

End PipelineFrames.

Lemma normalized_rating_and_discount_ranges_witness :
  exists out,
    @normalize Runtime.sample 0 (minimal_record_with (lit "discount_percentage") (VInt 150))
    = Accepted out
    /\ py_get out (lit "discount_percentage") = VInt 0.
Proof.
  destruct (@normalize Runtime.sample 0
              (minimal_record_with (lit "discount_percentage") (VInt 150)))
    as [out| |] eqn:E; try (vm_compute in E; discriminate E).
  exists out. split; [reflexivity |].
  destruct (@normalized_rating_and_discount_ranges Runtime.sample 0 _ out E)
    as (_ & _ & H & _).
  apply (H 150); [reflexivity | right; reflexivity].
Defined.

(** C4 at a discount of 100.5, at a discount of -0.5 and at a rating
    that is NaN.  The range check of the discount is made on [int()] of
    it, which truncates 100.5 to 100 and -0.5 to 0, and that of the
    rating by two comparisons, which are both false of a NaN: each of
    the three records is accepted with the value as it came, outside
    [0, 100] and outside [0, 5]. *)
Theorem out_of_range_discount_and_rating_accepted :
  (exists out,
      @normalize Runtime.sample 0
        (minimal_record_with (lit "discount_percentage") (VFloat f_100_5))
      = Accepted out
      /\ py_get out (lit "discount_percentage") = VFloat f_100_5
      /\ ltb (of_Z 100) f_100_5 = true
      /\ number_between 0 100 (py_get out (lit "discount_percentage")) = false)
  /\ (exists out,
         @normalize Runtime.sample 0
           (minimal_record_with (lit "discount_percentage") (VFloat f_minus_0_5))
         = Accepted out
         /\ py_get out (lit "discount_percentage") = VFloat f_minus_0_5
         /\ ltb f_minus_0_5 zero = true
         /\ number_between 0 100 (py_get out (lit "discount_percentage")) = false)
  /\ (exists out,
         @normalize Runtime.sample 0
           (minimal_record_with (lit "rating") (VFloat S754_nan))
         = Accepted out
         /\ py_get out (lit "rating") = VFloat S754_nan
         /\ number_between 0 5 (py_get out (lit "rating")) = false).
Proof.
  split; [| split].
  - eexists. split; [vm_compute; reflexivity |].
    repeat split; vm_compute; reflexivity.
  - eexists. split; [vm_compute; reflexivity |].
    repeat split; vm_compute; reflexivity.
  - eexists. split; [vm_compute; reflexivity |].
    repeat split; vm_compute; reflexivity.
Qed.


(** ** Sorting and deduplication of tags *)

Lemma str_leb_total (a b : str) : str_leb a b = false -> str_leb b a = true.
Proof.
  revert b; induction a as [|x a IH]; intros [|y b]; simpl; try easy.
  destruct (x <? y)%N eqn:Lxy; [discriminate |].
  destruct (x =? y)%N eqn:Exy.
  - apply N.eqb_eq in Exy; subst y. rewrite N.ltb_irrefl, N.eqb_refl. apply IH.
  - intros _. apply N.ltb_ge in Lxy. apply N.eqb_neq in Exy.
    assert (Hlt : (y < x)%N) by lia. apply N.ltb_lt in Hlt. rewrite Hlt. reflexivity.
Qed.

Lemma insert_sorted_perm (x : str) (l : list str) :
  Permutation (insert_sorted x l) (x :: l).
Proof.
  induction l as [|y t IH]; simpl; [reflexivity |].
  destruct (str_leb x y); [reflexivity |].
  rewrite IH. apply perm_swap.
Qed.

Lemma sorted_perm (l : list str) : Permutation (sorted l) l.
Proof.
  induction l as [|x t IH]; simpl; [reflexivity |].
  rewrite insert_sorted_perm. apply perm_skip, IH.
Qed.

Lemma insert_sorted_ordered (x : str) (l : list str) :
  Sorted str_le l -> Sorted str_le (insert_sorted x l).
Proof.
  induction l as [|y t IH]; intros Hs; simpl.
  - repeat constructor.
  - destruct (str_leb x y) eqn:L.
    + constructor; [exact Hs | constructor; exact L].
    + inversion Hs as [|? ? Ht Hhd]; subst.
      constructor; [apply IH, Ht |].
      destruct t as [|z t']; simpl.
      * constructor. apply str_leb_total, L.
      * destruct (str_leb x z); constructor.
        { apply str_leb_total, L. }
        { inversion Hhd; subst. assumption. }
Qed.

Lemma sorted_ordered (l : list str) : Sorted str_le (sorted l).
Proof.
  induction l as [|x t IH]; simpl; [constructor |].
  apply insert_sorted_ordered, IH.
Qed.

Lemma dedup_In (l : list str) (s : str) : In s (dedup l) <-> In s l.
Proof.
  induction l as [|x t IH]; simpl; [reflexivity |].
  rewrite filter_In, IH. split.
  - intros [E|[Hin _]]; auto.
  - intros [E|Hin]; [auto |].
    destruct (str_eqb x s) eqn:Exs.
    + left. apply str_eqb_eq, Exs.
    + right. split; [exact Hin | reflexivity].
Qed.

Lemma dedup_NoDup (l : list str) : List.NoDup (dedup l).
Proof.
  induction l as [|x t IH]; simpl; constructor.
  - intros Hx. apply filter_In in Hx. destruct Hx as [_ Hx].
    rewrite str_eqb_refl in Hx. discriminate.
  - apply List.NoDup_filter, IH.
Qed.

Lemma sorted_dedup_spec (l : list str) :
  List.NoDup (sorted (dedup l))
  /\ Sorted str_le (sorted (dedup l))
  /\ (forall s, In s (sorted (dedup l)) <-> In s l).
Proof.
  split; [| split].
  - apply (Permutation_NoDup (Permutation_sym (sorted_perm _))), dedup_NoDup.
  - apply sorted_ordered.
  - intros s. split; intros Hin.
    + apply dedup_In, (Permutation_in _ (sorted_perm _)), Hin.
    + apply (Permutation_in _ (Permutation_sym (sorted_perm _))), dedup_In, Hin.
Qed.

(** ** Tag lists after cleaning *)

Section TagLists.
Context `{Builtins}.

Lemma clean_tags_sets (field : str) (d : dict) (entries : list value) :
  py_get d field = VList entries -> entries <> [] ->
  py_get (clean_tags field d) field
  = VList (List.map VStr (sorted (dedup (stripped_tags entries)))).
Proof.
  intros E Hne. unfold clean_tags. rewrite E.
  destruct entries as [|e t]; [congruence |]. cbn [truthy].
  apply py_get_set_eq.
Qed.

Lemma cleaning_marketing_tags (d out : dict) (entries : list value) :
  DataCleaningPipeline.process_item d = Ok out ->
  py_get d (lit "marketing_tags") = VList entries -> entries <> [] ->
  py_get out (lit "marketing_tags")
  = VList (List.map VStr (sorted (dedup (stripped_tags entries)))).
Proof.
  intros Ec E Hne. apply cleaning_steps in Ec.
  destruct Ec as (d4 & d6 & d8 & d9 & d10 & E4 & E6 & E8 & E9 & E10 & E11).
  set (ks := cleaning_keys_except (lit "marketing_tags")).
  set (d1 := fold_left clean_string_field string_fields d) in *.
  assert (U1 : untouched ks d d1)
    by (apply clean_string_fields_untouched; reflexivity).
  assert (U2 : untouched ks (clean_tags (lit "marketing_tags") d1) out).
  { eapply untouched_trans; [| eapply clean_discount_untouched; [reflexivity | exact E11]].
    eapply untouched_trans; [| eapply clean_rating_untouched; [reflexivity | exact E10]].
    eapply untouched_trans;
      [| eapply (clean_nonnegative_untouched _ (lit "original_price"));
         [reflexivity | exact E9]].
    eapply untouched_trans;
      [| eapply (clean_nonnegative_untouched _ (lit "price")); [reflexivity | exact E8]].
    eapply untouched_trans; [| apply clean_description_untouched; reflexivity].
    eapply untouched_trans; [| eapply clean_assets_untouched; [reflexivity | exact E6]].
    eapply untouched_trans; [| apply clean_tags_untouched; reflexivity].
    eapply untouched_trans; [| eapply clean_image_urls_untouched; [reflexivity | exact E4]].
    apply on_nested_untouched; reflexivity. }
  rewrite (untouched_py_get _ _ _ _ U2) by reflexivity.
  apply clean_tags_sets; [| exact Hne].
  rewrite (untouched_py_get _ _ _ _ U1) by reflexivity. exact E.
Qed.

Lemma cleaning_tags (d out : dict) (entries : list value) :
  DataCleaningPipeline.process_item d = Ok out ->
  py_get d (lit "tags") = VList entries -> entries <> [] ->
  py_get out (lit "tags")
  = VList (List.map VStr (sorted (dedup (stripped_tags entries)))).
Proof.
  intros Ec E Hne. apply cleaning_steps in Ec.
  destruct Ec as (d4 & d6 & d8 & d9 & d10 & E4 & E6 & E8 & E9 & E10 & E11).
  set (ks := cleaning_keys_except (lit "tags")).
  assert (U1 : untouched ks d d4).
  { eapply untouched_trans; [| eapply clean_image_urls_untouched; [reflexivity | exact E4]].
    eapply untouched_trans; [| apply on_nested_untouched; reflexivity].
    eapply untouched_trans; [| apply clean_tags_untouched; reflexivity].
    apply clean_string_fields_untouched; reflexivity. }
  assert (U2 : untouched ks (clean_tags (lit "tags") d4) out).
  { eapply untouched_trans; [| eapply clean_discount_untouched; [reflexivity | exact E11]].
    eapply untouched_trans; [| eapply clean_rating_untouched; [reflexivity | exact E10]].
    eapply untouched_trans;
      [| eapply (clean_nonnegative_untouched _ (lit "original_price"));
         [reflexivity | exact E9]].
    eapply untouched_trans;
      [| eapply (clean_nonnegative_untouched _ (lit "price")); [reflexivity | exact E8]].
    eapply untouched_trans; [| apply clean_description_untouched; reflexivity].
    eapply clean_assets_untouched; [reflexivity | exact E6]. }
  rewrite (untouched_py_get _ _ _ _ U2) by reflexivity.
  apply clean_tags_sets; [| exact Hne].
  rewrite (untouched_py_get _ _ _ _ U1) by reflexivity. exact E.
Qed.

(** C8, as the code has it.  After the cleaning stage a non-empty
    [tags] or [marketing_tags] list holds the trimmed string entries of
    the input list, each once under exact (case-sensitive) comparison,
    in ascending code-point order. *)
Theorem cleaned_tags_distinct_and_sorted (field : str) (item out : dict)
        (entries : list value) :
  field = lit "tags" \/ field = lit "marketing_tags" ->
  DataCleaningPipeline.process_item item = Ok out ->
  py_get item field = VList entries ->
  entries <> [] ->
  exists tags : list str,
    py_get out field = VList (List.map VStr tags)
    /\ List.NoDup tags
    /\ Sorted str_le tags
    /\ (forall s, In s tags <-> In s (stripped_tags entries)).
Proof.
  intros Hfield Ec E Hne.
  exists (sorted (dedup (stripped_tags entries))).
  split; [| apply sorted_dedup_spec].
  destruct Hfield as [-> | ->];
    [eapply cleaning_tags | eapply cleaning_marketing_tags]; eassumption.
Qed.

End TagLists.

Lemma cleaned_tags_distinct_and_sorted_witness :
  exists out tags,
    @DataCleaningPipeline.process_item Runtime.sample
      (minimal_record_with (lit "tags")
         (VList [VStr (lit "b"); VStr (lit " a"); VStr (lit "a")])) = Ok out
    /\ py_get out (lit "tags") = VList (List.map VStr tags)
    /\ List.NoDup tags /\ Sorted str_le tags.
Proof.
  destruct (@DataCleaningPipeline.process_item Runtime.sample
              (minimal_record_with (lit "tags")
                 (VList [VStr (lit "b"); VStr (lit " a"); VStr (lit "a")])))
    as [out|] eqn:E; [| vm_compute in E; discriminate E].
  destruct (@cleaned_tags_distinct_and_sorted Runtime.sample (lit "tags") _ out
              [VStr (lit "b"); VStr (lit " a"); VStr (lit "a")]
              (or_introl eq_refl) E eq_refl ltac:(discriminate))
    as (tags & Ht & Hn & Hs & _).
  exists out, tags. auto.
Defined.

(** C8 as stated fails on two tags that differ by case only: both
    survive the deduplication. *)
Lemma tags_case_counterexample :
  exists out,
    @DataCleaningPipeline.process_item Runtime.sample
      (minimal_record_with (lit "tags") (VList [VStr (lit "Sale"); VStr (lit "sale")]))
    = Ok out
    /\ py_get out (lit "tags") = VList [VStr (lit "Sale"); VStr (lit "sale")]
    /\ @same_ignoring_case Runtime.sample (lit "Sale") (lit "sale")
    /\ lit "Sale" <> lit "sale".
Proof.
  eexists. split; [vm_compute; reflexivity |].
  split; [vm_compute; reflexivity |].
  split; [vm_compute; reflexivity | vm_compute; discriminate].
Qed.

(** ** Defaults of the nested structures *)

Lemma keys_cover (table : dict) :
  forallb (fun kv => existsb (str_eqb (fst kv)) (List.map fst table)) table = true.
Proof.
  apply forallb_forall. intros [k v] Hin. apply existsb_exists.
  exists k. split; [| apply str_eqb_refl].
  apply (in_map fst) in Hin. exact Hin.
Qed.

Lemma unset_false_get (d : dict) (k : str) :
  unset d k = false -> dict_get k d = Some (py_get d k).
Proof.
  unfold unset, dict_has, py_get.
  destruct (dict_get k d); simpl; [reflexivity | discriminate].
Qed.

Lemma unset_set_ne (d : dict) (k0 k : str) (v : value) :
  str_eqb k0 k = false -> unset (dict_set k0 v d) k = unset d k.
Proof.
  intros E. unfold unset. rewrite dict_has_set_ne, py_get_set_ne by exact E.
  reflexivity.
Qed.

Lemma fill_defaults_lookup (table : dict) :
  distinct_keys table = true ->
  forall (d : dict) (k : str) (v : value),
    In (k, v) table ->
    dict_get k (fill_defaults table d)
    = Some (if unset d k then v else py_get d k).
Proof.
  induction table as [|[k0 v0] t IH]; intros Hd d k v Hin; [destruct Hin |].
  simpl in Hd. apply andb_true_iff in Hd. destruct Hd as [Hk0 Ht].
  apply negb_true_iff in Hk0.
  change (fill_defaults ((k0, v0) :: t) d)
    with (fill_defaults t (if unset d k0 then dict_set k0 v0 d else d)).
  destruct Hin as [[= <- <-]|Hin].
  - rewrite (fill_defaults_untouched (List.map fst t) t (keys_cover t) _ k0 Hk0).
    destruct (unset d k0) eqn:U; [apply dict_get_set_eq | apply unset_false_get, U].
  - rewrite (IH Ht _ k v Hin).
    assert (Hne : str_eqb k0 k = false).
    { destruct (str_eqb k0 k) eqn:E; [| reflexivity].
      apply str_eqb_eq in E; subst k0.
      assert (Hex : existsb (str_eqb k) (List.map fst t) = true).
      { apply existsb_exists. exists k. split; [| apply str_eqb_refl].
        apply (in_map fst) in Hin. exact Hin. }
      congruence. }
    destruct (unset d k0); [| reflexivity].
    rewrite unset_set_ne, py_get_set_ne by exact Hne. reflexivity.
Qed.

Lemma on_nested_sets (field : str) (f : dict -> dict) (d nested : dict) :
  py_get d field = VDict nested -> nested <> [] ->
  py_get (on_nested field f d) field = VDict (f nested).
Proof.
  intros E Hne. unfold on_nested. rewrite E.
  destruct nested as [|kv t]; [congruence |]. cbn [truthy].
  apply py_get_set_eq.
Qed.

Lemma on_nested_skips (field : str) (f : dict -> dict) (d : dict) :
  truthy (py_get d field) = false -> on_nested field f d = d.
Proof. intros E. unfold on_nested. rewrite E. reflexivity. Qed.

Lemma default_price_data_spec (pd : dict) :
  dict_get (lit "currency") (default_price_data pd)
  = Some (if negb (dict_has (lit "currency") pd)
             || negb (truthy (py_get pd (lit "currency")))
          then VStr (lit "RUB") else py_get pd (lit "currency"))
  /\ dict_get (lit "sale_tag") (default_price_data pd)
     = Some (py_get pd (lit "sale_tag"))
  /\ untouched [lit "currency"; lit "sale_tag"] pd (default_price_data pd).
Proof.
  unfold default_price_data.
  set (pd1 := if negb (dict_has (lit "currency") pd)
                 || negb (truthy (py_get pd (lit "currency")))
              then dict_set (lit "currency") (VStr (lit "RUB")) pd else pd).
  assert (Hc : dict_get (lit "currency") pd1
               = Some (if negb (dict_has (lit "currency") pd)
                          || negb (truthy (py_get pd (lit "currency")))
                       then VStr (lit "RUB") else py_get pd (lit "currency"))).
  { subst pd1. destruct (negb (dict_has (lit "currency") pd)) eqn:Hh; cbn [orb].
    - apply dict_get_set_eq.
    - destruct (negb (truthy _)); [apply dict_get_set_eq |].
      apply negb_false_iff in Hh. unfold dict_has, py_get in *.
      destruct (dict_get (lit "currency") pd); [reflexivity | discriminate]. }
  assert (Hs : dict_get (lit "sale_tag") pd1 = dict_get (lit "sale_tag") pd).
  { subst pd1. destruct (_ || _); [| reflexivity].
    apply dict_get_set_ne. reflexivity. }
  assert (U1 : untouched [lit "currency"; lit "sale_tag"] pd pd1).
  { subst pd1. destruct (_ || _); [apply untouched_set; reflexivity | apply untouched_refl]. }
  destruct (negb (dict_has (lit "sale_tag") pd1)) eqn:Hh.
  - split; [| split].
    + rewrite dict_get_set_ne by reflexivity. exact Hc.
    + rewrite dict_get_set_eq. apply negb_true_iff in Hh.
      unfold dict_has in Hh. rewrite Hs in Hh. unfold py_get.
      destruct (dict_get (lit "sale_tag") pd); [discriminate | reflexivity].
    + eapply untouched_trans; [exact U1 | apply untouched_set; reflexivity].
  - split; [exact Hc | split; [| exact U1]].
    apply negb_false_iff in Hh. unfold dict_has in Hh. rewrite Hs in *.
    unfold py_get. destruct (dict_get (lit "sale_tag") pd); [reflexivity | discriminate].
Qed.

(** What the defaulting stage does to each nested mapping. *)
Lemma defaults_nested_spec (now : Z) (item : dict) :
  (forall pd,
      py_get item (lit "price_data") = VDict pd -> pd <> [] ->
      exists pd',
        py_get (DefaultValuesPipeline.process_item now item) (lit "price_data") = VDict pd'
        /\ dict_get (lit "currency") pd'
           = Some (if negb (dict_has (lit "currency") pd)
                      || negb (truthy (py_get pd (lit "currency")))
                   then VStr (lit "RUB") else py_get pd (lit "currency"))
        /\ dict_get (lit "sale_tag") pd' = Some (py_get pd (lit "sale_tag"))
        /\ untouched [lit "currency"; lit "sale_tag"] pd pd')
  /\ (forall assets,
         py_get item (lit "assets") = VDict assets -> assets <> [] ->
         exists assets',
           py_get (DefaultValuesPipeline.process_item now item) (lit "assets") = VDict assets'
           /\ (forall k v, In (k, v) defaults_assets ->
                           dict_get k assets'
                           = Some (if unset assets k then v else py_get assets k))
           /\ untouched (List.map fst defaults_assets) assets assets')
  /\ (forall stock,
         py_get item (lit "stock_data") = VDict stock -> stock <> [] ->
         exists stock',
           py_get (DefaultValuesPipeline.process_item now item) (lit "stock_data") = VDict stock'
           /\ (forall k v, In (k, v) defaults_stock ->
                           dict_get k stock'
                           = Some (if unset stock k then v else py_get stock k))
           /\ untouched (List.map fst defaults_stock) stock stock')
  /\ (forall field,
         field = lit "price_data" \/ field = lit "assets" \/ field = lit "stock_data" ->
         truthy (py_get item field) = false ->
         dict_get field (DefaultValuesPipeline.process_item now item)
         = dict_get field item).
Proof.
  unfold DefaultValuesPipeline.process_item. cbv zeta.
  set (item1 := fill_defaults defaults item).
  set (item2 := if is_none (py_get item1 (lit "scraped_at"))
                then dict_set (lit "scraped_at") (VInt now) item1 else item1).
  assert (U0 : untouched (List.map fst defaults ++ [lit "scraped_at"]) item item2).
  { apply (untouched_trans _ _ item1).
    - apply fill_defaults_untouched. reflexivity.
    - subst item2. destruct (is_none _);
        [apply untouched_set; reflexivity | apply untouched_refl]. }
  set (item3 := on_nested (lit "price_data") default_price_data item2).
  set (item4 := on_nested (lit "assets") (fill_defaults defaults_assets) item3).
  pose proof (on_nested_untouched [lit "price_data"] (lit "price_data")
                default_price_data item2 eq_refl) as U3.
  pose proof (on_nested_untouched [lit "assets"] (lit "assets")
                (fill_defaults defaults_assets) item3 eq_refl) as U4.
  pose proof (on_nested_untouched [lit "stock_data"] (lit "stock_data")
                (fill_defaults defaults_stock) item4 eq_refl) as U5.
  fold item3 in U3, U4. fold item4 in U4, U5.
  split; [| split; [| split]].
  - intros pd E Hne. exists (default_price_data pd). split.
    + rewrite (untouched_py_get _ _ _ _ U5) by reflexivity.
      rewrite (untouched_py_get _ _ _ _ U4) by reflexivity.
      apply on_nested_sets; [| exact Hne].
      rewrite (untouched_py_get _ _ _ _ U0) by reflexivity. exact E.
    + apply default_price_data_spec.
  - intros a E Hne. exists (fill_defaults defaults_assets a). split; [| split].
    + rewrite (untouched_py_get _ _ _ _ U5) by reflexivity.
      apply on_nested_sets; [| exact Hne].
      rewrite (untouched_py_get _ _ _ _ U3) by reflexivity.
      rewrite (untouched_py_get _ _ _ _ U0) by reflexivity. exact E.
    + intros k v Hin. apply fill_defaults_lookup; [reflexivity | exact Hin].
    + apply fill_defaults_untouched, keys_cover.
  - intros s E Hne. exists (fill_defaults defaults_stock s). split; [| split].
    + apply on_nested_sets; [| exact Hne].
      rewrite (untouched_py_get _ _ _ _ U4) by reflexivity.
      rewrite (untouched_py_get _ _ _ _ U3) by reflexivity.
      rewrite (untouched_py_get _ _ _ _ U0) by reflexivity. exact E.
    + intros k v Hin. apply fill_defaults_lookup; [reflexivity | exact Hin].
    + apply fill_defaults_untouched, keys_cover.
  - intros field [-> | [-> | ->]] T.
    + rewrite (U5 (lit "price_data") eq_refl), (U4 (lit "price_data") eq_refl).
      subst item3. rewrite on_nested_skips; [apply U0; reflexivity |].
      rewrite (untouched_py_get _ _ _ _ U0) by reflexivity. exact T.
    + rewrite (U5 (lit "assets") eq_refl).
      subst item4. rewrite on_nested_skips.
      * rewrite (U3 (lit "assets") eq_refl). apply U0. reflexivity.
      * rewrite (untouched_py_get _ _ _ _ U3), (untouched_py_get _ _ _ _ U0)
          by reflexivity. exact T.
    + rewrite on_nested_skips.
      * rewrite (U4 (lit "stock_data") eq_refl), (U3 (lit "stock_data") eq_refl).
        apply U0. reflexivity.
      * rewrite (untouched_py_get _ _ _ _ U4), (untouched_py_get _ _ _ _ U3),
          (untouched_py_get _ _ _ _ U0) by reflexivity. exact T.
Qed.

(** C5, as the code has it.  After the defaulting stage, a nested
    structure that the record holds as a non-empty mapping has the keys
    of its table of defaults: [price_data] has [currency] (['RUB'] when
    it was missing or empty) and [sale_tag] (explicit null when it was
    missing); [assets] and [stock_data] have every key of
    [defaults_assets] and [defaults_stock], with the default where the
    key was missing or null and the old value otherwise.  The other keys
    of the nested mapping are as they were, and a nested structure that
    is absent or empty is left as it is. *)
Theorem defaulting_fills_nested (now : Z) (item : dict) :
  (forall pd,
      py_get item (lit "price_data") = VDict pd -> pd <> [] ->
      exists pd',
        py_get (DefaultValuesPipeline.process_item now item) (lit "price_data") = VDict pd'
        /\ dict_get (lit "currency") pd'
           = Some (if negb (dict_has (lit "currency") pd)
                      || negb (truthy (py_get pd (lit "currency")))
                   then VStr (lit "RUB") else py_get pd (lit "currency"))
        /\ dict_get (lit "sale_tag") pd' = Some (py_get pd (lit "sale_tag"))
        /\ untouched [lit "currency"; lit "sale_tag"] pd pd')
  /\ (forall assets,
         py_get item (lit "assets") = VDict assets -> assets <> [] ->
         exists assets',
           py_get (DefaultValuesPipeline.process_item now item) (lit "assets") = VDict assets'
           /\ (forall k v, In (k, v) defaults_assets ->
                           dict_get k assets'
                           = Some (if unset assets k then v else py_get assets k))
           /\ untouched (List.map fst defaults_assets) assets assets')
  /\ (forall stock,
         py_get item (lit "stock_data") = VDict stock -> stock <> [] ->
         exists stock',
           py_get (DefaultValuesPipeline.process_item now item) (lit "stock_data") = VDict stock'
           /\ (forall k v, In (k, v) defaults_stock ->
                           dict_get k stock'
                           = Some (if unset stock k then v else py_get stock k))
           /\ untouched (List.map fst defaults_stock) stock stock')
  /\ (forall field,
         field = lit "price_data" \/ field = lit "assets" \/ field = lit "stock_data" ->
         truthy (py_get item field) = false ->
         dict_get field (DefaultValuesPipeline.process_item now item)
         = dict_get field item).
Proof. exact (defaults_nested_spec now item). Qed.

Lemma defaulting_fills_nested_witness :
  exists stock',
    py_get (DefaultValuesPipeline.process_item 0
              (minimal_record_with (lit "stock_data")
                 (VDict [(lit "in_stock", VNone)])))
           (lit "stock_data") = VDict stock'
    /\ dict_get (lit "in_stock") stock' = Some (VBool false)
    /\ dict_get (lit "count") stock' = Some (VInt 0)
    /\ dict_get (lit "status") stock' = Some (VStr (lit "unknown"))
    /\ dict_get (lit "available_regions") stock' = Some (VList []).
Proof.
  destruct (defaulting_fills_nested 0
              (minimal_record_with (lit "stock_data")
                 (VDict [(lit "in_stock", VNone)]))) as (_ & _ & S & _).
  destruct (S [(lit "in_stock", VNone)] eq_refl ltac:(discriminate))
    as (stock' & E & L & _).
  exists stock'. split; [exact E |].
  split; [| split; [| split]].
  - rewrite (L (lit "in_stock") (VBool false)); [reflexivity | simpl; auto].
  - rewrite (L (lit "count") (VInt 0)); [reflexivity | simpl; auto].
  - rewrite (L (lit "status") (VStr (lit "unknown"))); [reflexivity | simpl; auto].
  - rewrite (L (lit "available_regions") (VList [])); [reflexivity | simpl; auto 6].
Defined.

(** C5 as stated fails where the stage does nothing: it never adds
    [current] or [original] to [price_data], and it skips a nested
    mapping that is empty. *)
Lemma nested_defaults_counterexample :
  py_get (DefaultValuesPipeline.process_item 0 sparse_nested_record) (lit "price_data")
  = VDict [(lit "current", VInt 1000); (lit "currency", VStr (lit "RUB"));
           (lit "sale_tag", VNone)]
  /\ nested_complete (lit "price_data") price_data_fields
       (DefaultValuesPipeline.process_item 0 sparse_nested_record) = false
  /\ py_get (DefaultValuesPipeline.process_item 0 sparse_nested_record) (lit "stock_data")
     = VDict []
  /\ nested_complete (lit "stock_data") stock_fields
       (DefaultValuesPipeline.process_item 0 sparse_nested_record) = false.
Proof. repeat split; vm_compute; reflexivity. Qed.

(** ** Price contradictions *)

Section PriceClamp.
Context `{Builtins}.

Lemma py_float_not_none (v : value) (f : float64) :
  py_float v = Ok f -> is_none v = false.
Proof. destruct v; simpl; congruence. Qed.

Lemma truthy_not_none (v : value) : truthy v = true -> is_none v = false.
Proof. destruct v; simpl; congruence. Qed.

Lemma fix_price_data_clamps (item pd : dict) (c o : float64) :
  py_get item (lit "price_data") = VDict pd ->
  truthy (py_get pd (lit "current")) = true ->
  truthy (py_get pd (lit "original")) = true ->
  py_float (py_get pd (lit "current")) = Ok c ->
  py_float (py_get pd (lit "original")) = Ok o ->
  ltb o c = true ->
  fix_price_data item
  = Ok (dict_set (lit "price_data")
          (VDict (dict_set (lit "current") (py_get pd (lit "original")) pd)) item).
Proof.
  intros E Tc To Fc Fo L. unfold fix_price_data. rewrite E.
  assert (Hne : truthy (VDict pd) = true).
  { destruct pd; [| reflexivity]. discriminate Tc. }
  rewrite Hne, (truthy_not_none _ Tc), (truthy_not_none _ To), Tc, To, Fc, Fo.
  simpl. rewrite L. reflexivity.
Qed.

Lemma dict_set_nonempty (k : str) (v : value) (d : dict) : dict_set k v d <> [].
Proof. destruct d as [|[k' v'] t]; simpl; [| destruct (str_eqb k' k)]; discriminate. Qed.

Lemma fix_price_clamps (item : dict) (p o : float64) :
  py_float (py_get item (lit "price")) = Ok p ->
  py_float (py_get item (lit "original_price")) = Ok o ->
  ltb o p = true ->
  fix_price item = Ok (dict_set (lit "price") (VFloat o) item).
Proof.
  intros Fp Fo L. unfold fix_price.
  rewrite (py_float_not_none _ _ Fp), (py_float_not_none _ _ Fo), Fp, Fo.
  simpl. rewrite L. reflexivity.
Qed.

Lemma clean_nonnegative_spec (field : str) (d d' : dict) (x : float64) :
  clean_nonnegative field d = Ok d' ->
  py_float (py_get d field) = Ok x ->
  d' = if ltb x zero then dict_set field (VInt 0) d else d.
Proof.
  unfold clean_nonnegative. intros E Fx.
  rewrite (py_float_not_none _ _ Fx), Fx in E. cbn [negb] in E.
  destruct (ltb x zero); congruence.
Qed.

Lemma cleaning_head_untouched (d d4 d6 : dict) :
  clean_image_urls
    (clean_attributes
       (clean_tags (lit "marketing_tags")
          (fold_left clean_string_field string_fields d))) = Ok d4 ->
  clean_assets (clean_tags (lit "tags") d4) = Ok d6 ->
  untouched cleaning_head_keys d (clean_description d6).
Proof.
  intros E4 E6.
  eapply untouched_trans; [| apply clean_description_untouched; reflexivity].
  eapply untouched_trans; [| eapply clean_assets_untouched; [reflexivity | exact E6]].
  eapply untouched_trans; [| apply clean_tags_untouched; reflexivity].
  eapply untouched_trans; [| eapply clean_image_urls_untouched; [reflexivity | exact E4]].
  eapply untouched_trans; [| apply on_nested_untouched; reflexivity].
  eapply untouched_trans; [| apply clean_tags_untouched; reflexivity].
  apply clean_string_fields_untouched; reflexivity.
Qed.

Lemma validation_steps (item v : dict) :
  ValidationPipeline.process_item item = Accepted v ->
  exists item1,
    fix_price_data item = Ok item1 /\ fix_price (fix_stock_data item1) = Ok v.
Proof.
  unfold ValidationPipeline.process_item.
  destruct (validation_errors item); [| discriminate].
  destruct (fix_price_data item) as [item1|] eqn:E1; simpl; [| discriminate].
  destruct (fix_price (fix_stock_data item1)) as [v'|] eqn:E2; simpl; [| discriminate].
  intros [= <-]. eauto.
Qed.

(** C2, as the code has it.  In an accepted record whose nested
    [price_data] holds a current and an original price that are both
    set and non-zero, with [float(current) > float(original)], the
    normalized [price_data] has [current] equal to [original], the
    original being kept.  When the top-level [price] and
    [original_price] are both present with
    [float(price) > float(original_price)], the normalized [price] is
    that float of the original price, or both are 0 when it is
    negative. *)
Theorem price_contradictions_repaired (now : Z) (item out : dict) :
  normalize now item = Accepted out ->
  (forall pd c o,
      py_get item (lit "price_data") = VDict pd ->
      truthy (py_get pd (lit "current")) = true ->
      truthy (py_get pd (lit "original")) = true ->
      py_float (py_get pd (lit "current")) = Ok c ->
      py_float (py_get pd (lit "original")) = Ok o ->
      ltb o c = true ->
      exists pd',
        py_get out (lit "price_data") = VDict pd'
        /\ py_get pd' (lit "current") = py_get pd (lit "original")
        /\ py_get pd' (lit "original") = py_get pd (lit "original"))
  /\ (forall p o,
         py_float (py_get item (lit "price")) = Ok p ->
         py_float (py_get item (lit "original_price")) = Ok o ->
         ltb o p = true ->
         py_get out (lit "price") = (if ltb o zero then VInt 0 else VFloat o)
         /\ py_get out (lit "original_price")
            = (if ltb o zero then VInt 0 else py_get item (lit "original_price"))).
Proof.
  intros E. apply normalize_accepted in E. destruct E as (v & Ev & Ec).
  destruct (validation_steps _ _ Ev) as (item1 & E1 & E2).
  pose proof (defaults_untouched now v) as Ud.
  split.
  - intros pd c o Epd Tc To Fc Fo L.
    rewrite (fix_price_data_clamps item pd c o Epd Tc To Fc Fo L) in E1.
    injection E1 as <-.
    set (pd1 := dict_set (lit "current") (py_get pd (lit "original")) pd) in *.
    assert (Hv : py_get v (lit "price_data") = VDict pd1).
    { rewrite (untouched_py_get [lit "price"] _ v (lit "price_data")
                 (fix_price_untouched [lit "price"] _ _ eq_refl E2) eq_refl).
      rewrite (untouched_py_get [lit "stock_data"] _ _ (lit "price_data")
                 (fix_stock_data_untouched [lit "stock_data"] _ eq_refl) eq_refl).
      apply py_get_set_eq. }
    destruct (defaults_nested_spec now v) as (P & _ & _ & _).
    destruct (P pd1 Hv (dict_set_nonempty _ _ _)) as (pd' & Epd' & _ & _ & Upd).
    exists pd'. split; [| split].
    + rewrite (untouched_py_get _ _ _ _ (cleaning_untouched _ _ Ec)) by reflexivity.
      exact Epd'.
    + rewrite (untouched_py_get _ _ _ _ Upd) by reflexivity.
      apply py_get_set_eq.
    + rewrite (untouched_py_get _ _ _ _ Upd) by reflexivity.
      apply py_get_set_ne. reflexivity.
  - intros p o Fp Fo L.
    pose proof (fix_price_data_untouched [lit "price_data"] _ _ eq_refl E1) as U1.
    pose proof (fix_stock_data_untouched [lit "stock_data"] item1 eq_refl) as U2.
    assert (Fp' : py_float (py_get (fix_stock_data item1) (lit "price")) = Ok p).
    { rewrite (untouched_py_get _ _ _ _ U2), (untouched_py_get _ _ _ _ U1)
        by reflexivity. exact Fp. }
    assert (Eo : py_get (fix_stock_data item1) (lit "original_price")
                 = py_get item (lit "original_price")).
    { rewrite (untouched_py_get _ _ _ _ U2), (untouched_py_get _ _ _ _ U1)
        by reflexivity. reflexivity. }
    assert (Fo' : py_float (py_get (fix_stock_data item1) (lit "original_price")) = Ok o)
      by (rewrite Eo; exact Fo).
    rewrite (fix_price_clamps _ p o Fp' Fo' L) in E2. injection E2 as <-.
    apply cleaning_steps in Ec.
    destruct Ec as (d4 & d6 & d8 & d9 & d10 & E4 & E6 & E8 & E9 & E10 & E11).
    pose proof (cleaning_head_untouched _ _ _ E4 E6) as Uh.
    assert (Hp7 : py_get (clean_description d6) (lit "price") = VFloat o).
    { rewrite (untouched_py_get _ _ _ _ Uh), (untouched_py_get _ _ _ _ Ud)
        by reflexivity. apply py_get_set_eq. }
    assert (Ho7 : py_get (clean_description d6) (lit "original_price")
                  = py_get item (lit "original_price")).
    { rewrite (untouched_py_get _ _ _ _ Uh), (untouched_py_get _ _ _ _ Ud)
        by reflexivity.
      rewrite py_get_set_ne by reflexivity. exact Eo. }
    pose proof (clean_nonnegative_spec _ _ _ o E8) as S8.
    rewrite Hp7 in S8. specialize (S8 eq_refl).
    assert (Ho8 : py_get d8 (lit "original_price") = py_get item (lit "original_price")).
    { rewrite S8. destruct (ltb o zero); [rewrite py_get_set_ne by reflexivity |];
        exact Ho7. }
    pose proof (clean_nonnegative_spec _ _ _ o E9) as S9.
    rewrite Ho8 in S9. specialize (S9 Fo).
    pose proof (clean_rating_untouched [lit "rating"] _ _ eq_refl E10) as U10.
    pose proof (clean_discount_untouched [lit "discount_percentage"] _ _ eq_refl E11)
      as U11.
    rewrite !(untouched_py_get _ _ _ _ U11), !(untouched_py_get _ _ _ _ U10)
      by reflexivity.
    rewrite S9, S8. destruct (ltb o zero).
    + rewrite py_get_set_eq, py_get_set_ne, py_get_set_eq by reflexivity. auto.
    + rewrite Hp7, Ho7. auto.
Qed.

End PriceClamp.

Lemma price_contradictions_repaired_witness :
  exists out pd',
    @normalize Runtime.sample 0
      (minimal_record_with (lit "price_data")
         (VDict [(lit "current", VInt 1500); (lit "original", VInt 1000);
                 (lit "currency", VStr (lit "RUB"))]))
    = Accepted out
    /\ py_get out (lit "price_data") = VDict pd'
    /\ py_get pd' (lit "current") = VInt 1000
    /\ py_get pd' (lit "original") = VInt 1000.
Proof.
  destruct (@normalize Runtime.sample 0
              (minimal_record_with (lit "price_data")
                 (VDict [(lit "current", VInt 1500); (lit "original", VInt 1000);
                         (lit "currency", VStr (lit "RUB"))])))
    as [out| |] eqn:E; try (vm_compute in E; discriminate E).
  destruct (@price_contradictions_repaired Runtime.sample 0 _ out E) as [P _].
  destruct (P [(lit "current", VInt 1500); (lit "original", VInt 1000);
               (lit "currency", VStr (lit "RUB"))]
              (of_Z 1500) (of_Z 1000))
    as (pd' & Epd & Ec & Eo); try reflexivity.
  exists out, pd'. auto.
Defined.

(** C2 as stated fails when the original price is zero: the pair is
    set, the current price exceeds the original, and the guard
    [current and original] leaves it alone. *)
Lemma zero_original_counterexample :
  py_get zero_original_record (lit "price_data")
  = VDict [(lit "current", VInt 5); (lit "original", VInt 0)]
  /\ @py_float Runtime.sample (VInt 5) = Ok (of_Z 5)
  /\ @py_float Runtime.sample (VInt 0) = Ok (of_Z 0)
  /\ ltb (of_Z 0) (of_Z 5) = true
  /\ exists out pd',
       @normalize Runtime.sample 0 zero_original_record = Accepted out
       /\ py_get out (lit "price_data") = VDict pd'
       /\ py_get pd' (lit "current") = VInt 5
       /\ py_get pd' (lit "original") = VInt 0.
Proof.
  repeat split; try (vm_compute; reflexivity).
  do 2 eexists. split; [vm_compute; reflexivity |].
  repeat split; vm_compute; reflexivity.
Qed.

(** ** Variant detection *)

Section Variants.
Context `{Builtins}.

Lemma variants_from_json_entries (r : AlkotekaSpider.response) :
  AlkotekaSpider._extract_variants_from_json r
  = match json_variant_entries r with
    | Some entries => AlkotekaSpider.count_valid entries
    | None => 0
    end.
Proof.
  unfold AlkotekaSpider._extract_variants_from_json, json_variant_entries.
  destruct (match AlkotekaSpider.data_variants r with
            | Some t => if AlkotekaSpider.nonempty_text t
                        then AlkotekaSpider.data_variants r else AlkotekaSpider.script_variants r
            | None => AlkotekaSpider.script_variants r
            end) as [[text|data]|]; try reflexivity.
  destruct data; try reflexivity.
  destruct (dict_has (lit "variants") d && AlkotekaSpider.is_list (py_get d (lit "variants")));
    [reflexivity |].
  destruct (dict_has (lit "options") d && AlkotekaSpider.is_list (py_get d (lit "options")));
    reflexivity.
Qed.

(** C7, as the code has it.  When the page embeds a variants or options
    list that decodes, the variant count is the number of its entries
    that pass validation if that number is positive, and the
    markup-derived count otherwise; without such a list it is the
    markup-derived count. *)
Theorem detect_variants_json_first (r : AlkotekaSpider.response) :
  (forall entries,
      json_variant_entries r = Some entries ->
      AlkotekaSpider._detect_variants r
      = if 0 <? AlkotekaSpider.count_valid entries
        then AlkotekaSpider.count_valid entries
        else AlkotekaSpider.markup_count r)
  /\ (json_variant_entries r = None ->
      AlkotekaSpider._detect_variants r = AlkotekaSpider.markup_count r).
Proof.
  unfold AlkotekaSpider._detect_variants. rewrite variants_from_json_entries.
  split.
  - intros entries ->. reflexivity.
  - intros ->. reflexivity.
Qed.

End Variants.

Lemma detect_variants_json_first_witness :
  @AlkotekaSpider._detect_variants Runtime.sample page_with_size_json
  = @AlkotekaSpider.markup_count Runtime.sample page_with_size_json.
Proof.
  destruct (@detect_variants_json_first Runtime.sample page_with_size_json) as [J _].
  rewrite (J [VStr (lit "XL")] eq_refl). reflexivity.
Defined.

(** C7 as stated fails when no entry of the embedded list passes
    validation: the list is present and decodes, its count of valid
    entries is 0, and the result is the markup-derived count. *)
Lemma empty_json_count_counterexample :
  json_variant_entries page_with_size_json = Some [VStr (lit "XL")]
  /\ @AlkotekaSpider.count_valid Runtime.sample [VStr (lit "XL")] = 0
  /\ @AlkotekaSpider._detect_variants Runtime.sample page_with_size_json = 2.
Proof. repeat split; vm_compute; reflexivity. Qed.

(** ** Merging characteristics *)

Lemma dict_get_app (k : str) (d1 d2 : dict) :
  dict_get k (d1 ++ d2)
  = match dict_get k d1 with
    | Some v => Some v
    | None => dict_get k d2
    end.
Proof.
  induction d1 as [|[k' v'] t IH]; simpl; [reflexivity |].
  destruct (str_eqb k' k); [reflexivity | exact IH].
Qed.

Lemma dict_get_absent (k : str) (d : dict) :
  ~ In k (List.map fst d) -> dict_get k d = None.
Proof.
  induction d as [|[k' v'] t IH]; simpl; intros Hn; [reflexivity |].
  destruct (str_eqb k' k) eqn:E.
  - apply str_eqb_eq in E. tauto.
  - apply IH. tauto.
Qed.

Lemma dict_get_rev (k : str) (d : dict) :
  unique_keys d -> dict_get k (rev d) = dict_get k d.
Proof.
  unfold unique_keys.
  induction d as [|[k' v'] t IH]; simpl; intros Hu; [reflexivity |].
  inversion Hu as [|? ? Hnotin Ht]; subst.
  rewrite dict_get_app, (IH Ht). simpl.
  destruct (str_eqb k' k) eqn:E.
  - apply str_eqb_eq in E; subst k'.
    rewrite (dict_get_absent _ _ Hnotin). reflexivity.
  - destruct (dict_get k t); reflexivity.
Qed.

Lemma dict_set_keys (k : str) (v : value) (d : dict) (x : str) :
  In x (List.map fst (dict_set k v d)) -> x = k \/ In x (List.map fst d).
Proof.
  induction d as [|[k' v'] t IH]; simpl.
  - intros [<-|[]]; auto.
  - destruct (str_eqb k' k); simpl; intros [<-|Hin]; auto.
    destruct (IH Hin); auto.
Qed.

Lemma dict_set_unique (k : str) (v : value) (d : dict) :
  unique_keys d -> unique_keys (dict_set k v d).
Proof.
  unfold unique_keys.
  induction d as [|[k' v'] t IH]; simpl; intros Hu.
  - repeat constructor. intros [].
  - inversion Hu as [|? ? Hnotin Ht]; subst.
    destruct (str_eqb k' k) eqn:E; simpl.
    + constructor; assumption.
    + constructor; [| apply IH, Ht].
      intros Hin. apply dict_set_keys in Hin. destruct Hin as [->|Hin]; [| tauto].
      rewrite str_eqb_refl in E. discriminate.
Qed.

Lemma dict_update_lookup (other : dict) :
  forall (d : dict) (k : str),
    dict_get k (dict_update d other)
    = match dict_get k (rev other) with
      | Some v => Some v
      | None => dict_get k d
      end.
Proof.
  unfold dict_update.
  induction other as [|[k0 v0] t IH]; intros d k; simpl; [reflexivity |].
  rewrite IH, dict_get_app. simpl.
  destruct (dict_get k (rev t)); [reflexivity |].
  destruct (str_eqb k0 k) eqn:E.
  - apply str_eqb_eq in E; subst k0. apply dict_get_set_eq.
  - apply dict_get_set_ne, E.
Qed.

Lemma fold_set_unique {A : Type} (f : dict -> A -> dict) (l : list A) :
  (forall d a, unique_keys d -> unique_keys (f d a)) ->
  forall d, unique_keys d -> unique_keys (fold_left f l d).
Proof.
  intros Hf. induction l as [|a t IH]; intros d Hd; simpl; auto.
Qed.

Section Characteristics.
Context `{Builtins}.

Lemma add_property_unique (chars : dict) (prop : value) :
  unique_keys chars -> unique_keys (AlkotekaSpider.add_property chars prop).
Proof.
  intros Hu. unfold AlkotekaSpider.add_property. destruct prop; try exact Hu.
  destruct (_ && _); [apply dict_set_unique, Hu | exact Hu].
Qed.

Lemma add_plain_entry_unique (chars : dict) (kv : str * value) :
  unique_keys chars -> unique_keys (AlkotekaSpider.add_plain_entry chars kv).
Proof.
  intros Hu. unfold AlkotekaSpider.add_plain_entry.
  destruct (negb _); [| exact Hu].
  destruct (snd kv); try exact Hu.
  destruct (_ <? _)%nat; [apply dict_set_unique, Hu | exact Hu].
Qed.

Lemma jsonld_document_unique (chars chars' : dict) (data : value) :
  unique_keys chars ->
  AlkotekaSpider.jsonld_document chars data = Some chars' -> unique_keys chars'.
Proof.
  intros Hu. unfold AlkotekaSpider.jsonld_document. destruct data; try (intros [= <-]; exact Hu).
  destruct (dict_has _ _).
  - destruct (AlkotekaSpider.iterate _) as [props|]; [| discriminate].
    intros [= <-].
    apply fold_set_unique; [apply add_plain_entry_unique |].
    apply fold_set_unique; [apply add_property_unique | exact Hu].
  - intros [= <-]. apply fold_set_unique; [apply add_plain_entry_unique | exact Hu].
Qed.

Lemma jsonld_loop_unique (scripts : list AlkotekaSpider.json_text) :
  forall chars, unique_keys chars ->
                unique_keys (AlkotekaSpider.jsonld_scripts_loop chars scripts).
Proof.
  induction scripts as [|[text|data] rest IH]; intros chars Hu; simpl; auto.
  destruct (AlkotekaSpider.jsonld_document chars data) as [chars'|] eqn:E; [| exact Hu].
  apply IH. eapply jsonld_document_unique; eassumption.
Qed.

Lemma jsonld_unique (r : AlkotekaSpider.response) :
  unique_keys (AlkotekaSpider._extract_jsonld_characteristics r).
Proof. apply jsonld_loop_unique. constructor. Qed.

(** C6, as the code has it.  The JSON-LD source is merged last with
    [dict.update]: a key it yields takes the JSON-LD value, whatever an
    earlier source gave for it, and every other key keeps the value of
    the structural sources. *)
Theorem jsonld_merge_overrides (r : AlkotekaSpider.response) (k : str) :
  dict_get k (AlkotekaSpider._extract_characteristics r)
  = match dict_get k (AlkotekaSpider._extract_jsonld_characteristics r) with
    | Some v => Some v
    | None => dict_get k (structural_characteristics r)
    end.
Proof.
  change (AlkotekaSpider._extract_characteristics r)
    with (dict_update (structural_characteristics r)
            (AlkotekaSpider._extract_jsonld_characteristics r)).
  rewrite dict_update_lookup, dict_get_rev by apply jsonld_unique.
  reflexivity.
Qed.

End Characteristics.

(** C6 as stated fails on a key both sources give: the table's value
    for [Volume] is replaced by the JSON-LD one. *)
Lemma jsonld_overwrite_counterexample :
  dict_get (lit "Volume") (@structural_characteristics Runtime.sample page_with_two_volumes)
  = Some (VStr (lit "0.5"))
  /\ dict_get (lit "Volume")
       (@AlkotekaSpider._extract_jsonld_characteristics Runtime.sample page_with_two_volumes)
     = Some (VStr (lit "0.7"))
  /\ dict_get (lit "Volume")
       (@AlkotekaSpider._extract_characteristics Runtime.sample page_with_two_volumes)
     = Some (VStr (lit "0.7")).
Proof. repeat split; vm_compute; reflexivity. Qed.

(** ** Required fields at the end of the pipeline *)

Section RequiredFields.
Context `{Builtins}.

Lemma validated_required (item v : dict) (field : str) :
  In field required_fields ->
  ValidationPipeline.process_item item = Accepted v ->
  exists x, dict_get field item = Some x /\ truthy x = true.
Proof.
  intros Hin Ev. unfold ValidationPipeline.process_item, validation_errors in Ev.
  destruct (List.filter (missing item) required_fields) as [|f0 rest] eqn:F;
    [| discriminate].
  destruct (missing item field) eqn:M.
  - assert (Hf : In field (List.filter (missing item) required_fields))
      by (apply filter_In; auto).
    rewrite F in Hf. destruct Hf.
  - unfold missing, dict_has, py_get in M.
    destruct (dict_get field item) as [x|]; simpl in M; [| discriminate].
    apply negb_false_iff in M. eauto.
Qed.

(** The identifier, the URL and the timestamp of an accepted record are
    the ones it came with, and they are not empty. *)
Lemma accepted_keeps_required (now : Z) (item out : dict) (field : str) :
  field = lit "product_id" \/ field = lit "product_url" \/ field = lit "scraped_at" ->
  normalize now item = Accepted out ->
  dict_get field out = dict_get field item
  /\ truthy (py_get out field) = true.
Proof.
  intros Hfield E. apply normalize_accepted in E. destruct E as (v & Ev & Ec).
  assert (Hin : In field required_fields).
  { destruct Hfield as [-> | [-> | ->]]; simpl; auto. }
  destruct (validated_required item v field Hin Ev) as (x & Hx & Tx).
  pose proof (validation_untouched _ _ Ev) as U1.
  pose proof (cleaning_untouched _ _ Ec) as U3.
  assert (U2 : dict_get field (DefaultValuesPipeline.process_item now v) = dict_get field v).
  { destruct Hfield as [-> | [-> | ->]];
      try (apply (defaults_untouched now v); reflexivity).
    assert (Hv : dict_get (lit "scraped_at") v = Some x)
      by (rewrite (U1 (lit "scraped_at") eq_refl); exact Hx).
    unfold DefaultValuesPipeline.process_item. cbv zeta.
    pose proof (fill_defaults_untouched (List.map fst defaults) defaults
                  (keys_cover defaults) v) as Uf.
    assert (Hn : is_none (py_get (fill_defaults defaults v) (lit "scraped_at")) = false).
    { unfold py_get. rewrite (Uf (lit "scraped_at") eq_refl), Hv.
      apply truthy_not_none, Tx. }
    rewrite Hn.
    rewrite (on_nested_untouched [lit "stock_data"] (lit "stock_data") _ _ eq_refl
               (lit "scraped_at") eq_refl).
    rewrite (on_nested_untouched [lit "assets"] (lit "assets") _ _ eq_refl
               (lit "scraped_at") eq_refl).
    rewrite (on_nested_untouched [lit "price_data"] (lit "price_data") _ _ eq_refl
               (lit "scraped_at") eq_refl).
    apply Uf. reflexivity. }
  assert (Hget : dict_get field out = dict_get field item).
  { destruct Hfield as [-> | [-> | ->]];
      (rewrite U3 by reflexivity; rewrite U2; apply U1; reflexivity). }
  split; [exact Hget |].
  unfold py_get. rewrite Hget, Hx. exact Tx.
Qed.

Lemma clean_string_field_sets (d : dict) (field s : str) :
  dict_get field d = Some (VStr s) ->
  dict_get field (clean_string_field d field) = Some (VStr (collapse_ws s)).
Proof.
  intros E. unfold clean_string_field, dict_has, py_get. rewrite E.
  destruct (str_eqb (collapse_ws s) s) eqn:C.
  - apply str_eqb_eq in C. rewrite C. exact E.
  - apply dict_get_set_eq.
Qed.

Lemma string_fields_head (d : dict) :
  fold_left clean_string_field string_fields d
  = fold_left clean_string_field (tl string_fields)
      (clean_string_field d (lit "name")).
Proof. unfold string_fields. cbn [fold_left tl]. reflexivity. Qed.

(** The name of an accepted record is the name it came with, whitespace
    collapsed: it ends empty exactly when it held nothing else. *)
Lemma accepted_name (now : Z) (item out : dict) (s : str) :
  normalize now item = Accepted out ->
  dict_get (lit "name") item = Some (VStr s) ->
  dict_get (lit "name") out = Some (VStr (collapse_ws s)).
Proof.
  intros E Hs. apply normalize_accepted in E. destruct E as (v & Ev & Ec).
  pose proof (validation_untouched _ _ Ev) as U1.
  pose proof (defaults_untouched now v) as U2.
  apply cleaning_steps in Ec.
  destruct Ec as (d4 & d6 & d8 & d9 & d10 & E4 & E6 & E8 & E9 & E10 & E11).
  set (d0 := DefaultValuesPipeline.process_item now v) in *.
  set (ks := cleaning_keys_except (lit "name")).
  rewrite string_fields_head in E4.
  assert (U3 : untouched ks (clean_string_field d0 (lit "name")) out).
  { eapply untouched_trans; [| eapply clean_discount_untouched; [reflexivity | exact E11]].
    eapply untouched_trans; [| eapply clean_rating_untouched; [reflexivity | exact E10]].
    eapply untouched_trans;
      [| eapply (clean_nonnegative_untouched _ (lit "original_price"));
         [reflexivity | exact E9]].
    eapply untouched_trans;
      [| eapply (clean_nonnegative_untouched _ (lit "price")); [reflexivity | exact E8]].
    eapply untouched_trans; [| apply clean_description_untouched; reflexivity].
    eapply untouched_trans; [| eapply clean_assets_untouched; [reflexivity | exact E6]].
    eapply untouched_trans; [| apply clean_tags_untouched; reflexivity].
    eapply untouched_trans; [| eapply clean_image_urls_untouched; [reflexivity | exact E4]].
    eapply untouched_trans; [| apply on_nested_untouched; reflexivity].
    eapply untouched_trans; [| apply clean_tags_untouched; reflexivity].
    apply clean_string_fields_untouched. reflexivity. }
  rewrite (U3 (lit "name") eq_refl). apply clean_string_field_sets.
  subst d0. rewrite (U2 (lit "name") eq_refl), (U1 (lit "name") eq_refl). exact Hs.
Qed.

End RequiredFields.

(** C3 at a name made of whitespace.  The record passes validation,
    since [' '] is a non-empty string, and the cleaning stage collapses
    the name to the empty string: an accepted record ends with an empty
    required field. *)
Theorem blank_name_accepted_with_empty_name :
  truthy (py_get blank_name_record (lit "name")) = true
  /\ exists out,
       @normalize Runtime.sample 0 blank_name_record = Accepted out
       /\ dict_get (lit "name") out = Some (VStr [])
       /\ truthy (py_get out (lit "name")) = false.
Proof.
  split; [reflexivity |].
  eexists. split; [vm_compute; reflexivity |].
  split; vm_compute; reflexivity.
Qed.

(* ===================================================================== *)
(** * Further properties of the code *)
(* ===================================================================== *)

(** ** What the validation stage drops, and what escapes it *)

Section ValidationOutcomes.
Context `{Builtins}.

Lemma validation_rejected_iff (item : dict) :
  (exists reason, ValidationPipeline.process_item item = Rejected reason)
  <-> (exists field, In field required_fields /\ absent_or_empty item field).
Proof.
  unfold ValidationPipeline.process_item, validation_errors.
  destruct (List.filter (missing item) required_fields) as [|f0 rest] eqn:F; simpl.
  - split.
    + intros [reason E]. destruct (mbind _ _); discriminate E.
    + intros (field & Hin & Habs). exfalso.
      assert (Hf : In field (List.filter (missing item) required_fields))
        by (apply filter_In; split; [exact Hin | apply missing_iff, Habs]).
      rewrite F in Hf. destruct Hf.
  - split; [intros _ | eauto].
    assert (Hf : In f0 (List.filter (missing item) required_fields))
      by (rewrite F; left; reflexivity).
    apply filter_In in Hf. destruct Hf as [Hin Hm].
    exists f0. split; [exact Hin | apply missing_iff, Hm].
Qed.

(** X1. [DropItem] is raised for a missing required field and for
    nothing else: [normalize] (and already the validation stage)
    rejects a record exactly when one of [product_id], [name],
    [product_url], [scraped_at] is absent or empty.  No later stage ever
    rejects. *)
Theorem drop_only_for_missing_required (now : Z) (item : dict) :
  ((exists reason, normalize now item = Rejected reason)
   <-> (exists field, In field required_fields /\ absent_or_empty item field))
  /\ ((exists reason, ValidationPipeline.process_item item = Rejected reason)
      <-> (exists field, In field required_fields /\ absent_or_empty item field)).
Proof.
  split; [| apply validation_rejected_iff].
  rewrite <- validation_rejected_iff. unfold normalize, and_then.
  destruct (ValidationPipeline.process_item item) as [v|reason|e].
  - split; intros [reason E]; [| discriminate E].
    destruct (DataCleaningPipeline.process_item _); discriminate E.
  - split; eauto.
  - split; intros [reason E]; discriminate E.
Qed.

Lemma no_missing_fields (item : dict) :
  missing_fields item = [] -> validation_errors item = [].
Proof. unfold validation_errors, missing_fields. intros ->. reflexivity. Qed.

(** X2. The price comparison of the validation stage calls [float] on
    both nested prices without a handler: in a record that has its
    required fields and a [price_data] whose [current] and [original]
    are both non-empty, an exception of [float(current)], or of
    [float(original)] once [float(current)] has returned, leaves
    [process_item]; the record is neither returned nor dropped. *)
Theorem unparsable_nested_price_crashes (item pd : dict) (e : exn) :
  missing_fields item = [] ->
  py_get item (lit "price_data") = VDict pd ->
  truthy (py_get pd (lit "current")) = true ->
  truthy (py_get pd (lit "original")) = true ->
  (py_float (py_get pd (lit "current")) = Raise e
   \/ (exists c, py_float (py_get pd (lit "current")) = Ok c)
      /\ py_float (py_get pd (lit "original")) = Raise e) ->
  ValidationPipeline.process_item item = Crashed e
  /\ (forall now, normalize now item = Crashed e).
Proof.
  intros Hm Epd Tc To Hraise.
  assert (Ev : ValidationPipeline.process_item item = Crashed e).
  { unfold ValidationPipeline.process_item. rewrite (no_missing_fields _ Hm).
    unfold fix_price_data. rewrite Epd.
    assert (Hne : truthy (VDict pd) = true).
    { destruct pd; [discriminate Tc | reflexivity]. }
    rewrite Hne, (truthy_not_none _ Tc), (truthy_not_none _ To), Tc, To.
    cbn [negb andb].
    destruct Hraise as [Ec | [[c Ec] Eo]]; rewrite Ec; simpl; [reflexivity |].
    rewrite Eo. reflexivity. }
  split; [exact Ev |].
  intros now. unfold normalize. rewrite Ev. reflexivity.
Qed.

End ValidationOutcomes.

Lemma unparsable_nested_price_crashes_witness :
  @normalize Runtime.sample 0
    (minimal_record_with (lit "price_data")
       (VDict [(lit "current", VStr (lit "abc")); (lit "original", VInt 5)]))
  = Crashed ValueError.
Proof.
  apply (@unparsable_nested_price_crashes Runtime.sample
           (minimal_record_with (lit "price_data")
              (VDict [(lit "current", VStr (lit "abc")); (lit "original", VInt 5)]))
           [(lit "current", VStr (lit "abc")); (lit "original", VInt 5)]
           ValueError);
    try reflexivity.
  left. reflexivity.
Defined.

(** ** Fields the pipeline keeps *)

Lemma keeps_refl (d : dict) : keeps_fields d d.
Proof. intros k Hk; exact Hk. Qed.

Lemma keeps_trans (d1 d2 d3 : dict) :
  keeps_fields d1 d2 -> keeps_fields d2 d3 -> keeps_fields d1 d3.
Proof. intros H12 H23 k Hk. apply H23, H12, Hk. Qed.

Lemma keeps_set (key : str) (v : value) (d : dict) :
  keeps_fields d (dict_set key v d).
Proof.
  intros k Hk. destruct (str_eqb key k) eqn:E.
  - apply str_eqb_eq in E; subst k. apply dict_has_set_eq.
  - rewrite dict_has_set_ne by exact E. exact Hk.
Qed.

Create HintDb fields.
#[local] Hint Resolve keeps_refl keeps_set : fields.

Ltac by_cases_of_step :=
  repeat match goal with
         | |- context [if ?b then _ else _] => destruct b
         | |- context [match py_get ?a ?b with _ => _ end] => destruct (py_get a b)
         | |- context [match dict_get ?a ?b with _ => _ end] => destruct (dict_get a b)
         | |- context [match ?v with VNone => _ | _ => _ end] => destruct v
         | |- context [mbind _ ?r] => destruct r; simpl
         | |- context [match ?r with Ok _ => _ | Raise _ => _ end] => destruct r
         | |- context [match ?e with ValueError => _ | _ => _ end] => destruct e
         end.

Section KeptFields.
Context `{Builtins}.

Lemma fix_price_data_keeps (d d' : dict) :
  fix_price_data d = Ok d' -> keeps_fields d d'.
Proof.
  unfold fix_price_data. by_cases_of_step;
    intros [= <-] || discriminate; auto with fields.
Qed.

Lemma fix_stock_data_keeps (d : dict) : keeps_fields d (fix_stock_data d).
Proof. unfold fix_stock_data. by_cases_of_step; auto with fields. Qed.

Lemma fix_price_keeps (d d' : dict) : fix_price d = Ok d' -> keeps_fields d d'.
Proof.
  unfold fix_price. by_cases_of_step;
    intros [= <-] || discriminate; auto with fields.
Qed.

Lemma fill_defaults_keeps (table : dict) :
  forall d, keeps_fields d (fill_defaults table d).
Proof.
  unfold fill_defaults.
  induction table as [|[key v] t IH]; intros d; simpl; [auto with fields |].
  eapply keeps_trans; [| apply IH].
  destruct (unset d key); auto with fields.
Qed.

Lemma on_nested_keeps (field : str) (f : dict -> dict) (d : dict) :
  keeps_fields d (on_nested field f d).
Proof. unfold on_nested. by_cases_of_step; auto with fields. Qed.

Lemma clean_string_fields_keeps (fields : list str) :
  forall d, keeps_fields d (fold_left clean_string_field fields d).
Proof.
  induction fields as [|f t IH]; intros d; simpl; [auto with fields |].
  eapply keeps_trans; [| apply IH].
  unfold clean_string_field. by_cases_of_step; auto with fields.
Qed.

Lemma clean_tags_keeps (field : str) (d : dict) : keeps_fields d (clean_tags field d).
Proof. unfold clean_tags. by_cases_of_step; auto with fields. Qed.

Lemma clean_image_urls_keeps (d d' : dict) :
  clean_image_urls d = Ok d' -> keeps_fields d d'.
Proof.
  unfold clean_image_urls. by_cases_of_step;
    intros [= <-] || discriminate; auto with fields.
Qed.

Lemma clean_assets_keeps (d d' : dict) :
  clean_assets d = Ok d' -> keeps_fields d d'.
Proof.
  unfold clean_assets.
  destruct (truthy _); [| intros [= <-]; auto with fields].
  destruct (py_get d (lit "assets")); try (intros [= <-]; auto with fields).
  intros E. repeat (apply bind_ok in E; destruct E as (? & _ & E)).
  injection E as <-. auto with fields.
Qed.

Lemma clean_description_keeps (d : dict) : keeps_fields d (clean_description d).
Proof. unfold clean_description. by_cases_of_step; auto with fields. Qed.

Lemma clean_nonnegative_keeps (field : str) (d d' : dict) :
  clean_nonnegative field d = Ok d' -> keeps_fields d d'.
Proof.
  unfold clean_nonnegative.
  destruct (negb _); [| intros [= <-]; auto with fields].
  destruct (py_float _) as [x|[]]; try discriminate;
    try (intros [= <-]; auto with fields).
  destruct (ltb x zero); intros [= <-]; auto with fields.
Qed.

Lemma clean_rating_keeps (d d' : dict) : clean_rating d = Ok d' -> keeps_fields d d'.
Proof.
  unfold clean_rating.
  destruct (negb _); [| intros [= <-]; auto with fields].
  destruct (py_float _) as [x|[]]; try discriminate;
    try (intros [= <-]; auto with fields).
  destruct (_ || _); intros [= <-]; auto with fields.
Qed.

Lemma clean_discount_keeps (d d' : dict) : clean_discount d = Ok d' -> keeps_fields d d'.
Proof.
  unfold clean_discount.
  destruct (negb _); [| intros [= <-]; auto with fields].
  destruct (py_int _) as [x|[]]; try discriminate;
    try (intros [= <-]; auto with fields).
  destruct (_ || _); intros [= <-]; auto with fields.
Qed.

Lemma validation_keeps (d d' : dict) :
  ValidationPipeline.process_item d = Accepted d' -> keeps_fields d d'.
Proof.
  intros E. destruct (validation_steps _ _ E) as (d1 & E1 & E2).
  eapply keeps_trans; [apply fix_price_data_keeps, E1 |].
  eapply keeps_trans; [apply fix_stock_data_keeps | apply fix_price_keeps, E2].
Qed.

Lemma defaults_keeps (now : Z) (d : dict) :
  keeps_fields d (DefaultValuesPipeline.process_item now d).
Proof.
  unfold DefaultValuesPipeline.process_item. cbv zeta.
  eapply keeps_trans; [| apply on_nested_keeps].
  eapply keeps_trans; [| apply on_nested_keeps].
  eapply keeps_trans; [| apply on_nested_keeps].
  eapply keeps_trans; [apply fill_defaults_keeps |].
  destruct (is_none _); auto with fields.
Qed.

Lemma cleaning_keeps (d out : dict) :
  DataCleaningPipeline.process_item d = Ok out -> keeps_fields d out.
Proof.
  intros E. apply cleaning_steps in E.
  destruct E as (d4 & d6 & d8 & d9 & d10 & E4 & E6 & E8 & E9 & E10 & E11).
  eapply keeps_trans; [| apply clean_discount_keeps, E11].
  eapply keeps_trans; [| apply clean_rating_keeps, E10].
  eapply keeps_trans; [| apply (clean_nonnegative_keeps _ _ _ E9)].
  eapply keeps_trans; [| apply (clean_nonnegative_keeps _ _ _ E8)].
  eapply keeps_trans; [| apply clean_description_keeps].
  eapply keeps_trans; [| apply clean_assets_keeps, E6].
  eapply keeps_trans; [| apply clean_tags_keeps].
  eapply keeps_trans; [| apply clean_image_urls_keeps, E4].
  eapply keeps_trans; [| apply on_nested_keeps].
  eapply keeps_trans; [| apply clean_tags_keeps].
  apply clean_string_fields_keeps.
Qed.

(** X3. No stage deletes a field: every key of the input record is a
    key of the record [normalize] returns (its value may have been
    replaced, by null among others). *)
Theorem normalize_keeps_every_field (now : Z) (item out : dict) :
  normalize now item = Accepted out ->
  forall k, dict_has k item = true -> dict_has k out = true.
Proof.
  intros E. apply normalize_accepted in E. destruct E as (v & Ev & Ec).
  change (keeps_fields item out).
  eapply keeps_trans; [apply validation_keeps, Ev |].
  eapply keeps_trans; [apply (defaults_keeps now) | apply cleaning_keeps, Ec].
Qed.

(** X4. The identifier, the page URL and the timestamp pass through the
    three stages unchanged: in an accepted record [product_id],
    [product_url] and [scraped_at] hold the values of the input, and
    these are non-empty. *)
Theorem normalize_keeps_identity (now : Z) (item out : dict) (field : str) :
  field = lit "product_id" \/ field = lit "product_url" \/ field = lit "scraped_at" ->
  normalize now item = Accepted out ->
  dict_get field out = dict_get field item
  /\ truthy (py_get out field) = true.
Proof. apply accepted_keeps_required. Qed.

Lemma defaults_clock_unused (now now' : Z) (v : dict) :
  is_none (py_get v (lit "scraped_at")) = false ->
  DefaultValuesPipeline.process_item now v = DefaultValuesPipeline.process_item now' v.
Proof.
  intros Hn. unfold DefaultValuesPipeline.process_item. cbv zeta.
  pose proof (fill_defaults_untouched (List.map fst defaults) defaults
                (keys_cover defaults) v) as Uf.
  rewrite (untouched_py_get _ _ _ _ Uf) by reflexivity.
  rewrite Hn. reflexivity.
Qed.

(** X5. The timestamp default of the second stage is never used by
    [normalize]: the first stage has already dropped every record
    without a [scraped_at], so the result does not depend on the clock. *)
Theorem normalize_ignores_clock (now now' : Z) (item : dict) :
  normalize now item = normalize now' item.
Proof.
  unfold normalize, and_then.
  destruct (ValidationPipeline.process_item item) as [v|reason|e] eqn:Ev;
    [| reflexivity | reflexivity].
  destruct (validated_required item v (lit "scraped_at")) as (x & Hx & Tx);
    [simpl; auto | exact Ev |].
  pose proof (validation_untouched _ _ Ev) as U1.
  rewrite (defaults_clock_unused now now'); [reflexivity |].
  unfold py_get. rewrite (U1 (lit "scraped_at") eq_refl), Hx.
  apply truthy_not_none, Tx.
Qed.

End KeptFields.

Lemma normalize_keeps_every_field_witness :
  exists out,
    @normalize Runtime.sample 0 (minimal_record_with (lit "rating") (VInt 9)) = Accepted out
    /\ dict_has (lit "rating") out = true.
Proof.
  destruct (@normalize Runtime.sample 0 (minimal_record_with (lit "rating") (VInt 9)))
    as [out| |] eqn:E; try (vm_compute in E; discriminate E).
  exists out. split; [reflexivity |].
  apply (@normalize_keeps_every_field Runtime.sample 0 _ out E). reflexivity.
Defined.

Lemma normalize_keeps_identity_witness :
  exists out,
    @normalize Runtime.sample 0 blank_name_record = Accepted out
    /\ dict_get (lit "product_id") out = Some (VStr (lit "1")).
Proof.
  destruct (@normalize Runtime.sample 0 blank_name_record)
    as [out| |] eqn:E; try (vm_compute in E; discriminate E).
  exists out. split; [reflexivity |].
  destruct (@normalize_keeps_identity Runtime.sample 0 _ out (lit "product_id")
              (or_introl eq_refl) E) as [G _].
  rewrite G. reflexivity.
Defined.

(** ** Stock counts and prices after the pipeline *)

Lemma on_nested_get (field : str) (f : dict -> dict) (d : dict) :
  py_get (on_nested field f d) field
  = nested_image f (py_get d field).
Proof.
  unfold on_nested, nested_image.
  destruct (py_get d field) as [|b|z|x|s|l|[|kv t]] eqn:E; cbn [truthy];
    repeat match goal with
           | |- context [if ?b then _ else _] => destruct b
           end;
    rewrite ?py_get_set_eq, ?E; reflexivity.
Qed.

Section StockAndPrices.
Context `{Builtins}.

Lemma fix_stock_data_count (d sd : dict) :
  py_get (fix_stock_data d) (lit "stock_data") = VDict sd ->
  is_number (py_get sd (lit "count")) = true ->
  lt_zero (py_get sd (lit "count")) = false.
Proof.
  unfold fix_stock_data.
  destruct (truthy (py_get d (lit "stock_data"))) eqn:T.
  - destruct (py_get d (lit "stock_data")) as [|b|z|x|s|l|stock] eqn:E;
      try (rewrite E; discriminate).
    destruct (negb (is_none (py_get stock (lit "count")))
              && is_number (py_get stock (lit "count"))
              && lt_zero (py_get stock (lit "count"))) eqn:C.
    + rewrite py_get_set_eq. intros [= <-] _. rewrite py_get_set_eq. reflexivity.
    + rewrite E. intros [= <-] Hn. rewrite Hn in C.
      destruct (py_get stock (lit "count")); try discriminate Hn; exact C.
  - intros E Hn. rewrite E in T. destruct sd; [discriminate Hn | discriminate T].
Qed.

Lemma defaults_stock_get (now : Z) (v : dict) :
  py_get (DefaultValuesPipeline.process_item now v) (lit "stock_data")
  = nested_image (fill_defaults defaults_stock) (py_get v (lit "stock_data")).
Proof.
  unfold DefaultValuesPipeline.process_item. cbv zeta.
  rewrite on_nested_get.
  rewrite (untouched_py_get _ _ _ _
             (on_nested_untouched [lit "assets"] (lit "assets") _ _ eq_refl))
    by reflexivity.
  rewrite (untouched_py_get _ _ _ _
             (on_nested_untouched [lit "price_data"] (lit "price_data") _ _ eq_refl))
    by reflexivity.
  assert (Hv : py_get (if is_none (py_get (fill_defaults defaults v) (lit "scraped_at"))
                       then dict_set (lit "scraped_at") (VInt now) (fill_defaults defaults v)
                       else fill_defaults defaults v) (lit "stock_data")
               = py_get v (lit "stock_data")).
  { destruct (is_none _); [rewrite py_get_set_ne by reflexivity |];
      apply (untouched_py_get _ _ _ _
                 (fill_defaults_untouched _ defaults (keys_cover defaults) v));
      reflexivity. }
  rewrite Hv. reflexivity.
Qed.

(** X6. A stock count that is a number is never negative in an accepted
    record: the validation stage has replaced a negative [count] by 0,
    the defaulting stage fills a missing one with 0, and the cleaning
    stage does not touch [stock_data]. *)
Theorem stock_count_not_negative (now : Z) (item out sd : dict) :
  normalize now item = Accepted out ->
  py_get out (lit "stock_data") = VDict sd ->
  is_number (py_get sd (lit "count")) = true ->
  lt_zero (py_get sd (lit "count")) = false.
Proof.
  intros E Hsd Hnum. apply normalize_accepted in E. destruct E as (v & Ev & Ec).
  destruct (validation_steps _ _ Ev) as (item1 & E1 & E2).
  rewrite (untouched_py_get _ _ _ _ (cleaning_untouched _ _ Ec)) in Hsd by reflexivity.
  rewrite defaults_stock_get in Hsd.
  rewrite (untouched_py_get _ _ _ _
             (fix_price_untouched [lit "price"] _ _ eq_refl E2)) in Hsd by reflexivity.
  unfold nested_image in Hsd.
  destruct (py_get (fix_stock_data item1) (lit "stock_data"))
    as [|b|z|x|s|l|[|kv t]] eqn:Es; try discriminate Hsd.
  - assert (Hs : sd = []) by congruence. subst sd. discriminate Hnum.
  - assert (Hs : fill_defaults defaults_stock (kv :: t) = sd) by congruence.
    subst sd. clear Hsd.
    assert (Hc : py_get (fill_defaults defaults_stock (kv :: t)) (lit "count")
                 = if unset (kv :: t) (lit "count") then VInt 0
                   else py_get (kv :: t) (lit "count")).
    { unfold py_get at 1.
      rewrite (fill_defaults_lookup defaults_stock eq_refl (kv :: t)
                 (lit "count") (VInt 0)); [reflexivity |].
      right. left. reflexivity. }
    rewrite Hc in Hnum |- *.
    destruct (unset (kv :: t) (lit "count")); [reflexivity |].
    apply (fix_stock_data_count item1 (kv :: t) Es Hnum).
Qed.

Lemma clean_nonnegative_result (field : str) (d d' : dict) :
  clean_nonnegative field d = Ok d' ->
  py_get d' field = VNone
  \/ exists x, py_float (py_get d' field) = Ok x /\ ltb x zero = false.
Proof.
  unfold clean_nonnegative.
  destruct (is_none (py_get d field)) eqn:N; cbn [negb].
  - intros [= <-]. left. apply is_none_true, N.
  - destruct (py_float (py_get d field)) as [x|e] eqn:F.
    + destruct (ltb x zero) eqn:L; intros [= <-].
      * right. exists (of_Z 0). rewrite py_get_set_eq. split; reflexivity.
      * right. exists x. auto.
    + destruct e; try discriminate; intros [= <-]; left; apply py_get_set_eq.
Qed.

(** X7. In an accepted record [price] and [original_price] are each
    absent or null, or a value whose [float()] is not below zero (a
    negative one has been set to 0, one that [float()] rejects to
    null). *)
Theorem normalized_prices_not_negative (now : Z) (item out : dict) (field : str) :
  field = lit "price" \/ field = lit "original_price" ->
  normalize now item = Accepted out ->
  py_get out field = VNone
  \/ exists x, py_float (py_get out field) = Ok x /\ ltb x zero = false.
Proof.
  intros Hfield E. apply normalize_accepted in E. destruct E as (v & Ev & Ec).
  apply cleaning_steps in Ec.
  destruct Ec as (d4 & d6 & d8 & d9 & d10 & E4 & E6 & E8 & E9 & E10 & E11).
  pose proof (clean_rating_untouched [lit "rating"] _ _ eq_refl E10) as U10.
  pose proof (clean_discount_untouched [lit "discount_percentage"] _ _ eq_refl E11)
    as U11.
  destruct Hfield as [-> | ->].
  - rewrite (untouched_py_get _ _ _ _ U11), (untouched_py_get _ _ _ _ U10) by reflexivity.
    rewrite (untouched_py_get _ _ _ _
               (clean_nonnegative_untouched [lit "original_price"] (lit "original_price")
                  _ _ eq_refl E9))
      by reflexivity.
    apply (clean_nonnegative_result _ _ _ E8).
  - rewrite (untouched_py_get _ _ _ _ U11), (untouched_py_get _ _ _ _ U10) by reflexivity.
    apply (clean_nonnegative_result _ _ _ E9).
Qed.

End StockAndPrices.

Lemma stock_count_not_negative_witness :
  exists out sd,
    @normalize Runtime.sample 0
      (minimal_record_with (lit "stock_data") (VDict [(lit "count", VInt (-5))]))
    = Accepted out
    /\ py_get out (lit "stock_data") = VDict sd
    /\ lt_zero (py_get sd (lit "count")) = false.
Proof.
  do 2 eexists. split; [vm_compute; reflexivity |].
  split; [vm_compute; reflexivity |].
  eapply (@stock_count_not_negative Runtime.sample 0
            (minimal_record_with (lit "stock_data") (VDict [(lit "count", VInt (-5))])));
    vm_compute; reflexivity.
Defined.

Lemma normalized_prices_not_negative_witness :
  exists out,
    @normalize Runtime.sample 0 (minimal_record_with (lit "price") (VInt (-3)))
    = Accepted out
    /\ (py_get out (lit "price") = VNone
        \/ exists x, @py_float Runtime.sample (py_get out (lit "price")) = Ok x
                     /\ ltb x zero = false).
Proof.
  destruct (@normalize Runtime.sample 0 (minimal_record_with (lit "price") (VInt (-3))))
    as [out| |] eqn:E; try (vm_compute in E; discriminate E).
  exists out. split; [reflexivity |].
  apply (@normalized_prices_not_negative Runtime.sample 0 _ out (lit "price")
           (or_introl eq_refl) E).
Defined.

(** ** The defaulting stage *)

Lemma dict_set_same (k : str) (v : value) (d : dict) :
  dict_get k d = Some v -> dict_set k v d = d.
Proof.
  induction d as [|[k' v'] t IH]; simpl; [discriminate |].
  destruct (str_eqb k' k); [intros [= ->]; reflexivity |].
  intros E. rewrite (IH E). reflexivity.
Qed.

Lemma fill_defaults_fixed (table : dict) :
  forall d,
    (forall k v, In (k, v) table ->
                 exists v', dict_get k d = Some v' /\ (is_none v' = false \/ v' = v)) ->
    fill_defaults table d = d.
Proof.
  induction table as [|[k0 v0] t IH]; intros d Hall; [reflexivity |].
  change (fill_defaults ((k0, v0) :: t) d)
    with (fill_defaults t (if unset d k0 then dict_set k0 v0 d else d)).
  assert (E : (if unset d k0 then dict_set k0 v0 d else d) = d).
  { destruct (Hall k0 v0 (or_introl eq_refl)) as (v' & Hget & Hv).
    destruct (unset d k0) eqn:U; [| reflexivity].
    destruct Hv as [Hn | ->]; [| apply dict_set_same, Hget].
    unfold unset, dict_has, py_get in U. rewrite Hget, Hn in U. discriminate U. }
  rewrite E. apply IH. intros k v Hin. apply Hall. right. exact Hin.
Qed.

Lemma unset_false_not_none (d : dict) (k : str) :
  unset d k = false -> is_none (py_get d k) = false.
Proof. unfold unset. intros U. apply orb_false_iff in U. tauto. Qed.

Lemma fill_defaults_idem (table : dict) :
  distinct_keys table = true ->
  forall d, fill_defaults table (fill_defaults table d) = fill_defaults table d.
Proof.
  intros Hd d. apply fill_defaults_fixed. intros k v Hin.
  rewrite (fill_defaults_lookup table Hd d k v Hin). eexists. split; [reflexivity |].
  destruct (unset d k) eqn:U; [right; reflexivity | left].
  apply unset_false_not_none, U.
Qed.

Lemma default_price_data_idem (pd : dict) :
  default_price_data (default_price_data pd) = default_price_data pd.
Proof.
  destruct (default_price_data_spec pd) as (Hc & Hs & _).
  set (X := default_price_data pd) in *.
  unfold default_price_data. cbv zeta.
  assert (C1 : negb (dict_has (lit "currency") X)
               || negb (truthy (py_get X (lit "currency"))) = false).
  { unfold dict_has, py_get. rewrite Hc. cbn [negb orb].
    destruct (negb (dict_has (lit "currency") pd)); cbn [orb]; [reflexivity |].
    destruct (truthy (py_get pd (lit "currency"))) eqn:T; cbn [negb];
      [rewrite T |]; reflexivity. }
  rewrite C1.
  assert (C2 : negb (dict_has (lit "sale_tag") X) = false).
  { unfold dict_has. rewrite Hs. reflexivity. }
  rewrite C2. reflexivity.
Qed.

Lemma on_nested_fixed (field : str) (f : dict -> dict) (d : dict) :
  (forall n, py_get d field = VDict n -> n <> [] -> f n = n) ->
  on_nested field f d = d.
Proof.
  intros Hf. unfold on_nested.
  destruct (py_get d field) as [|b|z|x|s|l|n] eqn:E;
    try (destruct (truthy _); reflexivity).
  destruct n as [|kv t]; [reflexivity |]. cbn [truthy].
  rewrite (Hf (kv :: t) eq_refl) by discriminate.
  apply dict_set_same. unfold py_get in E.
  destruct (dict_get field d); [congruence | discriminate].
Qed.

Lemma defaults_top_get (now : Z) (item : dict) (k : str) :
  existsb (str_eqb k) [lit "scraped_at"; lit "price_data"; lit "assets"; lit "stock_data"]
  = false ->
  dict_get k (DefaultValuesPipeline.process_item now item)
  = dict_get k (fill_defaults defaults item).
Proof.
  intros Hk. unfold DefaultValuesPipeline.process_item. cbv zeta.
  rewrite (on_nested_untouched
             [lit "scraped_at"; lit "price_data"; lit "assets"; lit "stock_data"]
             (lit "stock_data") _ _ eq_refl k Hk).
  rewrite (on_nested_untouched
             [lit "scraped_at"; lit "price_data"; lit "assets"; lit "stock_data"]
             (lit "assets") _ _ eq_refl k Hk).
  rewrite (on_nested_untouched
             [lit "scraped_at"; lit "price_data"; lit "assets"; lit "stock_data"]
             (lit "price_data") _ _ eq_refl k Hk).
  destruct (is_none _); [| reflexivity].
  apply (untouched_set
           [lit "scraped_at"; lit "price_data"; lit "assets"; lit "stock_data"]
           (lit "scraped_at") _ _ eq_refl k Hk).
Qed.

Lemma defaults_keys_top (k : str) (v : value) :
  In (k, v) defaults ->
  existsb (str_eqb k) [lit "scraped_at"; lit "price_data"; lit "assets"; lit "stock_data"]
  = false
  /\ is_none v = false.
Proof.
  unfold defaults. intros Hin.
  repeat (destruct Hin as [Hin|Hin]; [injection Hin as <- <-; split; reflexivity |]).
  destruct Hin.
Qed.

Lemma defaults_top_spec (now : Z) (item : dict) (k : str) (v : value) :
  In (k, v) defaults ->
  dict_get k (DefaultValuesPipeline.process_item now item)
  = Some (if unset item k then v else py_get item k)
  /\ is_none (py_get (DefaultValuesPipeline.process_item now item) k) = false.
Proof.
  intros Hin. destruct (defaults_keys_top k v Hin) as [Hk Hv].
  assert (G : dict_get k (DefaultValuesPipeline.process_item now item)
              = Some (if unset item k then v else py_get item k)).
  { rewrite (defaults_top_get now item k Hk).
    apply (fill_defaults_lookup defaults eq_refl item k v Hin). }
  split; [exact G |].
  unfold py_get at 1. rewrite G.
  destruct (unset item k) eqn:U; [exact Hv | apply unset_false_not_none, U].
Qed.

Lemma defaults_scraped_at (now : Z) (item : dict) :
  py_get (DefaultValuesPipeline.process_item now item) (lit "scraped_at")
  = if is_none (py_get item (lit "scraped_at")) then VInt now
    else py_get item (lit "scraped_at").
Proof.
  unfold DefaultValuesPipeline.process_item. cbv zeta.
  rewrite (untouched_py_get _ _ _ _
             (on_nested_untouched [lit "stock_data"] (lit "stock_data") _ _ eq_refl))
    by reflexivity.
  rewrite (untouched_py_get _ _ _ _
             (on_nested_untouched [lit "assets"] (lit "assets") _ _ eq_refl))
    by reflexivity.
  rewrite (untouched_py_get _ _ _ _
             (on_nested_untouched [lit "price_data"] (lit "price_data") _ _ eq_refl))
    by reflexivity.
  pose proof (untouched_py_get _ _ _ (lit "scraped_at")
                (fill_defaults_untouched _ defaults (keys_cover defaults) item)
                eq_refl) as E.
  rewrite E. destruct (is_none (py_get item (lit "scraped_at"))) eqn:N.
  - apply py_get_set_eq.
  - exact E.
Qed.

(** X8. After the defaulting stage each of the twelve fields of the
    table of defaults is present and not null: it holds the value of the
    input when that was set, and otherwise its default ([[]] for the
    list fields, [{}] for [attributes], [''], [True], [0], ['RUB'],
    ['krasnodar'], ['alkoteka.com']).  A value that is set is never
    overridden.  [scraped_at] is the clock reading only when it was
    missing or null. *)
Theorem defaulting_fills_top_level (now : Z) (item : dict) :
  Forall (fun kv =>
            dict_get (fst kv) (DefaultValuesPipeline.process_item now item)
            = Some (if unset item (fst kv) then snd kv else py_get item (fst kv))
            /\ is_none (py_get (DefaultValuesPipeline.process_item now item) (fst kv))
               = false)
         defaults
  /\ py_get (DefaultValuesPipeline.process_item now item) (lit "scraped_at")
     = (if is_none (py_get item (lit "scraped_at")) then VInt now
        else py_get item (lit "scraped_at")).
Proof.
  split; [| apply defaults_scraped_at].
  apply List.Forall_forall. intros [k v] Hin. apply defaults_top_spec, Hin.
Qed.

Lemma defaults_price_get (now : Z) (v : dict) :
  py_get (DefaultValuesPipeline.process_item now v) (lit "price_data")
  = nested_image default_price_data (py_get v (lit "price_data")).
Proof.
  unfold DefaultValuesPipeline.process_item. cbv zeta.
  rewrite (untouched_py_get _ _ _ _
             (on_nested_untouched [lit "stock_data"] (lit "stock_data") _ _ eq_refl))
    by reflexivity.
  rewrite (untouched_py_get _ _ _ _
             (on_nested_untouched [lit "assets"] (lit "assets") _ _ eq_refl))
    by reflexivity.
  rewrite on_nested_get.
  assert (Hv : py_get (if is_none (py_get (fill_defaults defaults v) (lit "scraped_at"))
                       then dict_set (lit "scraped_at") (VInt now) (fill_defaults defaults v)
                       else fill_defaults defaults v) (lit "price_data")
               = py_get v (lit "price_data")).
  { destruct (is_none _); [rewrite py_get_set_ne by reflexivity |];
      apply (untouched_py_get _ _ _ _
                 (fill_defaults_untouched _ defaults (keys_cover defaults) v));
      reflexivity. }
  rewrite Hv. reflexivity.
Qed.

Lemma defaults_assets_get (now : Z) (v : dict) :
  py_get (DefaultValuesPipeline.process_item now v) (lit "assets")
  = nested_image (fill_defaults defaults_assets) (py_get v (lit "assets")).
Proof.
  unfold DefaultValuesPipeline.process_item. cbv zeta.
  rewrite (untouched_py_get _ _ _ _
             (on_nested_untouched [lit "stock_data"] (lit "stock_data") _ _ eq_refl))
    by reflexivity.
  rewrite on_nested_get.
  rewrite (untouched_py_get _ _ _ _
             (on_nested_untouched [lit "price_data"] (lit "price_data") _ _ eq_refl))
    by reflexivity.
  assert (Hv : py_get (if is_none (py_get (fill_defaults defaults v) (lit "scraped_at"))
                       then dict_set (lit "scraped_at") (VInt now) (fill_defaults defaults v)
                       else fill_defaults defaults v) (lit "assets")
               = py_get v (lit "assets")).
  { destruct (is_none _); [rewrite py_get_set_ne by reflexivity |];
      apply (untouched_py_get _ _ _ _
                 (fill_defaults_untouched _ defaults (keys_cover defaults) v));
      reflexivity. }
  rewrite Hv. reflexivity.
Qed.

Lemma nested_fixed (f : dict -> dict) (x : value) (n : dict) :
  (forall m, f (f m) = f m) ->
  nested_image f x = VDict n -> n <> [] -> f n = n.
Proof.
  intros Hf E Hn. unfold nested_image in E.
  destruct x as [|b|z|y|s|l|[|kv t]]; try discriminate E.
  - congruence.
  - assert (En : f (kv :: t) = n) by congruence. rewrite <- En. apply Hf.
Qed.

Lemma defaults_fixed (now : Z) (d : dict) :
  fill_defaults defaults d = d ->
  is_none (py_get d (lit "scraped_at")) = false ->
  on_nested (lit "price_data") default_price_data d = d ->
  on_nested (lit "assets") (fill_defaults defaults_assets) d = d ->
  on_nested (lit "stock_data") (fill_defaults defaults_stock) d = d ->
  DefaultValuesPipeline.process_item now d = d.
Proof.
  intros F1 F2 F3 F4 F5.
  unfold DefaultValuesPipeline.process_item. cbv zeta.
  rewrite F1, F2, F3, F4, F5. reflexivity.
Qed.

(** X9. The defaulting stage is idempotent: run on its own output, at
    whatever time, it changes nothing. *)
Theorem defaulting_idempotent (now now' : Z) (item : dict) :
  DefaultValuesPipeline.process_item now' (DefaultValuesPipeline.process_item now item)
  = DefaultValuesPipeline.process_item now item.
Proof.
  apply defaults_fixed.
  - apply fill_defaults_fixed. intros k v Hin.
    destruct (defaults_top_spec now item k v Hin) as [G N].
    exists (py_get (DefaultValuesPipeline.process_item now item) k).
    split; [| left; exact N].
    unfold py_get. rewrite G. reflexivity.
  - rewrite defaults_scraped_at.
    destruct (is_none (py_get item (lit "scraped_at"))) eqn:N; [reflexivity | exact N].
  - apply on_nested_fixed. intros n E. rewrite defaults_price_get in E.
    apply (nested_fixed _ (py_get item (lit "price_data")) n
             default_price_data_idem E).
  - apply on_nested_fixed. intros n E. rewrite defaults_assets_get in E.
    apply (nested_fixed _ (py_get item (lit "assets")) n
             (fill_defaults_idem defaults_assets eq_refl) E).
  - apply on_nested_fixed. intros n E. rewrite defaults_stock_get in E.
    apply (nested_fixed _ (py_get item (lit "stock_data")) n
             (fill_defaults_idem defaults_stock eq_refl) E).
Qed.


(** ** Whitespace normalisation *)

#[local] Abbreviation all_space := (@forallb N is_space).

Lemma is_space_32 : is_space 32%N = true.
Proof. reflexivity. Qed.

Lemma forallb_space_rev (s : list N) : all_space (rev s) = all_space s.
Proof.
  induction s as [|c t IH]; [reflexivity |].
  cbn [rev forallb]. rewrite forallb_app, IH. cbn [forallb].
  rewrite andb_true_r. apply andb_comm.
Qed.

Lemma lstrip_spaces (s : list N) : all_space s = true -> lstrip s = [].
Proof.
  induction s as [|c t IH]; [reflexivity |]. cbn [forallb lstrip].
  destruct (is_space c); [exact IH | discriminate].
Qed.

Lemma forallb_lstrip (s : list N) : all_space (lstrip s) = all_space s.
Proof.
  induction s as [|c t IH]; [reflexivity |]. cbn [lstrip forallb].
  destruct (is_space c) eqn:Sc; [exact IH |]. cbn [forallb]. rewrite Sc. reflexivity.
Qed.

Lemma lstrip_app (a b : list N) :
  lstrip (a ++ b) = if all_space a then lstrip b else lstrip a ++ b.
Proof.
  induction a as [|c t IH]; [reflexivity |]. cbn [app lstrip forallb].
  destruct (is_space c); [exact IH | reflexivity].
Qed.

Lemma rstrip_cons (c : N) (t : list N) :
  rstrip (c :: t) = if all_space (c :: t) then [] else c :: rstrip t.
Proof.
  unfold rstrip. cbn [rev]. rewrite lstrip_app, forallb_space_rev. cbn [forallb].
  destruct (all_space t) eqn:A.
  - rewrite andb_true_r, (lstrip_spaces (rev t)) by (rewrite forallb_space_rev; exact A).
    cbn [lstrip]. destruct (is_space c); reflexivity.
  - rewrite andb_false_r, rev_app_distr. reflexivity.
Qed.

Lemma rstrip_spaces (s : list N) : all_space s = true -> rstrip s = [].
Proof. destruct s as [|c t]; [reflexivity |]. rewrite rstrip_cons. intros ->. reflexivity. Qed.

Lemma forallb_rstrip (s : list N) : all_space (rstrip s) = all_space s.
Proof.
  induction s as [|c t IH]; [reflexivity |]. rewrite rstrip_cons.
  destruct (all_space (c :: t)) eqn:A; [reflexivity |].
  cbn [forallb] in *. rewrite IH. exact A.
Qed.

Lemma lstrip_rstrip (s : list N) : lstrip (rstrip s) = rstrip (lstrip s).
Proof.
  induction s as [|c t IH]; [reflexivity |]. rewrite rstrip_cons.
  destruct (all_space (c :: t)) eqn:A.
  - rewrite (lstrip_spaces _ A). reflexivity.
  - cbn [lstrip]. destruct (is_space c) eqn:Sc; [exact IH |].
    rewrite rstrip_cons, A. reflexivity.
Qed.

Lemma strip_empty_iff (s : list N) : strip s = [] <-> all_space s = true.
Proof.
  unfold strip. split.
  - intros E. rewrite <- forallb_lstrip, <- forallb_rstrip, E. reflexivity.
  - intros A. rewrite (lstrip_spaces _ A). reflexivity.
Qed.

(** *** [split] and [join] against the regular expression *)

Lemma split_from_cur (t : list N) :
  forall cur, cur <> [] -> split_from cur t <> [].
Proof.
  induction t as [|c t IH]; intros cur Hc; cbn [split_from].
  - destruct cur; [congruence | discriminate].
  - destruct (is_space c); [| apply IH; discriminate].
    destruct cur; [congruence | discriminate].
Qed.

Lemma split_from_spaces (t : list N) :
  all_space t = true -> split_from [] t = [].
Proof.
  induction t as [|c t IH]; [reflexivity |]. cbn [forallb split_from].
  destruct (is_space c); [exact IH | discriminate].
Qed.

Lemma split_from_nonspaces (t : list N) :
  all_space t = false -> split_from [] t <> [].
Proof.
  induction t as [|c t IH]; [discriminate |]. cbn [forallb split_from].
  destruct (is_space c); [exact IH |]. intros _. apply split_from_cur. discriminate.
Qed.

Lemma join_cons (sep p : list N) (rest : list str) :
  join sep (p :: rest)
  = match rest with [] => p | _ => p ++ sep ++ join sep rest end.
Proof. destruct rest; reflexivity. Qed.

Lemma join_split_from (t : list N) :
  (forall cur, cur <> [] ->
     join [32%N] (split_from cur t) = rev cur ++ sub_ws_from false (rstrip t))
  /\ join [32%N] (split_from [] t) = sub_ws_from true (rstrip t).
Proof.
  induction t as [|c t [IH1 IH2]].
  - split; [| reflexivity]. intros cur Hc. cbn [split_from].
    destruct cur as [|x cur']; [congruence |].
    cbn [join]. rewrite app_nil_r. reflexivity.
  - rewrite rstrip_cons. cbn [forallb split_from].
    destruct (is_space c) eqn:Sc; cbn [andb].
    + split.
      * intros cur Hc. destruct cur as [|x cur']; [congruence |].
        rewrite join_cons.
        destruct (all_space t) eqn:A.
        { rewrite (split_from_spaces _ A). cbn [sub_ws_from]. rewrite app_nil_r.
          reflexivity. }
        { pose proof (split_from_nonspaces _ A) as Hne.
          destruct (split_from [] t) as [|w ws] eqn:E; [congruence |].
          rewrite IH2. cbn [sub_ws_from]. rewrite Sc. reflexivity. }
      * rewrite IH2. destruct (all_space t) eqn:A.
        { rewrite (rstrip_spaces _ A). reflexivity. }
        { cbn [sub_ws_from]. rewrite Sc. reflexivity. }
    + split.
      * intros cur Hc. rewrite (IH1 (c :: cur)) by discriminate.
        cbn [rev sub_ws_from]. rewrite Sc, <- app_assoc. reflexivity.
      * rewrite (IH1 [c]) by discriminate. cbn [rev sub_ws_from app].
        rewrite Sc. reflexivity.
Qed.

Lemma collapse_ws_sub (s : list N) : collapse_ws s = sub_ws_from true (rstrip s).
Proof. apply (proj2 (join_split_from s)). Qed.

Lemma sub_true_lstrip (u : list N) : sub_ws_from true u = sub_ws_from false (lstrip u).
Proof.
  induction u as [|c t IH]; [reflexivity |]. cbn [sub_ws_from lstrip].
  destruct (is_space c) eqn:Sc; [exact IH |]. cbn [sub_ws_from]. rewrite Sc. reflexivity.
Qed.

(** [' '.join(s.split())] and [re.sub(r'\s+', ' ', s.strip())] are the
    same function. *)
Lemma collapse_ws_regex (s : list N) : collapse_ws s = re_sub_ws (strip s).
Proof.
  rewrite collapse_ws_sub, sub_true_lstrip, lstrip_rstrip. reflexivity.
Qed.

(** *** The shape of a collapsed string *)

Lemma forallb_sub (u : list N) :
  forall b, all_space (sub_ws_from b u) = all_space u.
Proof.
  induction u as [|c t IH]; intros b; [reflexivity |]. cbn [sub_ws_from forallb].
  destruct (is_space c) eqn:Sc.
  - destruct b; cbn [forallb andb]; rewrite ?is_space_32; apply IH.
  - cbn [forallb]. rewrite Sc. reflexivity.
Qed.

Lemma spaced_sub (t : list N) :
  forall b, spaced b (sub_ws_from b (rstrip t)) = true.
Proof.
  induction t as [|c t IH]; intros b; [reflexivity |]. rewrite rstrip_cons.
  destruct (all_space (c :: t)); [reflexivity |].
  cbn [sub_ws_from]. destruct (is_space c) eqn:Sc.
  - destruct b; [apply IH |]. cbn [spaced]. rewrite is_space_32, IH. reflexivity.
  - cbn [spaced]. rewrite Sc. apply IH.
Qed.

Lemma spaced_fixed (u : list N) :
  forall b, spaced b u = true -> sub_ws_from b u = u.
Proof.
  induction u as [|c t IH]; intros b; [reflexivity |]. cbn [spaced sub_ws_from].
  destruct (is_space c).
  - intros E. apply andb_true_iff in E. destruct E as [E E3].
    apply andb_true_iff in E. destruct E as [E1 E2].
    apply N.eqb_eq in E1. apply negb_true_iff in E2. subst c b.
    rewrite (IH true E3). reflexivity.
  - intros E. rewrite (IH false E). reflexivity.
Qed.

Lemma spaced_lstrip (u : list N) : spaced true u = true -> lstrip u = u.
Proof.
  destruct u as [|c t]; [reflexivity |]. cbn [spaced lstrip].
  destruct (is_space c); [| reflexivity].
  rewrite andb_false_r. discriminate.
Qed.

Lemma rstrip_sub (t : list N) :
  forall b, rstrip (sub_ws_from b (rstrip t)) = sub_ws_from b (rstrip t).
Proof.
  induction t as [|c t IH]; intros b; [reflexivity |]. rewrite rstrip_cons.
  destruct (all_space (c :: t)) eqn:A; [reflexivity |].
  cbn [sub_ws_from forallb] in *. destruct (is_space c) eqn:Sc.
  - destruct b; [apply IH |]. rewrite rstrip_cons. cbn [forallb].
    rewrite forallb_sub, forallb_rstrip, is_space_32. cbn [andb] in *.
    rewrite A, IH. reflexivity.
  - rewrite rstrip_cons. cbn [forallb]. rewrite Sc, IH. reflexivity.
Qed.

Lemma filter_spaces (s : list N) :
  all_space s = true -> List.filter nonspace s = [].
Proof.
  induction s as [|c t IH]; [reflexivity |]. cbn [forallb List.filter]. unfold nonspace.
  destruct (is_space c); [exact IH | discriminate].
Qed.

Lemma filter_rstrip (t : list N) : List.filter nonspace (rstrip t) = List.filter nonspace t.
Proof.
  induction t as [|c t IH]; [reflexivity |]. rewrite rstrip_cons.
  destruct (all_space (c :: t)) eqn:A.
  - rewrite (filter_spaces _ A). reflexivity.
  - cbn [List.filter]. rewrite IH. reflexivity.
Qed.

Lemma filter_sub (u : list N) :
  forall b, List.filter nonspace (sub_ws_from b u) = List.filter nonspace u.
Proof.
  induction u as [|c t IH]; intros b; [reflexivity |]. cbn [sub_ws_from List.filter].
  unfold nonspace at 2. destruct (is_space c) eqn:Sc; cbn [negb].
  - destruct b; [apply IH |]. cbn [List.filter]. unfold nonspace at 1.
    rewrite is_space_32. apply IH.
  - cbn [List.filter]. unfold nonspace at 1. rewrite Sc. cbn [negb]. rewrite IH.
    reflexivity.
Qed.

Lemma collapse_ws_spaced (s : list N) : single_spaced (collapse_ws s) = true.
Proof.
  unfold single_spaced. rewrite collapse_ws_sub, spaced_sub. cbn [andb].
  apply str_eqb_eq. unfold strip.
  rewrite (spaced_lstrip _ (spaced_sub s true)). apply rstrip_sub.
Qed.

Lemma collapse_ws_idem (s : list N) : collapse_ws (collapse_ws s) = collapse_ws s.
Proof.
  rewrite (collapse_ws_sub (collapse_ws s)), (collapse_ws_sub s), rstrip_sub.
  apply spaced_fixed, spaced_sub.
Qed.

Lemma collapse_ws_filter (s : list N) :
  List.filter nonspace (collapse_ws s) = List.filter nonspace s.
Proof. rewrite collapse_ws_sub, filter_sub. apply filter_rstrip. Qed.

Lemma collapse_ws_empty_iff (s : list N) :
  collapse_ws s = [] <-> all_space s = true.
Proof.
  rewrite collapse_ws_sub. split.
  - intros E. rewrite <- forallb_rstrip, <- (forallb_sub _ true), E. reflexivity.
  - intros A. rewrite (rstrip_spaces _ A). reflexivity.
Qed.


Lemma single_spaced_fixed (t : list N) : single_spaced t = true -> collapse_ws t = t.
Proof.
  unfold single_spaced. intros E. apply andb_true_iff in E. destruct E as [Es Et].
  apply str_eqb_eq in Et. unfold strip in Et. rewrite (spaced_lstrip _ Es) in Et.
  rewrite collapse_ws_sub, Et. apply spaced_fixed, Es.
Qed.

Lemma spaced_replace (c : N) (r u : list N) :
  is_space c = true -> c <> 32%N ->
  forall b, spaced b u = true -> replace_char c r u = u.
Proof.
  intros Sc Hc. unfold replace_char.
  induction u as [|x t IH]; intros b; [reflexivity |]. cbn [spaced flat_map].
  destruct (x =? c)%N eqn:X.
  - apply N.eqb_eq in X. subst x. rewrite Sc. intros E.
    apply andb_true_iff in E. destruct E as [E _].
    apply andb_true_iff in E. destruct E as [E _].
    apply N.eqb_eq in E. congruence.
  - destruct (is_space x); intros E.
    + apply andb_true_iff in E. destruct E as [_ E]. rewrite (IH true E). reflexivity.
    + rewrite (IH false E). reflexivity.
Qed.

(** ** String fields after the cleaning stage *)

Section StringFields.
Context `{Builtins}.

Lemma clean_string_field_get (d : dict) (field f : str) (s : str) :
  dict_get f d = Some (VStr s) ->
  dict_get f (clean_string_field d field)
  = Some (VStr (if str_eqb field f then collapse_ws s else s)).
Proof.
  intros G. destruct (str_eqb field f) eqn:E.
  - apply str_eqb_eq in E. subst f. apply clean_string_field_sets, G.
  - rewrite (clean_string_field_untouched [field] field d); [exact G | |].
    + cbn [existsb]. rewrite str_eqb_refl. reflexivity.
    + cbn [existsb]. rewrite str_eqb_sym, E. reflexivity.
Qed.

Lemma clean_string_fields_get (fields : list str) :
  forall (d : dict) (f s : str),
    dict_get f d = Some (VStr s) ->
    dict_get f (fold_left clean_string_field fields d)
    = Some (VStr (if existsb (str_eqb f) fields then collapse_ws s else s)).
Proof.
  induction fields as [|g rest IH]; intros d f s G; [exact G |].
  cbn [fold_left existsb].
  rewrite (IH _ f _ (clean_string_field_get d g f s G)).
  rewrite (str_eqb_sym f g). destruct (str_eqb g f); cbn [orb]; [| reflexivity].
  rewrite collapse_ws_idem. destruct (existsb _ rest); reflexivity.
Qed.

Lemma clean_description_tidy (d : dict) (f t : str) :
  dict_get f d = Some (VStr t) -> single_spaced t = true ->
  dict_get f (clean_description d) = Some (VStr t).
Proof.
  intros G Ht. destruct (str_eqb (lit "description") f) eqn:E.
  - apply str_eqb_eq in E. subst f. unfold clean_description, py_get. rewrite G.
    destruct t as [|c t']; [exact G |]. cbn [truthy]. cbv zeta.
    rewrite dict_get_set_eq.
    assert (Es : spaced true (c :: t') = true).
    { unfold single_spaced in Ht. apply andb_true_iff in Ht. tauto. }
    rewrite (spaced_replace 13%N [] (c :: t') eq_refl ltac:(discriminate) true Es).
    rewrite (spaced_replace 10%N [32%N] (c :: t') eq_refl ltac:(discriminate) true Es).
    rewrite (single_spaced_fixed _ Ht). reflexivity.
  - rewrite (clean_description_untouched [lit "description"] d eq_refl); [exact G |].
    cbn [existsb]. rewrite str_eqb_sym, E. reflexivity.
Qed.

Lemma string_field_keys (field : str) :
  In field string_fields ->
  existsb (str_eqb field)
    [lit "marketing_tags"; lit "attributes"; lit "image_urls"; lit "tags";
     lit "assets"; lit "price"; lit "original_price"; lit "rating";
     lit "discount_percentage"] = false.
Proof.
  unfold string_fields. intros Hin.
  repeat (destruct Hin as [<-|Hin]; [reflexivity |]). destruct Hin.
Qed.

(** X10. After the cleaning stage each of [name], [brand],
    [description], [tasting_notes], [food_pairing] and [category] that
    held a string holds [' '.join(s.split())] of it: words separated by
    single spaces, no whitespace at either end, the characters that are
    not whitespace kept in order; cleaning it again changes nothing.
    For [description] this is the final value too: the later removal of
    line breaks finds none. *)
Theorem cleaned_strings_single_spaced (item out : dict) (field s : str) :
  In field string_fields ->
  DataCleaningPipeline.process_item item = Ok out ->
  dict_get field item = Some (VStr s) ->
  dict_get field out = Some (VStr (collapse_ws s))
  /\ single_spaced (collapse_ws s) = true
  /\ collapse_ws (collapse_ws s) = collapse_ws s
  /\ List.filter nonspace (collapse_ws s) = List.filter nonspace s.
Proof.
  intros Hin E G.
  split; [| split; [apply collapse_ws_spaced
                   | split; [apply collapse_ws_idem | apply collapse_ws_filter]]].
  pose proof (string_field_keys field Hin) as Hk.
  set (ks := [lit "marketing_tags"; lit "attributes"; lit "image_urls"; lit "tags";
              lit "assets"; lit "price"; lit "original_price"; lit "rating";
              lit "discount_percentage"]) in *.
  apply cleaning_steps in E.
  destruct E as (d4 & d6 & d8 & d9 & d10 & E4 & E6 & E8 & E9 & E10 & E11).
  rewrite (clean_discount_untouched ks _ _ eq_refl E11 field Hk).
  rewrite (clean_rating_untouched ks _ _ eq_refl E10 field Hk).
  rewrite (clean_nonnegative_untouched ks (lit "original_price") _ _ eq_refl E9 field Hk).
  rewrite (clean_nonnegative_untouched ks (lit "price") _ _ eq_refl E8 field Hk).
  apply clean_description_tidy; [| apply collapse_ws_spaced].
  rewrite (clean_assets_untouched ks _ _ eq_refl E6 field Hk).
  rewrite (clean_tags_untouched ks (lit "tags") _ eq_refl field Hk).
  rewrite (clean_image_urls_untouched ks _ _ eq_refl E4 field Hk).
  unfold clean_attributes.
  rewrite (on_nested_untouched ks (lit "attributes") _ _ eq_refl field Hk).
  rewrite (clean_tags_untouched ks (lit "marketing_tags") _ eq_refl field Hk).
  rewrite (clean_string_fields_get string_fields item field s G).
  assert (Hex : existsb (str_eqb field) string_fields = true).
  { apply existsb_exists. exists field. split; [exact Hin | apply str_eqb_refl]. }
  rewrite Hex. reflexivity.
Qed.

End StringFields.

Lemma cleaned_strings_single_spaced_witness :
  exists out,
    @DataCleaningPipeline.process_item Runtime.sample
      (minimal_record_with (lit "description") (VStr [97; 13; 98; 10; 10; 99]%N))
    = Ok out
    /\ dict_get (lit "description") out = Some (VStr (lit "a b c")).
Proof.
  eexists. split; [vm_compute; reflexivity |].
  refine (proj1 (@cleaned_strings_single_spaced Runtime.sample
                   (minimal_record_with (lit "description")
                      (VStr [97; 13; 98; 10; 10; 99]%N))
                   _ (lit "description") [97; 13; 98; 10; 10; 99]%N _ _ _)).
  - unfold string_fields. cbn [In]. auto 10.
  - vm_compute. reflexivity.
  - reflexivity.
Defined.

(** ** Helpers of [items.py] *)

Section ItemHelpers.
Context `{Builtins}.

(** X11. [clean_title] and the cleaning stage normalise alike:
    [clean_title(s)] is [' '.join(s.split())] for every string, and the
    same of [str(v)] for any other non-empty value; an empty value gives
    [''].  The result is single-spaced, and a second call changes
    nothing. *)
Theorem clean_title_collapses :
  (forall s, Items.clean_title (VStr s) = collapse_ws s)
  /\ (forall v, truthy v = true -> Items.clean_title v = collapse_ws (py_str v))
  /\ (forall v, truthy v = false -> Items.clean_title v = [])
  /\ (forall v, single_spaced (Items.clean_title v) = true)
  /\ (forall v, Items.clean_title (VStr (Items.clean_title v)) = Items.clean_title v).
Proof.
  assert (T : forall v, truthy v = true -> Items.clean_title v = collapse_ws (py_str v)).
  { intros v Tv. unfold Items.clean_title. rewrite Tv. cbn [negb].
    symmetry. apply collapse_ws_regex. }
  assert (F : forall v, truthy v = false -> Items.clean_title v = []).
  { intros v Tv. unfold Items.clean_title. rewrite Tv. reflexivity. }
  assert (S : forall s, Items.clean_title (VStr s) = collapse_ws s).
  { intros s. destruct s as [|c t]; [reflexivity |]. apply (T (VStr (c :: t))). reflexivity. }
  split; [exact S |]. split; [exact T |]. split; [exact F |]. split.
  - intros v. destruct (truthy v) eqn:Tv.
    + rewrite (T v Tv). apply collapse_ws_spaced.
    + rewrite (F v Tv). reflexivity.
  - intros v. rewrite S. destruct (truthy v) eqn:Tv.
    + rewrite (T v Tv). apply collapse_ws_idem.
    + rewrite (F v Tv). reflexivity.
Qed.

(** X12. [validate_required_field] raises for [None] and for a string
    without a character that is not whitespace, and returns every other
    value unchanged.  On strings it agrees with the end of the
    pipeline: an accepted record whose [name] was a string ends with a
    non-empty [name] exactly when that string passes
    [validate_required_field]. *)
Theorem required_field_check_matches_cleaning :
  Items.validate_required_field VNone = Raise ValueError
  /\ (forall s, Items.validate_required_field (VStr s)
                = if all_space s then Raise ValueError else Ok (VStr s))
  /\ (forall v, is_none v = false -> (forall s, v <> VStr s) ->
                Items.validate_required_field v = Ok v)
  /\ (forall s, all_space s = true <-> collapse_ws s = [])
  /\ (forall now item out s,
         normalize now item = Accepted out ->
         dict_get (lit "name") item = Some (VStr s) ->
         (truthy (py_get out (lit "name")) = true
          <-> Items.validate_required_field (VStr s) = Ok (VStr s))).
Proof.
  assert (V : forall s, Items.validate_required_field (VStr s)
                        = if all_space s then Raise ValueError else Ok (VStr s)).
  { intros s. unfold Items.validate_required_field. cbn [is_none].
    destruct (all_space s) eqn:A.
    - rewrite (proj2 (strip_empty_iff s) A). reflexivity.
    - destruct (strip s) eqn:E; [| reflexivity].
      apply strip_empty_iff in E. congruence. }
  split; [reflexivity |]. split; [exact V |]. split.
  { intros v Hn Hs. unfold Items.validate_required_field. rewrite Hn.
    destruct v; try reflexivity. exfalso. apply (Hs s). reflexivity. }
  split.
  { intros s. symmetry. apply collapse_ws_empty_iff. }
  intros now item out s E G.
  pose proof (accepted_name now item out s E G) as Gn.
  unfold py_get. rewrite Gn, V. cbn [truthy].
  destruct (all_space s) eqn:A.
  - rewrite (proj2 (collapse_ws_empty_iff s) A). split; discriminate.
  - destruct (collapse_ws s) eqn:C.
    + apply collapse_ws_empty_iff in C. congruence.
    + split; reflexivity.
Qed.

End ItemHelpers.

(** ** Image URLs and attributes after the cleaning stage *)

Lemma filter_map_strs (f : str -> bool) (g : value -> bool) (l : list str) :
  (forall s, g (VStr s) = f s) ->
  List.filter g (List.map VStr l) = List.map VStr (List.filter f l).
Proof.
  intros Hfg. induction l as [|x t IH]; [reflexivity |]. cbn [List.map List.filter].
  rewrite Hfg, IH. destruct (f x); reflexivity.
Qed.

Lemma fromkeys_strs (l : list str) :
  fromkeys (List.map VStr l) = List.map VStr (dedup l).
Proof.
  induction l as [|x t IH]; [reflexivity |]. cbn [List.map fromkeys dedup].
  rewrite IH. f_equal. apply filter_map_strs. reflexivity.
Qed.

Lemma hashable_strs (l : list str) : forallb hashable (List.map VStr l) = true.
Proof. induction l as [|x t IH]; [reflexivity | exact IH]. Qed.

Lemma filter_sublist {A : Type} (f : A -> bool) (l : list A) :
  sublist (List.filter f l) l.
Proof.
  induction l as [|x t IH]; cbn [List.filter]; [constructor |].
  destruct (f x); constructor; exact IH.
Qed.

Lemma dedup_sublist (l : list str) : sublist (dedup l) l.
Proof.
  induction l as [|x t IH]; cbn [dedup]; [constructor |].
  apply sublist_skip. etransitivity; [apply filter_sublist | exact IH].
Qed.

Lemma dedup_head (x : str) (t : list str) : hd_error (dedup (x :: t)) = Some x.
Proof. reflexivity. Qed.

Section UrlsAndAttributes.
Context `{Builtins}.

Lemma clean_image_urls_strs (d : dict) (urls : list str) :
  py_get d (lit "image_urls") = VList (List.map VStr urls) ->
  exists d', clean_image_urls d = Ok d'
             /\ py_get d' (lit "image_urls") = VList (List.map VStr (dedup urls)).
Proof.
  intros E. unfold clean_image_urls. rewrite E.
  destruct urls as [|u t].
  - exists d. split; [reflexivity | exact E].
  - cbn [truthy List.map]. unfold unique_values.
    change (VStr u :: List.map VStr t) with (List.map VStr (u :: t)).
    rewrite hashable_strs, fromkeys_strs. cbn [mbind res_bind].
    eexists. split; [reflexivity | apply py_get_set_eq].
Qed.

(** X13. A list of URL strings under [image_urls] leaves the cleaning
    stage as the list of its first occurrences: no URL twice, every URL
    of the input still there, in the order of the input and starting
    with its first URL. *)
Theorem image_urls_first_occurrences (item out : dict) (urls : list str) :
  DataCleaningPipeline.process_item item = Ok out ->
  py_get item (lit "image_urls") = VList (List.map VStr urls) ->
  py_get out (lit "image_urls") = VList (List.map VStr (dedup urls))
  /\ List.NoDup (dedup urls)
  /\ (forall u, In u (dedup urls) <-> In u urls)
  /\ sublist (dedup urls) urls
  /\ hd_error (dedup urls) = hd_error urls.
Proof.
  intros E G.
  split; [| split; [apply dedup_NoDup
                   | split; [intros u; apply dedup_In
                            | split; [apply dedup_sublist
                                     | destruct urls; reflexivity]]]].
  apply cleaning_steps in E.
  destruct E as (d4 & d6 & d8 & d9 & d10 & E4 & E6 & E8 & E9 & E10 & E11).
  set (ks := [lit "tags"; lit "assets"; lit "description"; lit "price";
              lit "original_price"; lit "rating"; lit "discount_percentage"]).
  rewrite (untouched_py_get ks _ _ _ (clean_discount_untouched ks _ _ eq_refl E11))
    by reflexivity.
  rewrite (untouched_py_get ks _ _ _ (clean_rating_untouched ks _ _ eq_refl E10))
    by reflexivity.
  rewrite (untouched_py_get ks _ _ _
             (clean_nonnegative_untouched ks (lit "original_price") _ _ eq_refl E9))
    by reflexivity.
  rewrite (untouched_py_get ks _ _ _
             (clean_nonnegative_untouched ks (lit "price") _ _ eq_refl E8))
    by reflexivity.
  rewrite (untouched_py_get ks _ _ _ (clean_description_untouched ks _ eq_refl))
    by reflexivity.
  rewrite (untouched_py_get ks _ _ _ (clean_assets_untouched ks _ _ eq_refl E6))
    by reflexivity.
  rewrite (untouched_py_get ks _ _ _ (clean_tags_untouched ks (lit "tags") _ eq_refl))
    by reflexivity.
  destruct (clean_image_urls_strs
              (clean_attributes
                 (clean_tags (lit "marketing_tags")
                    (fold_left clean_string_field string_fields item))) urls)
    as (d' & Ed & Gd).
  - unfold clean_attributes.
    rewrite (untouched_py_get _ _ _ _
               (on_nested_untouched [lit "attributes"] (lit "attributes") _ _ eq_refl))
      by reflexivity.
    rewrite (untouched_py_get _ _ _ _
               (clean_tags_untouched [lit "marketing_tags"] (lit "marketing_tags")
                  _ eq_refl))
      by reflexivity.
    rewrite (untouched_py_get _ _ _ _
               (clean_string_fields_untouched string_fields string_fields
                  eq_refl item))
      by reflexivity.
    exact G.
  - rewrite Ed in E4. injection E4 as <-. exact Gd.
Qed.

(** *** Attributes *)

Lemma dict_set_Forall (P : str * value -> Prop) (k : str) (v : value) (d : dict) :
  Forall P d -> P (k, v) -> Forall P (dict_set k v d).
Proof.
  intros Hd Hkv. induction d as [|[k' v'] t IH]; cbn [dict_set].
  - constructor; [exact Hkv | constructor].
  - inversion Hd as [|? ? Hhd Htl]; subst.
    destruct (str_eqb k' k) eqn:E.
    + apply str_eqb_eq in E. subst k'. constructor; assumption.
    + constructor; [exact Hhd | apply IH, Htl].
Qed.

Lemma clean_attribute_not_none (v : value) :
  is_none v = false -> clean_attribute v <> VNone.
Proof. destruct v; simpl; congruence. Qed.

Lemma attributes_fold_lookup (attrs : dict) :
  unique_keys attrs ->
  forall (acc : dict) (k : str),
    dict_get k
      (fold_left (fun cleaned_attrs kv =>
                    if truthy (VStr (fst kv)) && negb (is_none (snd kv))
                    then dict_set (fst kv) (clean_attribute (snd kv)) cleaned_attrs
                    else cleaned_attrs)
                 attrs acc)
    = match dict_get k attrs with
      | Some v => if attribute_kept k v then Some (clean_attribute v)
                  else dict_get k acc
      | None => dict_get k acc
      end.
Proof.
  unfold unique_keys.
  induction attrs as [|[k0 v0] t IH]; intros Hu acc k; [reflexivity |].
  cbn [List.map fst] in Hu. inversion Hu as [|? ? Hnotin Ht]; subst.
  cbn [fold_left fst snd dict_get]. rewrite (IH Ht).
  destruct (str_eqb k0 k) eqn:E.
  - apply str_eqb_eq in E. subst k0. rewrite (dict_get_absent _ _ Hnotin).
    unfold attribute_kept.
    destruct (truthy (VStr k) && negb (is_none v0)); [apply dict_get_set_eq | reflexivity].
  - assert (Ha : dict_get k (if truthy (VStr k0) && negb (is_none v0)
                             then dict_set k0 (clean_attribute v0) acc else acc)
                 = dict_get k acc).
    { destruct (_ && _); [apply dict_get_set_ne, E | reflexivity]. }
    rewrite Ha. reflexivity.
Qed.

Lemma attributes_fold_shape (attrs : dict) :
  forall acc : dict,
    unique_keys acc ->
    Forall (fun kv => fst kv <> [] /\ snd kv <> VNone) acc ->
    let cleaned :=
      fold_left (fun cleaned_attrs kv =>
                   if truthy (VStr (fst kv)) && negb (is_none (snd kv))
                   then dict_set (fst kv) (clean_attribute (snd kv)) cleaned_attrs
                   else cleaned_attrs)
                attrs acc in
    unique_keys cleaned
    /\ Forall (fun kv => fst kv <> [] /\ snd kv <> VNone) cleaned.
Proof.
  induction attrs as [|[k0 v0] t IH]; intros acc Hu Hf; cbn [fold_left fst snd];
    [split; assumption |].
  apply IH.
  - destruct (_ && _); [apply dict_set_unique, Hu | exact Hu].
  - destruct (truthy (VStr k0) && negb (is_none v0)) eqn:C; [| exact Hf].
    apply andb_true_iff in C. destruct C as [Ck Cv]. apply negb_true_iff in Cv.
    apply dict_set_Forall; [exact Hf |]. cbn [fst snd]. split.
    + intros ->. discriminate Ck.
    + apply clean_attribute_not_none, Cv.
Qed.

(** X14. A mapping under [attributes] leaves the cleaning stage without
    its entries whose key is empty or whose value is null; a kept
    string value has its whitespace collapsed, a kept list value has
    lost its empty elements, any other value is as it was.  No key of
    the result is empty, no value is null, and each key occurs once. *)
Theorem cleaned_attributes (item out attrs : dict) :
  DataCleaningPipeline.process_item item = Ok out ->
  py_get item (lit "attributes") = VDict attrs ->
  unique_keys attrs ->
  exists cleaned,
    py_get out (lit "attributes") = VDict cleaned
    /\ unique_keys cleaned
    /\ Forall (fun kv => fst kv <> [] /\ snd kv <> VNone) cleaned
    /\ (forall k,
          dict_get k cleaned
          = match dict_get k attrs with
            | Some v => if attribute_kept k v then Some (clean_attribute v) else None
            | None => None
            end).
Proof.
  intros E G Hu.
  set (F := fun attributes : dict =>
              fold_left (fun cleaned_attrs kv =>
                           if truthy (VStr (fst kv)) && negb (is_none (snd kv))
                           then dict_set (fst kv) (clean_attribute (snd kv)) cleaned_attrs
                           else cleaned_attrs)
                        attributes []).
  exists (F attrs).
  destruct (attributes_fold_shape attrs [] ltac:(constructor) ltac:(constructor))
    as [Hu' Hf'].
  split; [| split; [exact Hu' | split; [exact Hf' |]]].
  - apply cleaning_steps in E.
    destruct E as (d4 & d6 & d8 & d9 & d10 & E4 & E6 & E8 & E9 & E10 & E11).
    set (ks := [lit "image_urls"; lit "tags"; lit "assets"; lit "description";
                lit "price"; lit "original_price"; lit "rating";
                lit "discount_percentage"]).
    rewrite (untouched_py_get ks _ _ _ (clean_discount_untouched ks _ _ eq_refl E11))
      by reflexivity.
    rewrite (untouched_py_get ks _ _ _ (clean_rating_untouched ks _ _ eq_refl E10))
      by reflexivity.
    rewrite (untouched_py_get ks _ _ _
               (clean_nonnegative_untouched ks (lit "original_price") _ _ eq_refl E9))
      by reflexivity.
    rewrite (untouched_py_get ks _ _ _
               (clean_nonnegative_untouched ks (lit "price") _ _ eq_refl E8))
      by reflexivity.
    rewrite (untouched_py_get ks _ _ _ (clean_description_untouched ks _ eq_refl))
      by reflexivity.
    rewrite (untouched_py_get ks _ _ _ (clean_assets_untouched ks _ _ eq_refl E6))
      by reflexivity.
    rewrite (untouched_py_get ks _ _ _ (clean_tags_untouched ks (lit "tags") _ eq_refl))
      by reflexivity.
    rewrite (untouched_py_get ks _ _ _ (clean_image_urls_untouched ks _ _ eq_refl E4))
      by reflexivity.
    unfold clean_attributes. rewrite on_nested_get.
    rewrite (untouched_py_get _ _ _ _
               (clean_tags_untouched [lit "marketing_tags"] (lit "marketing_tags")
                  _ eq_refl))
      by reflexivity.
    rewrite (untouched_py_get _ _ _ _
               (clean_string_fields_untouched string_fields string_fields
                  eq_refl item))
      by reflexivity.
    rewrite G. destruct attrs; reflexivity.
  - intros k. subst F. cbv beta. rewrite (attributes_fold_lookup attrs Hu [] k).
    destruct (dict_get k attrs) as [v|]; [| reflexivity].
    destruct (attribute_kept k v); reflexivity.
Qed.

End UrlsAndAttributes.

Lemma image_urls_first_occurrences_witness :
  exists out,
    @DataCleaningPipeline.process_item Runtime.sample
      (minimal_record_with (lit "image_urls")
         (VList [VStr (lit "a"); VStr (lit "b"); VStr (lit "a")]))
    = Ok out
    /\ py_get out (lit "image_urls") = VList [VStr (lit "a"); VStr (lit "b")].
Proof.
  eexists. split; [vm_compute; reflexivity |].
  refine (proj1 (@image_urls_first_occurrences Runtime.sample
                   (minimal_record_with (lit "image_urls")
                      (VList [VStr (lit "a"); VStr (lit "b"); VStr (lit "a")]))
                   _ [lit "a"; lit "b"; lit "a"] _ _)).
  - vm_compute. reflexivity.
  - reflexivity.
Defined.

Lemma cleaned_attributes_witness :
  exists out cleaned,
    @DataCleaningPipeline.process_item Runtime.sample
      (minimal_record_with (lit "attributes")
         (VDict [(lit "a", VNone); (lit "b", VStr (lit " x  y "))]))
    = Ok out
    /\ py_get out (lit "attributes") = VDict cleaned
    /\ dict_get (lit "a") cleaned = None
    /\ dict_get (lit "b") cleaned = Some (VStr (lit "x y")).
Proof.
  destruct (@DataCleaningPipeline.process_item Runtime.sample
              (minimal_record_with (lit "attributes")
                 (VDict [(lit "a", VNone); (lit "b", VStr (lit " x  y "))])))
    as [out|] eqn:E; [| vm_compute in E; discriminate E].
  destruct (@cleaned_attributes Runtime.sample _ out
              [(lit "a", VNone); (lit "b", VStr (lit " x  y "))] E eq_refl)
    as (cleaned & G & _ & _ & L).
  - vm_compute. repeat constructor; simpl; intuition discriminate.
  - exists out, cleaned. split; [reflexivity |]. split; [exact G |].
    split; rewrite L; reflexivity.
Defined.

(** ** The discount is a percentage *)

Lemma digits2_pos_upper (p : positive) : Zpos p < 2 ^ Zpos (digits2_pos p).
Proof.
  induction p as [p IH|p IH|]; cbn [digits2_pos];
    rewrite ?Pos2Z.inj_succ, ?Z.pow_succ_r by lia; lia.
Qed.

Lemma Zdigits2_upper (m : Z) : 0 <= m -> m < 2 ^ Zdigits2 m.
Proof.
  destruct m as [|p|p]; intros Hm; [reflexivity | apply digits2_pos_upper | lia].
Qed.

Lemma shr_1_half (mrs : shr_record) :
  0 <= shr_m mrs -> shr_m (shr_1 mrs) = shr_m mrs / 2.
Proof.
  destruct mrs as [m r s]; cbn [shr_m]. intros Hm.
  destruct m as [|[p|p|]|p]; cbn [shr_1 shr_m]; try lia.
  - reflexivity.
  - rewrite (Pos2Z.inj_xI p). apply (Z.div_unique _ 2 _ 1); lia.
  - rewrite (Pos2Z.inj_xO p). apply (Z.div_unique _ 2 _ 0); lia.
  - reflexivity.
Qed.

Lemma pow2_xO (p : positive) : 2 ^ Zpos p~0 = 2 ^ Zpos p * 2 ^ Zpos p.
Proof.
  rewrite (Pos2Z.inj_xO p). replace (2 * Zpos p) with (Zpos p + Zpos p) by lia.
  apply Z.pow_add_r; lia.
Qed.

Lemma pow2_xI (p : positive) : 2 ^ Zpos p~1 = 2 * (2 ^ Zpos p * 2 ^ Zpos p).
Proof.
  rewrite (Pos2Z.inj_xI p). replace (2 * Zpos p + 1) with (Z.succ (Zpos p + Zpos p)) by lia.
  rewrite Z.pow_succ_r by lia. rewrite Z.pow_add_r by lia. reflexivity.
Qed.

Lemma iter_shr_1 (p : positive) :
  forall mrs, 0 <= shr_m mrs ->
              shr_m (SpecFloat.iter_pos shr_1 p mrs) = shr_m mrs / 2 ^ Zpos p.
Proof.
  induction p as [p IH|p IH|]; intros mrs Hm; cbn [SpecFloat.iter_pos].
  - assert (H1 : 0 <= shr_m (shr_1 mrs)) by (apply shr_1_nonneg, Hm).
    assert (H2 : 0 <= shr_m (SpecFloat.iter_pos shr_1 p (shr_1 mrs)))
      by (apply (iter_pos_invariant (fun r => 0 <= shr_m r)); auto using shr_1_nonneg).
    rewrite (IH _ H2), (IH _ H1), (shr_1_half _ Hm), pow2_xI.
    assert (Hp : 0 < 2 ^ Zpos p) by (apply Z.pow_pos_nonneg; lia).
    rewrite !Z.div_div by lia. reflexivity.
  - assert (H2 : 0 <= shr_m (SpecFloat.iter_pos shr_1 p mrs))
      by (apply (iter_pos_invariant (fun r => 0 <= shr_m r)); auto using shr_1_nonneg).
    rewrite (IH _ H2), (IH _ Hm), pow2_xO.
    assert (Hp : 0 < 2 ^ Zpos p) by (apply Z.pow_pos_nonneg; lia).
    rewrite Z.div_div by lia. reflexivity.
  - rewrite (shr_1_half _ Hm). reflexivity.
Qed.

Lemma shr_fexp_bound (m e : Z) (l : location) :
  0 <= m -> shr_m (fst (shr_fexp prec emax m e l)) < 2 ^ 53.
Proof.
  intros Hm. unfold shr_fexp, shr.
  pose proof (Zdigits2_upper m Hm) as Hd.
  assert (Hn : Zdigits2 m - 53 <= fexp prec emax (Zdigits2 m + e) - e).
  { unfold fexp, prec. lia. }
  assert (H0 : shr_m (shr_record_of_loc m l) = m) by (destruct l as [|[]]; reflexivity).
  assert (Hdig : 0 <= Zdigits2 m) by (destruct m; simpl; lia).
  destruct (fexp prec emax (Zdigits2 m + e) - e) as [|p|p] eqn:En; cbn [fst].
  - rewrite H0. apply (Z.lt_le_trans _ _ _ Hd). apply Z.pow_le_mono_r; lia.
  - rewrite iter_shr_1 by (rewrite H0; exact Hm). rewrite H0.
    apply Z.div_lt_upper_bound; [apply Z.pow_pos_nonneg; lia |].
    rewrite <- Z.pow_add_r by lia.
    apply (Z.lt_le_trans _ _ _ Hd). apply Z.pow_le_mono_r; lia.
  - rewrite H0. apply (Z.lt_le_trans _ _ _ Hd). apply Z.pow_le_mono_r; lia.
Qed.

Lemma binary_round_aux_bounded (s : bool) (m e : Z) (l : location)
      (s' : bool) (m' : positive) (e' : Z) :
  0 <= m ->
  binary_round_aux prec emax s m e l = S754_finite s' m' e' ->
  Zpos m' < 2 ^ 53.
Proof.
  intros Hm. unfold binary_round_aux.
  pose proof (shr_fexp_nonneg m e l Hm) as H1.
  destruct (shr_fexp prec emax m e l) as [mrs1 e1]; cbn [fst] in H1.
  pose proof (shr_fexp_bound
                (round_nearest_even (shr_m mrs1) (loc_of_shr_record mrs1)) e1 loc_Exact
                (round_nearest_even_nonneg _ _ H1)) as H2.
  destruct (shr_fexp prec emax (round_nearest_even _ _) e1 loc_Exact) as [mrs2 e2];
    cbn [fst] in H2.
  destruct (shr_m mrs2) as [|p|p]; try discriminate.
  destruct (e2 <=? emax - prec); [| discriminate].
  intros [= _ <- _]. exact H2.
Qed.

Lemma mul_bounded (x y : float64) (s : bool) (m : positive) (e : Z) :
  mul x y = S754_finite s m e -> Zpos m < 2 ^ 53.
Proof.
  destruct x as [sx|sx| |sx mx ex], y as [sy|sy| |sy my ey]; cbn [mul SFmul];
    try discriminate.
  apply binary_round_aux_bounded. lia.
Qed.

Lemma trunc_below_100 (m M : positive) (e : Z) :
  Zpos M = 100 * 2 ^ 46 ->
  Zpos m < 2 ^ 53 ->
  ltb (S754_finite false m e) (S754_finite false M (-46)) = true ->
  0 <= trunc (S754_finite false m e) < 100.
Proof.
  intros HM Hm. unfold ltb, SFltb, SFcompare, trunc.
  destruct (e ?= -46) eqn:C.
  - apply Z.compare_eq in C. subst e.
    destruct (Pos.compare_cont Eq m M) eqn:P; try discriminate.
    intros _. apply (Pos.compare_lt_iff m M) in P.
    apply Pos2Z.pos_lt_pos in P. rewrite HM in P.
    change (0 <=? -46) with false. cbv iota.
    rewrite Z.shiftr_div_pow2 by lia. change (- -46) with 46.
    assert (HK : 0 < 2 ^ 46) by reflexivity.
    revert P HK. generalize (2 ^ 46). intros K P HK. split.
    + apply Z.div_pos; lia.
    + apply Z.div_lt_upper_bound; lia.
  - intros _. rewrite Z.compare_lt_iff in C.
    assert (E0 : (0 <=? e) = false) by (apply Z.leb_gt; lia). rewrite E0.
    rewrite Z.shiftr_div_pow2 by lia.
    assert (Hp : 2 ^ 47 <= 2 ^ (- e)) by (apply Z.pow_le_mono_r; lia).
    assert (H53 : 2 ^ 53 = 2 ^ 47 * 64) by reflexivity.
    assert (HK : 0 < 2 ^ 47) by reflexivity.
    rewrite H53 in Hm. revert Hm Hp HK.
    generalize (2 ^ 47) (2 ^ (- e)). intros K L Hm Hp HK. split.
    + apply Z.div_pos; lia.
    + apply Z.div_lt_upper_bound; lia.
  - discriminate.
Qed.

Lemma clamp_to_int_range (d : float64) :
  (forall s m e, d = S754_finite s m e -> Zpos m < 2 ^ 53) ->
  0 <= Items.to_int (Items.max_0 (Items.min_100 d)) <= 100.
Proof.
  intros Hd. unfold Items.min_100.
  change (of_Z 100) with (S754_finite false 7036874417766400 (-46)).
  destruct (ltb d (S754_finite false 7036874417766400 (-46))) eqn:L.
  - unfold Items.max_0. destruct (ltb zero d) eqn:P; [| simpl; lia].
    destruct d as [s|s| |s m e]; try discriminate P.
    + destruct s; discriminate.
    + destruct s; [discriminate P |].
      pose proof (trunc_below_100 m _ e eq_refl (Hd _ _ _ eq_refl) L) as T.
      unfold Items.to_int. lia.
  - simpl. lia.
Qed.

(** X15. Whenever [calculate_discount] returns a number it is a
    percentage: an integer between 0 and 100, for all operands, the
    infinities and NaN among them.  The same holds of the spider's
    [_calculate_discount]. *)
Theorem calculate_discount_in_range (o c : option float64) (z : Z) :
  Items.calculate_discount o c = Some z
  \/ AlkotekaSpider._calculate_discount o c = Some z ->
  0 <= z <= 100.
Proof.
  assert (R : forall x y : float64,
             0 <= Items.to_int (Items.max_0 (Items.min_100 (mul (div (sub x y) x) (of_Z 100))))
             <= 100).
  { intros x y. apply clamp_to_int_range. intros s m e. apply mul_bounded. }
  unfold Items.calculate_discount, AlkotekaSpider._calculate_discount.
  destruct o as [o|]; [| intros [E|E]; discriminate E].
  destruct (eqb o zero); [intros [E|E]; discriminate E |].
  destruct c as [c|]; [| intros [E|E]; discriminate E].
  destruct (eqb c zero); [intros [E|E]; discriminate E |].
  destruct (leb o zero); [intros [E|E]; discriminate E |].
  cbv zeta. intros [E|E]; injection E as <-; apply R.
Qed.

Lemma calculate_discount_in_range_witness :
  Items.calculate_discount (Some (of_Z 1000)) (Some (of_Z 710)) = Some 28
  /\ 0 <= 28 <= 100.
Proof.
  assert (E : Items.calculate_discount (Some (of_Z 1000)) (Some (of_Z 710)) = Some 28)
    by (vm_compute; reflexivity).
  split; [exact E |].
  apply (calculate_discount_in_range (Some (of_Z 1000)) (Some (of_Z 710)) 28).
  left. exact E.
Defined.

(** ** Variant labels *)

Lemma rstrip_app_spaces (a b : list N) :
  all_space b = true -> rstrip (a ++ b) = rstrip a.
Proof.
  intros A. unfold rstrip. rewrite rev_app_distr, lstrip_app, forallb_space_rev, A.
  reflexivity.
Qed.

Lemma lstrip_length (s : list N) : (length (lstrip s) <= length s)%nat.
Proof.
  induction s as [|c t IH]; cbn [lstrip length]; [lia |].
  destruct (is_space c); cbn [length]; lia.
Qed.

Lemma rstrip_length (s : list N) : (length (rstrip s) <= length s)%nat.
Proof.
  unfold rstrip. rewrite length_rev, <- (length_rev s). apply lstrip_length.
Qed.

Lemma lstrip_idem (s : list N) : lstrip (lstrip s) = lstrip s.
Proof.
  induction s as [|c t IH]; [reflexivity |]. cbn [lstrip].
  destruct (is_space c) eqn:Sc; [exact IH |]. cbn [lstrip]. rewrite Sc. reflexivity.
Qed.

Lemma rstrip_idem (s : list N) : rstrip (rstrip s) = rstrip s.
Proof.
  induction s as [|c t IH]; [reflexivity |]. rewrite (rstrip_cons c t).
  destruct (all_space (c :: t)) eqn:A; [reflexivity |].
  rewrite rstrip_cons. cbn [forallb] in *. rewrite forallb_rstrip, A, IH. reflexivity.
Qed.

Lemma strip_idem (s : list N) : strip (strip s) = strip s.
Proof.
  unfold strip. rewrite lstrip_rstrip, lstrip_idem, rstrip_idem. reflexivity.
Qed.

Lemma strip_lstrip (s : list N) : lstrip (strip s) = strip s.
Proof. unfold strip. rewrite lstrip_rstrip, lstrip_idem. reflexivity. Qed.

Lemma strip_rstrip (s : list N) : rstrip (strip s) = strip s.
Proof. unfold strip. apply rstrip_idem. Qed.

Lemma starts_with_split (p s : list N) :
  starts_with p s = true -> s = p ++ skipn (length p) s.
Proof.
  revert s. induction p as [|x p IH]; intros s; [reflexivity |].
  destruct s as [|y s]; cbn [starts_with]; [discriminate |].
  intros E. apply andb_true_iff in E. destruct E as [E1 E2].
  apply N.eqb_eq in E1. subst y. cbn [length skipn app]. f_equal. apply IH, E2.
Qed.

Lemma starts_with_refl (p : list N) : starts_with p p = true.
Proof.
  induction p as [|x p IH]; [reflexivity |]. cbn [starts_with].
  rewrite N.eqb_refl. exact IH.
Qed.

Lemma starts_with_contains (p s : list N) :
  starts_with p s = true -> contains p s = true.
Proof. intros E. destruct s; cbn [contains]; rewrite E; reflexivity. Qed.

Lemma contains_tail (p : list N) (c : N) (s : list N) :
  contains p s = true -> contains p (c :: s) = true.
Proof. intros E. cbn [contains]. rewrite E. apply orb_true_r. Qed.

Lemma contains_skipn (p : list N) (k : nat) :
  forall s, contains p (skipn k s) = true -> contains p s = true.
Proof.
  induction k as [|k IH]; intros s; [exact (fun E => E) |].
  destruct s as [|c s]; [exact (fun E => E) |]. cbn [skipn].
  intros E. apply contains_tail, IH, E.
Qed.

Lemma contains_lstrip (p s : list N) :
  contains p (lstrip s) = true -> contains p s = true.
Proof.
  induction s as [|c t IH]; [exact (fun E => E) |]. cbn [lstrip].
  destruct (is_space c); [| exact (fun E => E)].
  intros E. apply contains_tail, IH, E.
Qed.

(** On a stripped string the first size pattern matches the bare size
    tokens and nothing else. *)
Lemma match_bare_size_stripped (n : list N) :
  strip n = n ->
  AlkotekaSpider.match_bare_size n = true <-> In n AlkotekaSpider.size_tokens.
Proof.
  intros Hn. unfold AlkotekaSpider.match_bare_size.
  assert (L : lstrip n = n) by (rewrite <- Hn; apply strip_lstrip).
  assert (R : rstrip n = n) by (rewrite <- Hn; apply strip_rstrip).
  rewrite L, existsb_exists. split.
  - intros (tok & Hin & E). apply andb_true_iff in E. destruct E as [E1 E2].
    pose proof (starts_with_split _ _ E1) as S.
    assert (Z : skipn (length tok) n = []).
    { pose proof (rstrip_length tok) as Len.
      rewrite <- (rstrip_app_spaces tok _ E2), <- S, R in Len.
      rewrite S in Len at 1. rewrite length_app in Len.
      destruct (skipn (length tok) n); [reflexivity | cbn [length] in Len; lia]. }
    rewrite Z, app_nil_r in S. subst n. exact Hin.
  - intros Hin. exists n. split; [exact Hin |].
    rewrite starts_with_refl, skipn_all. reflexivity.
Qed.

(** The second and third size patterns match only strings with [size]
    in them. *)
Lemma size_patterns_contain_size (n : list N) :
  AlkotekaSpider.match_size_then_token n = true
  \/ AlkotekaSpider.match_token_then_size n = true ->
  contains (lit "size") n = true.
Proof.
  intros [E|E].
  - unfold AlkotekaSpider.match_size_then_token in E.
    apply andb_true_iff in E. destruct E as [E _].
    apply starts_with_contains, E.
  - unfold AlkotekaSpider.match_token_then_size in E.
    apply existsb_exists in E. destruct E as (tok & _ & E).
    apply andb_true_iff in E. destruct E as [_ E].
    apply starts_with_contains, contains_lstrip, contains_skipn in E. exact E.
Qed.

Lemma existsb_false_iff {A : Type} (f : A -> bool) (l : list A) :
  existsb f l = false <-> (forall x, In x l -> f x = false).
Proof.
  induction l as [|a l IH]; cbn [existsb In].
  - split; [intros _ x [] | reflexivity].
  - rewrite orb_false_iff, IH. split.
    + intros [E1 E2] x [<-|Hx]; [exact E1 | exact (E2 x Hx)].
    + intros F. split; [apply F; left; reflexivity | intros x Hx; apply F; right; exact Hx].
Qed.

Lemma existsb_str_eqb (n : str) (l : list str) :
  existsb (str_eqb n) l = false <-> ~ In n l.
Proof.
  rewrite existsb_false_iff. split.
  - intros F Hin. specialize (F n Hin). rewrite str_eqb_refl in F. discriminate.
  - intros N x Hx. apply str_eqb_neq. intros ->. exact (N Hx).
Qed.

Section VariantLabels.
Import AlkotekaSpider.
Context `{Builtins}.

(** X16. [_validate_variant] accepts a label exactly when it is not
    empty and its normal form (lower case, stripped) is not empty, is at
    most 100 characters long, contains none of the keywords, is none of
    the bare size tokens [xs], [s], [m], [l], [xl], [xxl] and none of
    the placeholders.  The second and third size patterns never decide:
    whatever they match contains the keyword [size]. *)
Theorem validate_variant_spec (variant : str) :
  _validate_variant variant = true
  <-> variant <> []
      /\ strip (str_lower variant) <> []
      /\ (length (strip (str_lower variant)) <= 100)%nat
      /\ (forall keyword, In keyword invalid_keywords ->
            contains keyword (strip (str_lower variant)) = false)
      /\ ~ In (strip (str_lower variant)) size_tokens
      /\ ~ In (strip (str_lower variant)) placeholders.
Proof.
  unfold _validate_variant.
  set (n := strip (str_lower variant)).
  assert (Hn : strip n = n) by apply strip_idem.
  pose proof (match_bare_size_stripped n Hn) as B.
  pose proof (size_patterns_contain_size n) as P.
  pose proof (existsb_false_iff (fun keyword => contains keyword n) invalid_keywords) as K.
  pose proof (existsb_str_eqb n placeholders) as Q.
  assert (S : In (lit "size") invalid_keywords) by (right; left; reflexivity).
  destruct variant as [|c t]; cbn [truthy negb].
  { split; [discriminate | intros (F & _); congruence]. }
  destruct n as [|c' t'] eqn:En; cbn [truthy negb orb].
  { split; [discriminate | intros (_ & F & _); congruence]. }
  rewrite <- En in *.
  destruct (100 <? length n)%nat eqn:Len.
  { apply Nat.ltb_lt in Len. split; [discriminate | intros (_ & _ & F & _); lia]. }
  apply Nat.ltb_ge in Len.
  destruct (existsb (fun keyword => contains keyword n) invalid_keywords) eqn:Ek.
  { split; [discriminate |]. intros (_ & _ & _ & F & _).
    apply K in F. congruence. }
  pose proof (proj1 K eq_refl) as Kn.
  destruct (match_bare_size n) eqn:Eb.
  { split; [discriminate |]. intros (_ & _ & _ & _ & F & _).
    exfalso. apply F, B. reflexivity. }
  assert (NB : ~ In n size_tokens) by (intros I; apply B in I; discriminate I).
  destruct (match_size_then_token n) eqn:E2.
  { rewrite (Kn _ S) in P. discriminate P. left. reflexivity. }
  destruct (match_token_then_size n) eqn:E3.
  { rewrite (Kn _ S) in P. discriminate P. right. reflexivity. }
  cbn [orb].
  destruct (existsb (str_eqb n) placeholders) eqn:Ep.
  { split; [discriminate |]. intros (_ & _ & _ & _ & _ & F).
    apply Q in F. congruence. }
  split; [intros _ | reflexivity].
  repeat split; try assumption; try discriminate.
  - rewrite En. discriminate.
  - apply Q. reflexivity.
Qed.

Lemma dedup_from_sublist (variants : list str) :
  forall seen, sublist (dedup_from seen variants) variants.
Proof.
  induction variants as [|v t IH]; intros seen; cbn [dedup_from]; [constructor |].
  destruct (existsb (str_eqb (strip (str_lower v))) seen);
    [apply sublist_cons | apply sublist_skip]; apply IH.
Qed.

Lemma dedup_from_fresh (variants : list str) :
  forall seen x,
    In x (List.map (fun v => strip (str_lower v)) (dedup_from seen variants)) ->
    ~ In x seen.
Proof.
  induction variants as [|v t IH]; intros seen x; cbn [dedup_from]; [intros [] |].
  destruct (existsb (str_eqb (strip (str_lower v))) seen) eqn:E; [apply IH |].
  cbn [List.map In]. intros [<-|Hx].
  - apply existsb_str_eqb, E.
  - intros Hs. apply (IH _ _ Hx). right. exact Hs.
Qed.

Lemma dedup_from_distinct (variants : list str) :
  forall seen,
    List.NoDup (List.map (fun v => strip (str_lower v)) (dedup_from seen variants)).
Proof.
  induction variants as [|v t IH]; intros seen; cbn [dedup_from]; [constructor |].
  destruct (existsb (str_eqb (strip (str_lower v))) seen); [apply IH |].
  cbn [List.map]. constructor; [| apply IH].
  intros Hx. apply (dedup_from_fresh _ _ _ Hx). left. reflexivity.
Qed.

Lemma dedup_from_covers (variants : list str) :
  forall seen v,
    In v variants ->
    In (strip (str_lower v)) seen
    \/ In (strip (str_lower v))
          (List.map (fun v => strip (str_lower v)) (dedup_from seen variants)).
Proof.
  induction variants as [|a t IH]; intros seen v; cbn [In dedup_from]; [intros [] |].
  destruct (existsb (str_eqb (strip (str_lower a))) seen) eqn:E.
  - intros [<-|Hv]; [| apply IH, Hv].
    left. apply existsb_exists in E. destruct E as (x & I & E).
    apply str_eqb_eq in E. subst x. exact I.
  - cbn [List.map In]. intros [<-|Hv]; [right; left; reflexivity |].
    destruct (IH (strip (str_lower a) :: seen) v Hv) as [[<-|I]|I].
    + right. left. reflexivity.
    + left. exact I.
    + right. right. exact I.
Qed.

(** X17. [_deduplicate_variants] keeps, in order, the first label of
    each normal form (lower case, stripped): the result is a
    subsequence of the input that starts with its first label, no two
    kept labels have the same normal form, and the normal form of every
    input label is that of a kept one. *)
Theorem deduplicate_variants_spec (variants : list str) :
  sublist (_deduplicate_variants variants) variants
  /\ List.NoDup (List.map (fun v => strip (str_lower v)) (_deduplicate_variants variants))
  /\ (forall v, In v variants ->
        exists kept, In kept (_deduplicate_variants variants)
                     /\ strip (str_lower kept) = strip (str_lower v))
  /\ hd_error (_deduplicate_variants variants) = hd_error variants.
Proof.
  unfold _deduplicate_variants. split; [apply dedup_from_sublist |].
  split; [apply dedup_from_distinct |]. split.
  - intros v Hv. destruct (dedup_from_covers variants [] v Hv) as [[]|I].
    apply in_map_iff in I. destruct I as (kept & E & I). exists kept. split; assumption.
  - destruct variants; reflexivity.
Qed.

Lemma cleaned_where_keep (keep : str -> bool) (texts : list str) :
  Forall (fun v => keep v = true) (cleaned_where keep texts).
Proof.
  unfold cleaned_where. apply List.Forall_forall. intros v Hv.
  apply in_flat_map in Hv. destruct Hv as (t & _ & Hv).
  destruct (truthy (VStr t) && truthy (VStr (strip t))); [| destruct Hv].
  destruct (keep (strip t)) eqn:E; [| destruct Hv].
  destruct Hv as [<-|[]]. exact E.
Qed.

Lemma colors_from_attr_valid (r : response) :
  Forall (fun v => _validate_variant v = true) (colors_from_attr r).
Proof.
  unfold colors_from_attr.
  destruct (data_available_colors r) as [[t|[]]|]; try constructor.
  apply List.Forall_forall. intros v Hv.
  apply in_flat_map in Hv. destruct Hv as (c & _ & Hv).
  destruct c; try destruct Hv.
  destruct (_validate_variant s) eqn:E; [| destruct Hv].
  destruct Hv as [<-|[]]. exact E.
Qed.

Lemma sublist_Forall {A : Type} (P : A -> Prop) (l1 l2 : list A) :
  sublist l1 l2 -> Forall P l2 -> Forall P l1.
Proof.
  intros S F. apply Forall_forall. intros x Hx.
  eapply Forall_forall; [exact F |].
  eapply elem_of_submseteq; [exact Hx | apply sublist_submseteq, S].
Qed.

Lemma volume_variants_valid (r : response) :
  Forall (fun v => _validate_variant v = true) (_extract_volume_variants r).
Proof.
  unfold _extract_volume_variants, _deduplicate_variants.
  eapply sublist_Forall; [apply dedup_from_sublist |].
  apply Forall_app. split; exact (cleaned_where_keep _validate_variant _).
Qed.

Lemma color_variants_valid (r : response) :
  Forall (fun v => _validate_variant v = true) (_extract_color_variants r).
Proof.
  unfold _extract_color_variants, _deduplicate_variants.
  eapply sublist_Forall; [apply dedup_from_sublist |].
  apply Forall_app. split; [| apply Forall_app; split].
  - eapply List.Forall_impl; [| exact (cleaned_where_keep _ _)].
    cbn beta. intros v E. apply andb_true_iff in E. apply E.
  - exact (cleaned_where_keep _validate_variant _).
  - apply colors_from_attr_valid.
Qed.

Lemma filter_all {A : Type} (f : A -> bool) (l : list A) :
  Forall (fun x => f x = true) l -> List.filter f l = l.
Proof.
  induction 1 as [|x t E _ IH]; [reflexivity |]. cbn [List.filter].
  rewrite E, IH. reflexivity.
Qed.

(** X18. Every label that [_extract_volume_variants] and
    [_extract_color_variants] return has already passed
    [_validate_variant], so the last filter of [_detect_variants]
    removes nothing: the markup-derived count is the number of distinct
    labels the two extractors found. *)
Theorem markup_variants_already_valid (r : response) :
  Forall (fun v => _validate_variant v = true) (_extract_volume_variants r)
  /\ Forall (fun v => _validate_variant v = true) (_extract_color_variants r)
  /\ markup_count r
     = Z.of_nat (length (dedup (_extract_volume_variants r ++ _extract_color_variants r))).
Proof.
  split; [apply volume_variants_valid |]. split; [apply color_variants_valid |].
  unfold markup_count. cbv zeta. rewrite filter_all; [reflexivity |].
  eapply sublist_Forall; [apply dedup_sublist |].
  apply Forall_app. split; [apply volume_variants_valid | apply color_variants_valid].
Qed.

End VariantLabels.

(** ** The characteristics mapping *)

Lemma dict_set_new (k : str) (v : value) (d : dict) :
  ~ In k (List.map fst d) -> dict_set k v d = d ++ [(k, v)].
Proof.
  induction d as [|[k' v'] t IH]; cbn [dict_set List.map fst In app]; [reflexivity |].
  intros N. destruct (str_eqb k' k) eqn:E.
  - apply str_eqb_eq in E. tauto.
  - rewrite IH by tauto. reflexivity.
Qed.

Lemma dict_update_fresh (other : dict) :
  forall acc, unique_keys (acc ++ other) -> dict_update acc other = acc ++ other.
Proof.
  unfold dict_update, unique_keys.
  induction other as [|[k v] t IH]; intros acc Hu; cbn [fold_left fst snd].
  - rewrite app_nil_r. reflexivity.
  - rewrite List.map_app in Hu. cbn [List.map fst] in Hu.
    pose proof (List.NoDup_remove_2 _ _ _ Hu) as N.
    rewrite dict_set_new by (intros I; apply N, in_or_app; left; exact I).
    rewrite IH; rewrite <- app_assoc; [reflexivity |].
    rewrite List.map_app. exact Hu.
Qed.

Lemma dict_update_empty (other : dict) :
  unique_keys other -> dict_update [] other = other.
Proof. intros Hu. apply (dict_update_fresh other []). exact Hu. Qed.

Lemma dict_update_Forall (P : str * value -> Prop) (other : dict) :
  forall d, Forall P d -> Forall P other -> Forall P (dict_update d other).
Proof.
  unfold dict_update.
  induction other as [|[k v] t IH]; intros d Hd Ho; cbn [fold_left]; [exact Hd |].
  inversion Ho as [|? ? Hkv Ht]; subst.
  apply IH; [apply dict_set_Forall; assumption | exact Ht].
Qed.

Lemma fold_set_Forall {A : Type} (P : str * value -> Prop)
      (f : dict -> A -> dict) (l : list A) :
  (forall d a, Forall P d -> Forall P (f d a)) ->
  forall d, Forall P d -> Forall P (fold_left f l d).
Proof.
  intros Hf. induction l as [|a t IH]; intros d Hd; cbn [fold_left]; auto.
Qed.

Section CharacteristicsShape.
Import AlkotekaSpider.
Context `{Builtins}.

(** A pair as the structural sources store it. *)
#[local] Abbreviation tidy_pair :=
  (fun kv : str * value =>
     fst kv <> [] /\ strip (fst kv) = fst kv
     /\ exists s, snd kv = VStr s /\ s <> [] /\ strip s = s).

#[local] Abbreviation string_valued :=
  (fun kv : str * value => exists s, snd kv = VStr s).

Lemma add_pair_tidy (chars : dict) (key value : option str) :
  Forall tidy_pair chars -> Forall tidy_pair (add_pair chars key value).
Proof.
  intros Hc. unfold add_pair.
  destruct key as [k|], value as [v|]; try exact Hc.
  destruct (truthy (VStr k) && truthy (VStr v)); [| exact Hc].
  destruct (strip k) as [|c t] eqn:Ek; [exact Hc |].
  destruct (strip v) as [|c' t'] eqn:Ev; [exact Hc |].
  cbn [truthy andb]. apply dict_set_Forall; [exact Hc |]. cbn [fst snd].
  split; [discriminate |]. split; [rewrite <- Ek; apply strip_idem |].
  eexists. split; [reflexivity |]. split; [discriminate |].
  rewrite <- Ev. apply strip_idem.
Qed.

Lemma add_pair_unique (chars : dict) (key value : option str) :
  unique_keys chars -> unique_keys (add_pair chars key value).
Proof.
  intros Hc. unfold add_pair.
  destruct key as [k|], value as [v|]; try exact Hc.
  destruct (_ && _); [| exact Hc].
  destruct (_ && _); [apply dict_set_unique, Hc | exact Hc].
Qed.

Lemma table_row_step (P : dict -> Prop) (chars : dict) (row : table_row) :
  (forall key value, P (add_pair chars key value)) ->
  P (if negb (text_truthy (row_key row)) then
       match row_cells row with
       | c0 :: _ :: _ =>
         add_pair chars (Some c0) (Some (List.last (row_cells row) c0))
       | _ => add_pair chars (row_key row) (row_value row)
       end
     else add_pair chars (row_key row) (row_value row)).
Proof.
  intros Hp. destruct (negb _); [| apply Hp].
  destruct (row_cells row) as [|c0 [|c1 t]]; apply Hp.
Qed.

Lemma structural_sources (r : response) :
  (Forall tidy_pair (_parse_table_characteristics r)
   /\ unique_keys (_parse_table_characteristics r))
  /\ (Forall tidy_pair (_parse_list_characteristics r)
      /\ unique_keys (_parse_list_characteristics r))
  /\ (Forall tidy_pair (_parse_div_characteristics r)
      /\ unique_keys (_parse_div_characteristics r)).
Proof.
  unfold _parse_table_characteristics, _parse_list_characteristics,
    _parse_div_characteristics.
  repeat split.
  - apply fold_set_Forall; [| constructor]. intros d row Hd. cbv zeta.
    apply (table_row_step (Forall tidy_pair)). intros. apply add_pair_tidy, Hd.
  - apply fold_set_unique; [| constructor]. intros d row Hd. cbv zeta.
    apply (table_row_step unique_keys). intros. apply add_pair_unique, Hd.
  - apply fold_set_Forall; [| constructor]. intros. apply add_pair_tidy. assumption.
  - apply fold_set_unique; [| constructor]. intros. apply add_pair_unique. assumption.
  - apply fold_set_Forall; [| constructor]. intros. apply add_pair_tidy. assumption.
  - apply fold_set_unique; [| constructor]. intros. apply add_pair_unique. assumption.
Qed.

Lemma structural_first_source (r : response) :
  structural_characteristics r
  = match _parse_table_characteristics r with
    | _ :: _ => _parse_table_characteristics r
    | [] =>
      match _parse_list_characteristics r with
      | _ :: _ => _parse_list_characteristics r
      | [] => _parse_div_characteristics r
      end
    end.
Proof.
  destruct (structural_sources r) as ((_ & Ut) & (_ & Ul) & (_ & Ud)).
  unfold structural_characteristics. cbv zeta.
  rewrite (dict_update_empty _ Ut).
  destruct (_parse_table_characteristics r) as [|kv t]; [| reflexivity].
  cbn [is_empty]. rewrite (dict_update_empty _ Ul).
  destruct (_parse_list_characteristics r) as [|kv t]; [| reflexivity].
  cbn [is_empty]. apply dict_update_empty, Ud.
Qed.

Lemma jsonld_string_valued (r : response) :
  Forall string_valued (_extract_jsonld_characteristics r).
Proof.
  assert (P : forall chars prop, Forall string_valued chars ->
                                 Forall string_valued (add_property chars prop)).
  { intros chars prop Hc. unfold add_property. destruct prop; try exact Hc.
    destruct (_ && _); [| exact Hc].
    apply dict_set_Forall; [exact Hc | eexists; reflexivity]. }
  assert (E : forall chars kv, Forall string_valued chars ->
                               Forall string_valued (add_plain_entry chars kv)).
  { intros chars kv Hc. unfold add_plain_entry. destruct (negb _); [| exact Hc].
    destruct (snd kv); try exact Hc. destruct (_ <? _)%nat; [| exact Hc].
    apply dict_set_Forall; [exact Hc | eexists; reflexivity]. }
  assert (D : forall chars chars' data,
             Forall string_valued chars ->
             jsonld_document chars data = Some chars' -> Forall string_valued chars').
  { intros chars chars' data Hc. unfold jsonld_document.
    destruct data; try (intros [= <-]; exact Hc).
    destruct (dict_has _ _).
    - destruct (iterate _) as [props|]; [| discriminate]. intros [= <-].
      apply fold_set_Forall; [exact E |]. apply fold_set_Forall; [exact P | exact Hc].
    - intros [= <-]. apply fold_set_Forall; [exact E | exact Hc]. }
  unfold _extract_jsonld_characteristics.
  assert (L : forall scripts chars, Forall string_valued chars ->
                Forall string_valued (jsonld_scripts_loop chars scripts)).
  { induction scripts as [|[text|data] rest IH]; intros chars Hc;
      cbn [jsonld_scripts_loop]; auto.
    destruct (jsonld_document chars data) as [chars'|] eqn:Ed; [| exact Hc].
    apply IH. eapply D; eassumption. }
  apply L. constructor.
Qed.

(** X19. Of the three structural sources of [_extract_characteristics]
    only the first that yields a pair is used: the table rows, else the
    specification lists, else the attribute containers.  Each pair it
    stores has a non-empty key and a non-empty string value, both
    without whitespace at either end.  With the JSON-LD entries merged
    in, every value of the result is a string and every key occurs
    once. *)
Theorem characteristics_shape (r : response) :
  structural_characteristics r
  = match _parse_table_characteristics r with
    | _ :: _ => _parse_table_characteristics r
    | [] =>
      match _parse_list_characteristics r with
      | _ :: _ => _parse_list_characteristics r
      | [] => _parse_div_characteristics r
      end
    end
  /\ Forall (fun kv => fst kv <> [] /\ strip (fst kv) = fst kv
                       /\ exists s, snd kv = VStr s /\ s <> [] /\ strip s = s)
            (structural_characteristics r)
  /\ Forall (fun kv => exists s, snd kv = VStr s) (_extract_characteristics r)
  /\ unique_keys (_extract_characteristics r).
Proof.
  destruct (structural_sources r) as ((Tt & Ut) & (Tl & Ul) & (Td & Ud)).
  assert (S : Forall tidy_pair (structural_characteristics r)
              /\ unique_keys (structural_characteristics r)).
  { rewrite structural_first_source.
    destruct (_parse_table_characteristics r); [| split; assumption].
    destruct (_parse_list_characteristics r); split; assumption. }
  split; [apply structural_first_source |]. split; [apply S |].
  change (_extract_characteristics r)
    with (dict_update (structural_characteristics r) (_extract_jsonld_characteristics r)).
  split.
  - apply dict_update_Forall; [| apply jsonld_string_valued].
    eapply List.Forall_impl; [| apply S]. cbn beta.
    intros kv (_ & _ & s & E & _). exists s. exact E.
  - unfold dict_update. apply fold_set_unique; [| apply S].
    intros d a Hd. apply dict_set_unique, Hd.
Qed.

End CharacteristicsShape.

(** ** What the spider builds from a page *)

Lemma rstrip_nonspace (c : N) (t : list N) :
  is_space c = false -> rstrip (c :: t) = c :: rstrip t.
Proof. intros Sc. rewrite rstrip_cons. cbn [forallb]. rewrite Sc. reflexivity. Qed.

Lemma starts_with_app (p r : list N) : starts_with p (p ++ r) = true.
Proof.
  induction p as [|x p IH]; [reflexivity |]. cbn [starts_with app].
  rewrite N.eqb_refl. exact IH.
Qed.

Section PageUrls.
Import AlkotekaSpider.
Variable urljoin : str -> str.

Lemma absolute_fixed (n : str) :
  absolute_url n = true -> strip n = n -> _normalize_url urljoin n = Some n.
Proof.
  intros A S. unfold _normalize_url. cbv zeta. rewrite S.
  fold (absolute_url n). rewrite A.
  destruct n; [discriminate A | reflexivity].
Qed.

(** X20. [_normalize_url] returns nothing for the empty string only.
    A URL that, stripped, starts with [http://] or [https://] is
    returned stripped, and one that starts with [//] gets [https:] in
    front; such a result names its scheme, has no whitespace at either
    end and is returned as it is when normalised again.  A URL made of
    whitespace only is not empty: it reaches [urljoin] as the empty
    string. *)
Theorem normalize_url_spec (url : str) :
  (_normalize_url urljoin url = None <-> url = [])
  /\ (url <> [] ->
      absolute_url (strip url) || starts_with (lit "//") (strip url) = true ->
      exists n,
        _normalize_url urljoin url = Some n
        /\ n = (if absolute_url (strip url) then strip url else lit "https:" ++ strip url)
        /\ absolute_url n = true /\ strip n = n
        /\ _normalize_url urljoin n = Some n)
  /\ (url <> [] -> forallb is_space url = true ->
      _normalize_url urljoin url = Some (urljoin [])).
Proof.
  split; [| split].
  - unfold _normalize_url. destruct url as [|c t]; cbn [truthy negb]; [tauto |].
    cbv zeta. split; [| discriminate].
    destruct (_ || _); [discriminate |]. destruct (starts_with _ _); discriminate.
  - intros Hne Hs.
    assert (E : _normalize_url urljoin url
                = Some (if absolute_url (strip url) then strip url
                        else lit "https:" ++ strip url)).
    { unfold _normalize_url. destruct url as [|c t]; [congruence |].
      cbn [truthy negb]. cbv zeta. fold (absolute_url (strip (c :: t))).
      destruct (absolute_url (strip (c :: t))); [reflexivity |].
      cbn [orb] in Hs. rewrite Hs. reflexivity. }
    eexists. split; [exact E |]. split; [reflexivity |].
    destruct (absolute_url (strip url)) eqn:A.
    + split; [exact A |]. split; [apply strip_idem |].
      apply absolute_fixed; [exact A | apply strip_idem].
    + cbn [orb] in Hs. pose proof (starts_with_split _ _ Hs) as S.
      set (u := strip url) in *.
      assert (R : rstrip u = u) by apply strip_rstrip.
      assert (A' : absolute_url (lit "https:" ++ u) = true).
      { rewrite S. unfold absolute_url.
        change (lit "https:" ++ lit "//" ++ skipn (length (lit "//")) u)
          with (lit "https://" ++ skipn (length (lit "//")) u).
        rewrite (starts_with_app (lit "https://")). apply orb_true_r. }
      assert (S' : strip (lit "https:" ++ u) = lit "https:" ++ u).
      { change (lit "https:") with [104%N; 116%N; 116%N; 112%N; 115%N; 58%N].
        cbn [app]. unfold strip. cbn [lstrip].
        change (is_space 104%N) with false. cbv iota.
        rewrite !rstrip_nonspace by reflexivity. rewrite R. reflexivity. }
      split; [exact A' |]. split; [exact S' |]. apply absolute_fixed; assumption.
  - intros Hne Hs. unfold _normalize_url.
    destruct url as [|c t]; [congruence |]. cbn [truthy negb]. cbv zeta.
    rewrite (proj2 (strip_empty_iff (c :: t)) Hs). reflexivity.
Qed.

Lemma normalize_each_from (images : list str) :
  forall state,
    List.NoDup (fst state) ->
    (forall x, In x (snd state) <-> In x (fst state)) ->
    List.NoDup (fst (fold_left (normalize_step urljoin) images state))
    /\ (forall u, In u (fst (fold_left (normalize_step urljoin) images state))
                  <-> In u (fst state)
                      \/ (u <> [] /\ exists img, In img images
                                                 /\ _normalize_url urljoin img = Some u)).
Proof.
  induction images as [|img rest IH]; intros state Hn Hs.
  - cbn [fold_left]. split; [exact Hn |]. intros u. split; [tauto |].
    intros [I|(_ & img & [] & _)]. exact I.
  - cbn [fold_left].
    assert (Hkeep :
              (forall u, _normalize_url urljoin img = Some u ->
                         u = [] \/ In u (fst state)) ->
              List.NoDup (fst (fold_left (normalize_step urljoin) rest state))
              /\ (forall u, In u (fst (fold_left (normalize_step urljoin) rest state))
                            <-> In u (fst state)
                                \/ (u <> [] /\ exists i, In i (img :: rest)
                                                         /\ _normalize_url urljoin i = Some u))).
    { intros Hold. destruct (IH state Hn Hs) as [N1 I1]. split; [exact N1 |].
      intros u. rewrite (I1 u). split.
      - intros [I|(Hu & i & Hi & E)]; [left; exact I | right].
        split; [exact Hu |]. exists i. split; [right; exact Hi | exact E].
      - intros [I|(Hu & i & [<-|Hi] & E)]; [left; exact I | |].
        + destruct (Hold u E) as [->|I]; [congruence | left; exact I].
        + right. split; [exact Hu |]. exists i. split; assumption. }
    assert (C : (normalize_step urljoin state img = state
                 /\ forall u, _normalize_url urljoin img = Some u ->
                              u = [] \/ In u (fst state))
                \/ exists n,
                    normalize_step urljoin state img
                    = (fst state ++ [n], n :: snd state)
                    /\ _normalize_url urljoin img = Some n
                    /\ n <> [] /\ ~ In n (fst state)).
    { unfold normalize_step.
      destruct (truthy (VStr img)) eqn:Ti.
      2:{ left. split; [reflexivity |]. intros u E. unfold _normalize_url in E.
          rewrite Ti in E. discriminate E. }
      destruct (_normalize_url urljoin img) as [n|] eqn:En.
      2:{ left. split; [reflexivity |]. intros u E. discriminate E. }
      destruct (truthy (VStr n)) eqn:Tn.
      2:{ left. split; [reflexivity |]. intros u [= <-]. left.
          destruct n; [reflexivity | discriminate Tn]. }
      destruct (existsb (str_eqb n) (snd state)) eqn:Ex.
      { left. split; [reflexivity |]. intros u [= <-]. right.
        apply existsb_exists in Ex. destruct Ex as (x & Hx & E).
        apply str_eqb_eq in E. subst x. apply Hs, Hx. }
      right. exists n. split; [reflexivity |]. split; [reflexivity |].
      split; [destruct n; [discriminate Tn | discriminate] |].
      intros I. apply Hs in I. apply existsb_str_eqb in Ex. exact (Ex I). }
    destruct C as [[-> Hold]|(n & -> & En & Tn & Nn)]; [apply Hkeep, Hold |].
    destruct (IH (fst state ++ [n], n :: snd state)) as [N1 I1].
    + cbn [fst]. apply (Permutation_NoDup (Permutation_cons_append (fst state) n)).
      constructor; assumption.
    + cbn [fst snd]. intros x. rewrite in_app_iff. cbn [In]. rewrite (Hs x). tauto.
    + split; [exact N1 |]. intros u. rewrite (I1 u). cbn [fst].
      rewrite in_app_iff. cbn [In]. split.
      * intros [[I|[<-|[]]]|(Hu & i & Hi & E)].
        -- left. exact I.
        -- right. split; [exact Tn |].
           exists img. split; [left; reflexivity | exact En].
        -- right. split; [exact Hu |]. exists i. split; [right; exact Hi | exact E].
      * intros [I|(Hu & i & [<-|Hi] & E)].
        -- left. left. exact I.
        -- left. right. left. congruence.
        -- right. split; [exact Hu |]. exists i. split; assumption.
Qed.

Lemma normalize_each_spec (images : list str) :
  List.NoDup (fst (normalize_each urljoin images))
  /\ (forall u, In u (fst (normalize_each urljoin images))
                <-> u <> [] /\ exists img, In img images
                                           /\ _normalize_url urljoin img = Some u).
Proof.
  destruct (normalize_each_from images ([], [])) as [N1 I1];
    [constructor | reflexivity |].
  split; [exact N1 |]. intros u.
  unfold normalize_each. rewrite (I1 u). cbn [fst In]. tauto.
Qed.

Lemma sorted_normalized (images : list str) :
  Sorted str_le (sorted (fst (normalize_each urljoin images)))
  /\ List.NoDup (sorted (fst (normalize_each urljoin images)))
  /\ (forall u, In u (sorted (fst (normalize_each urljoin images)))
                <-> u <> [] /\ exists img, In img images
                                           /\ _normalize_url urljoin img = Some u).
Proof.
  destruct (normalize_each_spec images) as [N1 I1].
  pose proof (sorted_perm (fst (normalize_each urljoin images))) as P.
  split; [apply sorted_ordered |]. split.
  - apply (Permutation_NoDup (Permutation_sym P)), N1.
  - intros u. rewrite <- (I1 u). split; apply Permutation_in;
      [exact P | apply Permutation_sym, P].
Qed.

(** X21. [_extract_gallery_images] and [_extract_360_view] return
    their URLs in ascending order and each once; the result holds
    exactly the non-empty normalised forms of the images of the source
    used (the first query with a result; for the gallery, failing all
    four, the images of the JSON scripts). *)
Theorem gallery_images_sorted_distinct
        (gallery carousel class_gallery class_product from_json : list str)
        (data_360 view_img typed_img : list str) :
  (Sorted str_le
     (_extract_gallery_images urljoin gallery carousel class_gallery class_product from_json)
   /\ List.NoDup
        (_extract_gallery_images urljoin gallery carousel class_gallery class_product
                                 from_json)
   /\ forall u,
       In u (_extract_gallery_images urljoin gallery carousel class_gallery class_product
                                     from_json)
       <-> u <> []
           /\ exists img,
               In img (gallery_sources gallery carousel class_gallery class_product from_json)
               /\ _normalize_url urljoin img = Some u)
  /\ (Sorted str_le (_extract_360_view urljoin data_360 view_img typed_img)
      /\ List.NoDup (_extract_360_view urljoin data_360 view_img typed_img)
      /\ forall u,
          In u (_extract_360_view urljoin data_360 view_img typed_img)
          <-> u <> []
              /\ exists img,
                  In img (view_360_sources data_360 view_img typed_img)
                  /\ _normalize_url urljoin img = Some u).
Proof.
  split; [apply sorted_normalized |].
  assert (E : _extract_360_view urljoin data_360 view_img typed_img
              = sorted (fst (normalize_each urljoin
                               (view_360_sources data_360 view_img typed_img)))).
  { unfold _extract_360_view. cbv zeta.
    destruct (fst (normalize_each urljoin _)); reflexivity. }
  rewrite E. apply sorted_normalized.
Qed.

End PageUrls.

(** ** Nested records of the spider *)

Lemma sub_self (c : float64) : is_finite c = true -> exists s, sub c c = S754_zero s.
Proof.
  destruct c as [s|s| |s m e]; try discriminate; intros _.
  - destruct s; eexists; reflexivity.
  - unfold sub, SFsub. rewrite Z.sub_diag. eexists. reflexivity.
Qed.

Lemma equal_prices_no_discount (c : float64) (d : Z) :
  is_finite c = true ->
  AlkotekaSpider._calculate_discount (Some c) (Some c) = Some d -> d = 0.
Proof.
  intros F. unfold AlkotekaSpider._calculate_discount.
  destruct (eqb c zero) eqn:Z; [discriminate |].
  destruct (leb c zero); [discriminate |]. cbv zeta.
  destruct (sub_self c F) as [s ->].
  destruct c as [s'|s'| |s' m e]; try discriminate F.
  - destruct s'; discriminate Z.
  - intros [= <-]. destruct s, s'; reflexivity.
Qed.

Lemma discount_between (o c : option float64) (d : Z) :
  AlkotekaSpider._calculate_discount o c = Some d -> 0 <= d <= 100.
Proof.
  unfold AlkotekaSpider._calculate_discount.
  destruct o as [o|]; [| discriminate].
  destruct (eqb o zero); [discriminate |].
  destruct c as [c|]; [| discriminate].
  destruct (eqb c zero); [discriminate |].
  destruct (leb o zero); [discriminate |].
  cbv zeta. intros [= <-]. apply clamp_to_int_range. intros s m e. apply mul_bounded.
Qed.

Section PageRecords.
Import AlkotekaSpider.
Context `{Builtins}.

(** X22. [_extract_price_data] returns nothing exactly when there is no
    current price (none found, or 0).  Otherwise it returns the four
    fields of a price record: the current price; the original price,
    which is the current one when none was found (or 0); the currency
    [RUB]; and a sale tag that is null or names a discount between 1
    and 100 - null whenever the original price was missing and the
    current one is a number.  The defaulting stage of the pipeline
    leaves such a record as it is. *)
Theorem price_data_from_page (current original : option float64) :
  match _extract_price_data current original with
  | None => no_price current = true
  | Some pd =>
    List.map fst pd = price_data_fields
    /\ py_get pd (lit "current") = price_value current
    /\ py_get pd (lit "original")
       = price_value (if no_price original then current else original)
    /\ truthy (py_get pd (lit "current")) = true
    /\ truthy (py_get pd (lit "original")) = true
    /\ py_get pd (lit "currency") = VStr (lit "RUB")
    /\ (py_get pd (lit "sale_tag") = VNone
        \/ exists d, 1 <= d <= 100
                     /\ py_get pd (lit "sale_tag")
                        = VStr (lit "Скидка " ++ py_str (VInt d) ++ lit "%"))
    /\ (no_price original = true ->
        (exists c, current = Some c /\ is_finite c = true) ->
        py_get pd (lit "sale_tag") = VNone)
    /\ DefaultValuesPipeline.default_price_data pd = pd
  end.
Proof.
  unfold _extract_price_data.
  destruct (no_price current) eqn:Nc; [reflexivity |]. cbv zeta.
  set (o := if no_price original then current else original).
  assert (No : no_price o = false).
  { unfold o. destruct (no_price original) eqn:E; assumption. }
  set (tag := match _calculate_discount o current with
              | Some d => if truthy (VInt d) && (0 <? d)
                          then VStr (lit "Скидка " ++ py_str (VInt d) ++ lit "%")
                          else VNone
              | None => VNone
              end).
  assert (T : tag = VNone
              \/ exists d, 1 <= d <= 100
                           /\ tag = VStr (lit "Скидка " ++ py_str (VInt d) ++ lit "%")).
  { unfold tag. destruct (_calculate_discount o current) as [d|] eqn:E; [| left; reflexivity].
    destruct (truthy (VInt d) && (0 <? d)) eqn:P; [| left; reflexivity].
    right. exists d. split; [| reflexivity].
    apply andb_true_iff in P. destruct P as [_ P]. apply Z.ltb_lt in P.
    pose proof (discount_between _ _ _ E). lia. }
  assert (T0 : no_price original = true ->
               (exists c, current = Some c /\ is_finite c = true) -> tag = VNone).
  { intros E (c & -> & F). unfold tag, o. rewrite E.
    destruct (_calculate_discount (Some c) (Some c)) as [d|] eqn:D; [| reflexivity].
    rewrite (equal_prices_no_discount c d F D). reflexivity. }
  clearbody tag.
  assert (Vc : exists c, price_value current = VFloat c /\ truthy (VFloat c) = true).
  { destruct current as [c|]; [| discriminate Nc]. exists c. split; [reflexivity |].
    cbn [no_price] in Nc. destruct (truthy (VFloat c)); [reflexivity | discriminate Nc]. }
  assert (Vo : exists c, price_value o = VFloat c /\ truthy (VFloat c) = true).
  { destruct o as [c|]; [| discriminate No]. exists c. split; [reflexivity |].
    cbn [no_price] in No. destruct (truthy (VFloat c)); [reflexivity | discriminate No]. }
  destruct Vc as (vc & -> & Tc). destruct Vo as (vo & -> & To).
  split; [reflexivity |]. split; [reflexivity |]. split; [reflexivity |].
  split; [exact Tc |]. split; [exact To |]. split; [reflexivity |].
  split; [exact T |]. split; [exact T0 |]. reflexivity.
Qed.

(** X23. [_extract_stock_data] returns nothing exactly when neither a
    stock flag nor a status text was found, and [_extract_assets]
    exactly when there is no main image, no gallery image and no video
    (a 360 view alone is dropped).  What they return has every field
    of its record; the defaulting stage of the pipeline changes nothing
    in the assets and, in the stock, only a missing status, which
    becomes [unknown]. *)
Theorem stock_and_assets_from_page :
  (forall in_stock count status,
      match _extract_stock_data in_stock count status with
      | None => in_stock = None /\ text_truthy status = false
      | Some sd =>
        (in_stock <> None \/ text_truthy status = true)
        /\ List.map fst sd = stock_fields
        /\ py_get sd (lit "in_stock")
           = VBool (match in_stock with Some b => b | None => true end)
        /\ py_get sd (lit "count")
           = VInt (match count with Some n => n | None => 0 end)
        /\ DefaultValuesPipeline.fill_defaults DefaultValuesPipeline.defaults_stock sd
           = match status with
             | Some _ => sd
             | None => dict_set (lit "status") (VStr (lit "unknown")) sd
             end
      end)
  /\ (forall main_image gallery_images view_360 video_urls,
         match _extract_assets main_image gallery_images view_360 video_urls with
         | None => text_truthy main_image = false
                   /\ gallery_images = [] /\ video_urls = []
         | Some assets =>
           (text_truthy main_image = true \/ gallery_images <> [] \/ video_urls <> [])
           /\ List.map fst assets = assets_fields
           /\ DefaultValuesPipeline.fill_defaults DefaultValuesPipeline.defaults_assets
                                                  assets
              = assets
         end).
Proof.
  split.
  - intros in_stock count status. unfold _extract_stock_data.
    destruct in_stock as [b|], (text_truthy status) eqn:Ts;
      try (split; reflexivity).
    + split; [left; discriminate |]. split; [reflexivity |].
      split; [reflexivity |]. split; [reflexivity |].
      destruct status as [s|]; reflexivity.
    + split; [left; discriminate |]. split; [reflexivity |].
      split; [reflexivity |]. split; [reflexivity |].
      destruct status as [s|]; reflexivity.
    + split; [right; reflexivity |]. split; [reflexivity |].
      split; [reflexivity |]. split; [reflexivity |].
      destruct status as [s|]; [reflexivity | discriminate Ts].
  - intros main_image gallery_images view_360 video_urls. unfold _extract_assets.
    destruct (text_truthy main_image) eqn:Tm; cbn [negb andb].
    { split; [left; reflexivity |]. split; [reflexivity |].
      destruct main_image as [m|]; reflexivity. }
    destruct gallery_images as [|g gs]; cbn [no_urls andb].
    2:{ split; [right; left; discriminate |]. split; [reflexivity |].
        destruct main_image as [m|]; reflexivity. }
    destruct video_urls as [|v vs]; cbn [no_urls].
    { repeat split. }
    split; [right; right; discriminate |]. split; [reflexivity |].
    destruct main_image as [m|]; reflexivity.
Qed.

End PageRecords.

(** ** The proxy pool in use *)

Lemma rotated_index (p : str) (rest : list str) (i : nat) :
  nth_error (rest ++ [p]) (i mod length (rest ++ [p]))
  = nth_error (p :: rest) (S i mod length (p :: rest)).
Proof.
  rewrite length_app. cbn [length]. replace (length rest + 1)%nat with (S (length rest)) by lia.
  set (L := S (length rest)).
  assert (HL : L <> 0%nat) by (unfold L; lia).
  pose proof (Nat.mod_upper_bound i L HL) as Hj.
  replace (S i mod L)%nat with ((i mod L + 1) mod L)%nat
    by (rewrite Nat.Div0.add_mod_idemp_l; f_equal; lia).
  set (j := (i mod L)%nat) in *.
  destruct (Nat.eq_dec (j + 1)%nat L) as [E|E].
  - rewrite E, Nat.Div0.mod_same. cbn [nth_error].
    replace j with (length rest) by (unfold L in E; lia).
    rewrite nth_error_app2 by lia. rewrite Nat.sub_diag. reflexivity.
  - rewrite (Nat.mod_small (j + 1)%nat L) by lia.
    replace (j + 1)%nat with (S j) by lia. cbn [nth_error].
    apply nth_error_app1. unfold L in *. lia.
Qed.

Section ProxyRotation.
Import Middlewares.

Lemma fresh_request (m : ProxyMiddleware) (p : str) (rest : list str) :
  enabled m = true -> proxies m <> [] -> blacklist m = ∅ ->
  proxy_pool m = Some (p :: rest) -> p <> [] ->
  process_request m = (Some p, count_total (set_pool (rest ++ [p]) m)).
Proof.
  intros En Ps Bl Pool Hp. unfold process_request, _get_next_proxy.
  rewrite En, Pool. destruct (proxies m) as [|q qs] eqn:Eq; [congruence |].
  cbn [negb is_nil orb length scan]. rewrite Bl.
  destruct (decide (p ∈ (∅ : gset str))) as [I|_]; [set_solver |].
  cbn [fst snd]. destruct p; [congruence | reflexivity].
Qed.

Lemma round_robin_from (n : nat) :
  forall (m : ProxyMiddleware) (pool : list str),
    enabled m = true -> proxies m <> [] -> blacklist m = ∅ ->
    proxy_pool m = Some pool -> pool <> [] -> Forall (fun p => p <> []) pool ->
    request_trace n m
    = List.map (fun i => nth_error pool (i mod length pool)) (seq 0 n).
Proof.
  induction n as [|n IH]; intros m pool En Ps Bl Pool Hne Hall; [reflexivity |].
  destruct pool as [|p rest]; [congruence |].
  inversion Hall as [|? ? Hp Hrest]; subst.
  cbn [request_trace]. rewrite (fresh_request m p rest En Ps Bl Pool Hp).
  cbn [fst snd seq List.map]. f_equal.
  - rewrite Nat.Div0.mod_0_l. reflexivity.
  - rewrite (IH _ (rest ++ [p])); try reflexivity; try assumption.
    + rewrite <- seq_shift, List.map_map. apply List.map_ext. intros i.
      apply rotated_index.
    + destruct rest; discriminate.
    + apply Forall_app. split; [exact Hrest | constructor; [exact Hp | constructor]].
Qed.

(** X24. With nothing blacklisted the pool is a round robin over the
    proxy file: the [i]-th request after start-up (counting from 0) is
    given the proxy at position [i mod n] of the [n] loaded proxies, in
    the order of the file.  With no proxy loaded every request goes
    without one. *)
Theorem fresh_pool_round_robin (file : option (list str)) (n : nat) :
  request_trace n (init true file)
  = List.map (fun i => nth_error (_load_proxies file)
                                 (i mod length (_load_proxies file)))
             (seq 0 n).
Proof.
  destruct (_load_proxies file) as [|p ps] eqn:E.
  - assert (R : forall k m, proxies m = [] -> request_trace k m = repeat None k).
    { induction k as [|k IH]; intros m Hm; [reflexivity |].
      cbn [request_trace repeat]. unfold process_request. rewrite Hm.
      cbn [is_nil]. rewrite orb_true_r. cbn [fst snd]. rewrite (IH m Hm). reflexivity. }
    rewrite R by (unfold init; cbn [proxies]; exact E).
    generalize 0%nat. induction n as [|n IH]; intros s; [reflexivity |].
    cbn [repeat seq List.map]. rewrite <- IH. f_equal. destruct (s mod length (@nil str))%nat; reflexivity.
  - rewrite <- E. apply round_robin_from.
    + reflexivity.
    + unfold init. cbn [proxies]. rewrite E. discriminate.
    + reflexivity.
    + unfold init. cbn [proxy_pool]. rewrite E. reflexivity.
    + rewrite E. discriminate.
    + destruct file as [lines|]; [apply parse_proxy_lines_nonempty | discriminate E].
Qed.

End ProxyRotation.

(** ** The proxy file *)













(** ** The statistics of the proxy pool *)

Lemma size_within (bl : gset str) (ps : list str) :
  (forall p, p ∈ bl -> In p ps) -> (size bl <= length ps)%nat.
Proof.
  intros Hsub. change (size bl) with (length (elements bl)).
  apply submseteq_length, NoDup_submseteq; [apply NoDup_elements |].
  intros x Hx. apply list_elem_of_In, Hsub, elem_of_elements, Hx.
Qed.

Lemma size_add (p : str) (bl : gset str) : (size ({[p]} ∪ bl) <= S (size bl))%nat.
Proof.
  rewrite size_union_alt, size_singleton.
  assert (Hd : (size (bl ∖ {[p]}) <= size bl)%nat).
  { apply subseteq_size. intros x Hx. apply elem_of_difference in Hx. apply Hx. }
  lia.
Qed.

Section ProxyStats.
Import Middlewares.

Lemma request_failed (m : ProxyMiddleware) :
  stats_failed (snd (process_request m)) = stats_failed m.
Proof.
  unfold process_request, _get_next_proxy.
  destruct (negb (enabled m) || is_nil (proxies m)); [reflexivity |].
  destruct (proxy_pool m); cbn [fst snd]; [| reflexivity].
  destruct (fst (scan _ _ _)) as [q|]; [| reflexivity].
  destruct (truthy (VStr q)); reflexivity.
Qed.

Lemma step_stats_invariant (m : ProxyMiddleware) (e : event) :
  fails_within (proxies m) e -> stats_invariant m -> stats_invariant (step m e).
Proof.
  intros He [Hsub Hle]. unfold stats_invariant. rewrite step_proxies.
  destruct e as [|q|q]; cbn [step].
  - rewrite request_blacklist, request_failed. split; assumption.
  - unfold process_response. destruct q as [q|]; [| split; assumption].
    destruct (truthy (VStr q)); [| split; assumption].
    destruct (decide _); cbn [blacklist stats_failed count_success set_blacklist];
      [| split; assumption].
    split.
    + intros p Hp. apply Hsub. apply elem_of_difference in Hp. apply Hp.
    + assert (Hd : (size (blacklist m ∖ {[q]}) <= size (blacklist m))%nat).
      { apply subseteq_size. intros x Hx. apply elem_of_difference in Hx. apply Hx. }
      lia.
  - unfold process_exception. destruct q as [q|]; [| split; assumption].
    destruct (truthy (VStr q)) eqn:Tq; [| split; assumption].
    cbn [snd blacklist stats_failed count_failed set_blacklist]. split.
    + intros p Hp. apply elem_of_union in Hp. destruct Hp as [Hp|Hp]; [| apply Hsub, Hp].
      apply elem_of_singleton in Hp. subst p. cbn [fails_within] in He.
      destruct He as [->|He]; [discriminate Tq | exact He].
    + pose proof (size_add q (blacklist m)). lia.
Qed.

Lemma run_stats_invariant (events : list event) :
  forall m, Forall (fails_within (proxies m)) events ->
            stats_invariant m -> stats_invariant (run m events).
Proof.
  induction events as [|e es IH]; intros m Hev Hm; [exact Hm |].
  inversion Hev as [|? ? He Hes]; subst. cbn [run fold_left].
  apply IH; [rewrite step_proxies; exact Hes | apply step_stats_invariant; assumption].
Qed.

(** X26. As long as failures are reported for proxies of the pool only,
    [get_stats] is consistent: the number of blacklisted proxies is at
    most the number of failures counted, the number of available
    proxies is not negative and the two add up to the length of the
    proxy list; and a request is given a proxy only while at least one
    is reported available. *)
Theorem stats_consistent (proxy_enabled : bool) (file : option (list str))
        (events : list event) :
  Forall (fails_within (proxies (init proxy_enabled file))) events ->
  exists blacklisted available failed,
    py_get (get_stats (run (init proxy_enabled file) events)) (lit "blacklisted_proxies")
    = VInt blacklisted
    /\ py_get (get_stats (run (init proxy_enabled file) events)) (lit "available_proxies")
       = VInt available
    /\ py_get (get_stats (run (init proxy_enabled file) events)) (lit "failed")
       = VInt failed
    /\ 0 <= blacklisted <= failed
    /\ 0 <= available
    /\ blacklisted + available
       = Z.of_nat (length (proxies (init proxy_enabled file)))
    /\ (forall p, fst (process_request (run (init proxy_enabled file) events)) = Some p ->
                  1 <= available).
Proof.
  intros Hev.
  set (m0 := init proxy_enabled file) in *. set (m := run m0 events).
  assert (I0 : stats_invariant m0).
  { split; [intros p Hp; unfold m0, init in Hp; cbn [blacklist] in Hp; set_solver |].
    unfold m0, init. cbn [blacklist stats_failed]. rewrite size_empty. lia. }
  destruct (run_stats_invariant events m0 Hev I0) as [Hsub Hle]. fold m in Hsub, Hle.
  assert (W : well_formed m).
  { apply reachable_well_formed. exists proxy_enabled, file, events. reflexivity. }
  assert (P : proxies m = proxies m0) by apply run_proxies.
  pose proof (size_within _ _ Hsub) as Hsz.
  exists (Z.of_nat (size (blacklist m))),
    (Z.of_nat (length (proxies m)) - Z.of_nat (size (blacklist m))), (stats_failed m).
  split; [reflexivity |]. split; [reflexivity |]. split; [reflexivity |].
  split; [lia |]. split; [lia |]. split; [rewrite P; lia |].
  intros p Hp. destruct (process_request m) as [q m'] eqn:E. cbn [fst] in Hp. subst q.
  destruct (process_request_some m m' p W E) as (Hout & Hin & _).
  assert (Hsub' : forall x, x ∈ {[p]} ∪ blacklist m -> In x (proxies m)).
  { intros x Hx. apply elem_of_union in Hx. destruct Hx as [Hx|Hx]; [| apply Hsub, Hx].
    apply elem_of_singleton in Hx. subst x. exact Hin. }
  pose proof (size_within _ _ Hsub') as Hsz'.
  rewrite size_union, size_singleton in Hsz' by set_solver. lia.
Qed.

Lemma stats_consistent_witness :
  exists blacklisted available failed,
    py_get (get_stats (run (init true (Some three_proxies))
                           [Request; Failure (Some (lit "http://10.0.0.1:8080"))]))
           (lit "blacklisted_proxies")
    = VInt blacklisted
    /\ py_get (get_stats (run (init true (Some three_proxies))
                              [Request; Failure (Some (lit "http://10.0.0.1:8080"))]))
              (lit "available_proxies")
       = VInt available
    /\ py_get (get_stats (run (init true (Some three_proxies))
                              [Request; Failure (Some (lit "http://10.0.0.1:8080"))]))
              (lit "failed")
       = VInt failed
    /\ 0 <= blacklisted <= failed
    /\ 0 <= available
    /\ blacklisted + available
       = Z.of_nat (length (proxies (init true (Some three_proxies))))
    /\ (forall p,
           fst (process_request
                  (run (init true (Some three_proxies))
                       [Request; Failure (Some (lit "http://10.0.0.1:8080"))]))
           = Some p ->
           1 <= available).
Proof.
  apply (stats_consistent true (Some three_proxies)
                          [Request; Failure (Some (lit "http://10.0.0.1:8080"))]).
  constructor; [exact I |]. constructor; [| constructor].
  right. left. vm_compute. reflexivity.
Defined.

End ProxyStats.

(** ** Region cookies and headers *)

Section RegionDefaults.
Import Middlewares.RegionMiddleware.

Lemma set_missing_lookup (table : dict) :
  forall (d : dict) (k : str),
    dict_get k (set_missing table d)
    = match dict_get k d with
      | Some v => Some v
      | None => dict_get k table
      end.
Proof.
  unfold set_missing.
  induction table as [|[k0 v0] t IH]; intros d k; cbn [fold_left fst snd].
  - destruct (dict_get k d); reflexivity.
  - rewrite IH. cbn [dict_get]. unfold dict_has.
    destruct (dict_get k0 d) as [w|] eqn:E0; cbn [negb].
    + destruct (dict_get k d) as [v|] eqn:E; [reflexivity |].
      destruct (str_eqb k0 k) eqn:Ek; [| reflexivity].
      apply str_eqb_eq in Ek. congruence.
    + destruct (str_eqb k0 k) eqn:Ek.
      * apply str_eqb_eq in Ek. subst k0. rewrite dict_get_set_eq, E0. reflexivity.
      * rewrite (dict_get_set_ne _ _ _ _ Ek).
        destruct (dict_get k d); reflexivity.
Qed.

Lemma set_missing_fixed (table : dict) :
  forall d, (forall kv, In kv table -> dict_has (fst kv) d = true) ->
            set_missing table d = d.
Proof.
  unfold set_missing.
  induction table as [|kv t IH]; intros d Hall; [reflexivity |].
  cbn [fold_left]. rewrite (Hall kv (or_introl eq_refl)). cbn [negb].
  apply IH. intros kv' Hin. apply Hall. right. exact Hin.
Qed.

Lemma set_missing_idem (table d : dict) :
  set_missing table (set_missing table d) = set_missing table d.
Proof.
  apply set_missing_fixed. intros [k v] Hin. unfold dict_has.
  rewrite set_missing_lookup. cbn [fst]. destruct (dict_get k d); [reflexivity |].
  destruct (dict_get k table) eqn:E; [reflexivity |].
  exfalso. revert E. clear -Hin. induction table as [|[k' v'] t IH]; [destruct Hin |].
  cbn [dict_get]. destruct (str_eqb k' k) eqn:Ek; [discriminate |].
  destruct Hin as [[= -> ->]|Hin]; [rewrite str_eqb_refl in Ek; discriminate | auto].
Qed.

Variable region : str.
Variable capitalize : str -> str.

(** X27. [RegionMiddleware.process_request] only fills gaps: every
    cookie and header the request already has keeps its value, the
    cookies [city] and [selected_region] and the headers [X-Region]
    and [X-City] are present afterwards, holding the region (for the
    headers, capitalised) where they were missing, and a second pass
    changes nothing.  [meta] gets an empty [cookies] entry when it has
    none; the region is never written there. *)
Theorem region_defaults_never_override (r : request) :
  (forall k,
      dict_get k (cookies (process_request region capitalize r))
      = match dict_get k (cookies r) with
        | Some v => Some v
        | None => dict_get k (region_cookies region)
        end)
  /\ (forall k,
         dict_get k (headers (process_request region capitalize r))
         = match dict_get k (headers r) with
           | Some v => Some v
           | None => dict_get k (region_headers region capitalize)
           end)
  /\ Forall (fun k => dict_has k (cookies (process_request region capitalize r)) = true)
            [lit "city"; lit "selected_region"]
  /\ Forall (fun k => dict_has k (headers (process_request region capitalize r)) = true)
            [lit "X-Region"; lit "X-City"]
  /\ py_get (meta (process_request region capitalize r)) (lit "cookies")
     = (if dict_has (lit "cookies") (meta r) then py_get (meta r) (lit "cookies")
        else VDict [])
  /\ process_request region capitalize (process_request region capitalize r)
     = process_request region capitalize r.
Proof.
  unfold process_request, _set_region_headers, _set_region_cookie.
  cbn [meta cookies headers].
  split; [intros k; apply set_missing_lookup |].
  split; [intros k; apply set_missing_lookup |].
  split.
  { repeat constructor; unfold dict_has; rewrite set_missing_lookup;
      destruct (dict_get _ (cookies r)); reflexivity. }
  split.
  { repeat constructor; unfold dict_has; rewrite set_missing_lookup;
      destruct (dict_get _ (headers r)); reflexivity. }
  split.
  { destruct (dict_has (lit "cookies") (meta r)) eqn:E; cbn [negb]; [reflexivity |].
    apply py_get_set_eq. }
  rewrite !set_missing_idem. f_equal.
  destruct (dict_has (lit "cookies") (meta r)) eqn:E; cbn [negb].
  - rewrite E. reflexivity.
  - rewrite dict_has_set_eq. reflexivity.
Qed.

End RegionDefaults.

(** ** The validate command on normalised records *)

Section ValidateCommand.
Context `{Builtins}.

(** X28. A record that [normalize] accepts passes the item check of the
    [validate] command exactly when its name is still non-empty after
    cleaning; when the name came in as a string, exactly when that
    string has a character that is not whitespace. *)
Theorem accepted_records_validate (now : Z) (item out : dict) :
  normalize now item = Accepted out ->
  Validate._validate_item out = truthy (py_get out (lit "name"))
  /\ (forall s, dict_get (lit "name") item = Some (VStr s) ->
                Validate._validate_item out = negb (forallb is_space s)).
Proof.
  intros E.
  destruct (accepted_keeps_required now item out (lit "product_id")
              (or_introl eq_refl) E) as [_ T].
  assert (V : Validate._validate_item out = truthy (py_get out (lit "name"))).
  { unfold Validate._validate_item. cbn [forallb]. rewrite T, andb_true_r. reflexivity. }
  split; [exact V |]. intros s Hs. rewrite V.
  pose proof (accepted_name now item out s E Hs) as N.
  unfold py_get. rewrite N. cbn [truthy].
  change (@forallb char is_space s) with (all_space s).
  destruct (collapse_ws s) eqn:C.
  - rewrite (proj1 (collapse_ws_empty_iff s) C). reflexivity.
  - destruct (all_space s) eqn:A; [| reflexivity].
    rewrite (proj2 (collapse_ws_empty_iff s) A) in C. discriminate C.
Qed.

End ValidateCommand.

Lemma accepted_records_validate_witness :
  exists out,
    @normalize Runtime.sample 0 blank_name_record = Accepted out
    /\ Validate._validate_item out = false.
Proof.
  destruct (@normalize Runtime.sample 0 blank_name_record)
    as [out| |] eqn:E; try (vm_compute in E; discriminate E).
  exists out. split; [reflexivity |].
  destruct (@accepted_records_validate Runtime.sample 0 _ out E) as [_ G].
  rewrite (G (lit " ") eq_refl). reflexivity.
Defined.

(** ** Blank tags *)

Lemma insert_sorted_blank (l : list str) : insert_sorted [] l = [] :: l.
Proof. destruct l; reflexivity. Qed.

Lemma sorted_blank_first (l : list str) :
  In [] l -> exists rest, sorted l = [] :: rest.
Proof.
  induction l as [|x t IH]; [intros [] |]. unfold sorted in *. cbn [fold_right].
  intros [->|Hin].
  - eexists. apply insert_sorted_blank.
  - destruct (IH Hin) as (rest & ->).
    destruct x as [|c x]; [eexists; reflexivity |].
    cbn [insert_sorted str_leb]. eexists. reflexivity.
Qed.

Section BlankTags.
Context `{Builtins}.

Lemma stripped_tags_stripped (entries : list value) :
  Forall (fun t => strip t = t) (stripped_tags entries).
Proof.
  unfold stripped_tags. apply List.Forall_forall. intros t Ht.
  apply in_flat_map in Ht. destruct Ht as (tag & _ & Ht).
  destruct tag; try destruct Ht. destruct (truthy (VStr s)); [| destruct Ht].
  destruct Ht as [<-|[]]. apply strip_idem.
Qed.

Lemma stripped_tags_blank (entries : list value) :
  In [] (stripped_tags entries)
  <-> exists s, In (VStr s) entries /\ s <> [] /\ forallb is_space s = true.
Proof.
  unfold stripped_tags. rewrite in_flat_map. split.
  - intros (tag & Hin & Ht). destruct tag; try destruct Ht.
    destruct s as [|c s]; [destruct Ht |]. cbn [truthy] in Ht.
    destruct Ht as [E|[]]. exists (c :: s). split; [exact Hin |].
    split; [discriminate |]. apply strip_empty_iff, E.
  - intros (s & Hin & Hne & Hs). exists (VStr s). split; [exact Hin |].
    destruct s as [|c s]; [congruence |]. cbn [truthy]. left.
    apply strip_empty_iff, Hs.
Qed.

(** X29. A tag made of whitespace only is not dropped by the cleaning
    stage: a non-empty [tags] or [marketing_tags] list holds the empty
    string afterwards exactly when some string of the input list is not
    empty but blank, and then the empty string comes first.  Every tag
    of the result is free of whitespace at either end. *)
Theorem blank_tags_become_empty (field : str) (item out : dict)
        (entries : list value) :
  field = lit "tags" \/ field = lit "marketing_tags" ->
  DataCleaningPipeline.process_item item = Ok out ->
  py_get item field = VList entries ->
  entries <> [] ->
  exists tags : list str,
    py_get out field = VList (List.map VStr tags)
    /\ Forall (fun t => strip t = t) tags
    /\ (In [] tags
        <-> exists s, In (VStr s) entries /\ s <> [] /\ forallb is_space s = true)
    /\ (In [] tags -> hd_error tags = Some []).
Proof.
  intros Hfield Ec E Hne.
  exists (sorted (dedup (stripped_tags entries))).
  destruct (sorted_dedup_spec (stripped_tags entries)) as (_ & _ & M).
  split.
  { destruct Hfield as [-> | ->];
      [eapply cleaning_tags | eapply cleaning_marketing_tags]; eassumption. }
  split.
  { apply List.Forall_forall. intros t Ht. apply M in Ht.
    pose proof (stripped_tags_stripped entries) as S.
    rewrite List.Forall_forall in S. apply S, Ht. }
  split.
  { rewrite (M []). apply stripped_tags_blank. }
  intros Hin. apply (Permutation_in _ (sorted_perm _)) in Hin.
  destruct (sorted_blank_first _ Hin) as (rest & ->). reflexivity.
Qed.

End BlankTags.

Lemma blank_tags_become_empty_witness :
  exists out tags,
    @DataCleaningPipeline.process_item Runtime.sample
      [(lit "tags", VList [VStr (lit "red"); VStr (lit " ")])] = Ok out
    /\ py_get out (lit "tags") = VList (List.map VStr tags)
    /\ hd_error tags = Some [].
Proof.
  destruct (@DataCleaningPipeline.process_item Runtime.sample
              [(lit "tags", VList [VStr (lit "red"); VStr (lit " ")])])
    as [out|e] eqn:E; [| vm_compute in E; discriminate E].
  destruct (@blank_tags_become_empty Runtime.sample (lit "tags") _ out
              [VStr (lit "red"); VStr (lit " ")] (or_introl eq_refl) E eq_refl)
    as (tags & G & _ & B & Hd); [discriminate |].
  exists out, tags. split; [reflexivity |]. split; [exact G |].
  apply Hd, B. exists (lit " ").
  split; [right; left; reflexivity |]. split; [vm_compute; discriminate | reflexivity].
Defined.

(** ** What the cleaning stage can raise *)

Section CleaningErrors.
Context `{Builtins}.

Lemma unique_values_raises (l : list value) (e : exn) :
  unique_values l = Raise e -> e = TypeError /\ forallb hashable l = false.
Proof.
  unfold unique_values. destruct (forallb hashable l); [discriminate |].
  intros [= <-]. split; reflexivity.
Qed.

Lemma clean_image_urls_raises (d : dict) (e : exn) :
  clean_image_urls d = Raise e ->
  e = TypeError
  /\ exists urls, py_get d (lit "image_urls") = VList urls
                  /\ forallb hashable urls = false.
Proof.
  unfold clean_image_urls. destruct (truthy _); [| discriminate].
  destruct (py_get d (lit "image_urls")) as [| | | | |urls|]; try discriminate.
  destruct (unique_values urls) as [u|e'] eqn:U; cbn [mbind res_bind]; [discriminate |].
  intros [= <-]. destruct (unique_values_raises _ _ U) as [-> Hh].
  split; [reflexivity |]. exists urls. split; [reflexivity | exact Hh].
Qed.

Lemma dedup_asset_raises (key : str) (assets : dict) (e : exn) :
  dedup_asset key assets = Raise e ->
  e = TypeError
  /\ exists l, dict_get key assets = Some (VList l) /\ forallb hashable l = false.
Proof.
  unfold dedup_asset. destruct (dict_get key assets) as [[| | | | |l|]|]; try discriminate.
  destruct (unique_values l) as [u|e'] eqn:U; cbn [mbind res_bind]; [discriminate |].
  intros [= <-]. destruct (unique_values_raises _ _ U) as [-> Hh].
  split; [reflexivity |]. exists l. split; [reflexivity | exact Hh].
Qed.

Lemma dedup_asset_other (key k : str) (assets assets' : dict) :
  str_eqb key k = false ->
  dedup_asset key assets = Ok assets' -> dict_get k assets' = dict_get k assets.
Proof.
  intros Hk. unfold dedup_asset.
  destruct (dict_get key assets) as [[| | | | |l|]|]; try (intros [= <-]; reflexivity).
  destruct (unique_values l); cbn [mbind res_bind]; [| discriminate].
  intros [= <-]. apply dict_get_set_ne, Hk.
Qed.

Lemma clean_assets_raises (d : dict) (e : exn) :
  clean_assets d = Raise e ->
  e = TypeError
  /\ exists assets key l,
      py_get d (lit "assets") = VDict assets
      /\ In key [lit "gallery_images"; lit "view_360"; lit "video"; lit "cached_images"]
      /\ dict_get key assets = Some (VList l)
      /\ forallb hashable l = false.
Proof.
  unfold clean_assets. destruct (truthy _); [| discriminate].
  destruct (py_get d (lit "assets")) as [| | | | | |assets]; try discriminate.
  destruct (dedup_asset (lit "gallery_images") assets) as [a1|e1] eqn:E1;
    cbn [mbind res_bind].
  2:{ intros [= <-]. destruct (dedup_asset_raises _ _ _ E1) as (-> & l & G & Hh).
      split; [reflexivity |]. exists assets, (lit "gallery_images"), l.
      repeat split; try assumption. left. reflexivity. }
  destruct (dedup_asset (lit "view_360") a1) as [a2|e2] eqn:E2; cbn [mbind res_bind].
  2:{ intros [= <-]. destruct (dedup_asset_raises _ _ _ E2) as (-> & l & G & Hh).
      split; [reflexivity |]. exists assets, (lit "view_360"), l.
      rewrite (dedup_asset_other (lit "gallery_images") (lit "view_360") _ _ eq_refl E1)
        in G.
      repeat split; try assumption. right. left. reflexivity. }
  destruct (dedup_asset (lit "video") a2) as [a3|e3] eqn:E3; cbn [mbind res_bind].
  2:{ intros [= <-]. destruct (dedup_asset_raises _ _ _ E3) as (-> & l & G & Hh).
      split; [reflexivity |]. exists assets, (lit "video"), l.
      rewrite (dedup_asset_other (lit "view_360") (lit "video") _ _ eq_refl E2),
        (dedup_asset_other (lit "gallery_images") (lit "video") _ _ eq_refl E1) in G.
      repeat split; try assumption. right. right. left. reflexivity. }
  destruct (dedup_asset (lit "cached_images") a3) as [a4|e4] eqn:E4;
    cbn [mbind res_bind]; [discriminate |].
  intros [= <-]. destruct (dedup_asset_raises _ _ _ E4) as (-> & l & G & Hh).
  split; [reflexivity |]. exists assets, (lit "cached_images"), l.
  rewrite (dedup_asset_other (lit "video") (lit "cached_images") _ _ eq_refl E3),
    (dedup_asset_other (lit "view_360") (lit "cached_images") _ _ eq_refl E2),
    (dedup_asset_other (lit "gallery_images") (lit "cached_images") _ _ eq_refl E1) in G.
  repeat split; try assumption. right. right. right. left. reflexivity.
Qed.

Lemma clean_nonnegative_raises (field : str) (d : dict) (e : exn) :
  clean_nonnegative field d = Raise e ->
  e = OverflowError /\ py_float (py_get d field) = Raise OverflowError.
Proof.
  unfold clean_nonnegative. destruct (negb _); [| discriminate].
  destruct (py_float (py_get d field)) as [x|[]]; try discriminate.
  - destruct (ltb x zero); discriminate.
  - intros [= <-]. split; reflexivity.
Qed.

Lemma clean_rating_raises (d : dict) (e : exn) :
  clean_rating d = Raise e ->
  e = OverflowError /\ py_float (py_get d (lit "rating")) = Raise OverflowError.
Proof.
  unfold clean_rating. destruct (negb _); [| discriminate].
  destruct (py_float (py_get d (lit "rating"))) as [x|[]]; try discriminate.
  - destruct (_ || _); discriminate.
  - intros [= <-]. split; reflexivity.
Qed.

Lemma clean_discount_raises (d : dict) (e : exn) :
  clean_discount d = Raise e ->
  e = OverflowError
  /\ py_int (py_get d (lit "discount_percentage")) = Raise OverflowError.
Proof.
  unfold clean_discount. destruct (negb _); [| discriminate].
  destruct (py_int (py_get d (lit "discount_percentage"))) as [x|[]]; try discriminate.
  - destruct (_ || _); discriminate.
  - intros [= <-]. split; reflexivity.
Qed.

(** X30. The cleaning stage raises in two cases only, and never a
    [ValueError]: a [TypeError] when [image_urls], or one of the lists
    [gallery_images], [view_360], [video], [cached_images] under
    [assets], holds an element that cannot be hashed (a list or a
    mapping); an [OverflowError] when [price], [original_price] or
    [rating] is too large for [float()], or [discount_percentage] for
    [int()].  These values are the ones of the input record. *)
Theorem cleaning_raises_only (item : dict) (e : exn) :
  DataCleaningPipeline.process_item item = Raise e ->
  (e = TypeError
   /\ ((exists urls, py_get item (lit "image_urls") = VList urls
                     /\ forallb hashable urls = false)
       \/ (exists assets key l,
              py_get item (lit "assets") = VDict assets
              /\ In key [lit "gallery_images"; lit "view_360"; lit "video";
                         lit "cached_images"]
              /\ dict_get key assets = Some (VList l)
              /\ forallb hashable l = false)))
  \/ (e = OverflowError
      /\ ((exists field,
              In field [lit "price"; lit "original_price"; lit "rating"]
              /\ py_float (py_get item field) = Raise OverflowError)
          \/ py_int (py_get item (lit "discount_percentage")) = Raise OverflowError)).
Proof.
  unfold DataCleaningPipeline.process_item. cbv zeta.
  set (d3 := clean_attributes
               (clean_tags (lit "marketing_tags")
                  (fold_left clean_string_field string_fields item))).
  set (ks := cleaning_keys_except (lit "discount_percentage")).
  assert (U3 : untouched cleaning_head_keys item d3).
  { eapply untouched_trans; [| apply on_nested_untouched; reflexivity].
    eapply untouched_trans; [| apply clean_tags_untouched; reflexivity].
    apply clean_string_fields_untouched; reflexivity. }
  destruct (clean_image_urls d3) as [d4|e4] eqn:E4; cbn [mbind res_bind].
  2:{ intros [= <-]. destruct (clean_image_urls_raises _ _ E4) as (-> & urls & G & Hh).
      left. split; [reflexivity |]. left. exists urls. split; [| exact Hh].
      rewrite <- G. symmetry. unfold py_get.
      assert (U : untouched (string_fields ++ [lit "marketing_tags"; lit "attributes"])
                            item d3).
      { eapply untouched_trans; [| apply on_nested_untouched; reflexivity].
        eapply untouched_trans; [| apply clean_tags_untouched; reflexivity].
        apply clean_string_fields_untouched; reflexivity. }
      rewrite (U (lit "image_urls") eq_refl). reflexivity. }
  assert (U4 : untouched cleaning_head_keys item (clean_tags (lit "tags") d4)).
  { eapply untouched_trans; [exact U3 |].
    eapply untouched_trans; [| apply clean_tags_untouched; reflexivity].
    eapply clean_image_urls_untouched; [reflexivity | exact E4]. }
  destruct (clean_assets (clean_tags (lit "tags") d4)) as [d6|e6] eqn:E6;
    cbn [mbind res_bind].
  2:{ intros [= <-].
      destruct (clean_assets_raises _ _ E6) as (-> & assets & key & l & G & Hk & Hl & Hh).
      left. split; [reflexivity |]. right. exists assets, key, l.
      split; [| auto]. rewrite <- G. symmetry.
      assert (U : untouched (string_fields
                             ++ [lit "marketing_tags"; lit "attributes";
                                 lit "image_urls"; lit "tags"])
                            item (clean_tags (lit "tags") d4)).
      { eapply untouched_trans; [| apply clean_tags_untouched; reflexivity].
        eapply untouched_trans;
          [| eapply clean_image_urls_untouched; [reflexivity | exact E4]].
        eapply untouched_trans; [| apply on_nested_untouched; reflexivity].
        eapply untouched_trans; [| apply clean_tags_untouched; reflexivity].
        apply clean_string_fields_untouched; reflexivity. }
      apply (untouched_py_get _ _ _ _ U). reflexivity. }
  assert (U7 : untouched cleaning_head_keys item (clean_description d6)).
  { eapply untouched_trans; [exact U4 |].
    eapply untouched_trans; [| apply clean_description_untouched; reflexivity].
    eapply clean_assets_untouched; [reflexivity | exact E6]. }
  destruct (clean_nonnegative (lit "price") (clean_description d6)) as [d8|e8] eqn:E8;
    cbn [mbind res_bind].
  2:{ intros [= <-]. destruct (clean_nonnegative_raises _ _ _ E8) as (-> & G).
      right. split; [reflexivity |]. left. exists (lit "price").
      split; [left; reflexivity |].
      rewrite <- (untouched_py_get _ _ _ _ U7) by reflexivity. exact G. }
  pose proof (clean_nonnegative_untouched (lit "price" :: cleaning_head_keys)
                (lit "price") _ _ eq_refl E8) as P8.
  assert (U8 : untouched (lit "price" :: cleaning_head_keys) item d8).
  { eapply untouched_trans; [| exact P8].
    intros k Hk. apply U7. cbn [existsb] in Hk. apply orb_false_iff in Hk. apply Hk. }
  destruct (clean_nonnegative (lit "original_price") d8) as [d9|e9] eqn:E9;
    cbn [mbind res_bind].
  2:{ intros [= <-]. destruct (clean_nonnegative_raises _ _ _ E9) as (-> & G).
      right. split; [reflexivity |]. left. exists (lit "original_price").
      split; [right; left; reflexivity |].
      rewrite <- (untouched_py_get _ _ _ _ U8) by reflexivity. exact G. }
  pose proof (cleaning_prefix_untouched item d4 d6 d8 d9 E4 E6 E8 E9) as U9.
  destruct (clean_rating d9) as [d10|e10] eqn:E10; cbn [mbind res_bind].
  2:{ intros [= <-]. destruct (clean_rating_raises _ _ E10) as (-> & G).
      right. split; [reflexivity |]. left. exists (lit "rating").
      split; [right; right; left; reflexivity |].
      rewrite <- (untouched_py_get _ _ _ _ U9) by reflexivity. exact G. }
  intros E11. destruct (clean_discount_raises _ _ E11) as (-> & G).
  right. split; [reflexivity |]. right.
  assert (U10 : untouched ks item d10).
  { eapply untouched_trans;
      [| eapply clean_rating_untouched; [reflexivity | exact E10]].
    intros k Hk. apply U9. revert Hk. unfold ks, cleaning_keys_except.
    generalize (str_eqb k). intros f Hk. vm_compute in Hk |- *.
    repeat match type of Hk with
           | (if ?b then _ else _) = false => destruct b; [discriminate Hk |]
           end. reflexivity. }
  rewrite <- (untouched_py_get _ _ _ _ U10) by reflexivity. exact G.
Qed.

End CleaningErrors.

Lemma cleaning_raises_only_witness :
  exists urls,
    py_get [(lit "image_urls", VList [VList []])] (lit "image_urls") = VList urls
    /\ forallb hashable urls = false.
Proof.
  destruct (@cleaning_raises_only Runtime.sample
              [(lit "image_urls", VList [VList []])] TypeError)
    as [(_ & [G|(a & k & l & G & _)])|(G & _)].
  - vm_compute. reflexivity.
  - exact G.
  - vm_compute in G. discriminate G.
  - discriminate G.
Defined.
(** ** The repository's tests, on the model *)

Section Tests.
#[local] Abbreviation normalize := (@normalize Runtime.sample 0).
#[local] Abbreviation validate := (@ValidationPipeline.process_item Runtime.sample).
#[local] Abbreviation clean := (@DataCleaningPipeline.process_item Runtime.sample).

Example test_correction_negative_stock_count :
  exists out,
    validate (minimal_record_with (lit "stock_data")
                (VDict [(lit "in_stock", VBool false); (lit "count", VInt (-5));
                        (lit "status", VStr (lit "out of stock"))]))
    = Accepted out
    /\ py_get out (lit "stock_data")
       = VDict [(lit "in_stock", VBool false); (lit "count", VInt 0);
                (lit "status", VStr (lit "out of stock"))].
Proof. eexists. split; [vm_compute; reflexivity |]. vm_compute. reflexivity. Qed.

Example test_validate_rating_range :
  exists out,
    clean (minimal_record_with (lit "rating") (VFloat (div (of_Z 13) (of_Z 2))))
    = Ok out
    /\ dict_get (lit "rating") out = Some VNone.
Proof. eexists. split; [vm_compute; reflexivity |]. vm_compute. reflexivity. Qed.

Example test_deduplicate_image_urls :
  exists out,
    clean (minimal_record_with (lit "image_urls")
             (VList [VStr (lit "https://example.com/img1.jpg");
                     VStr (lit "https://example.com/img2.jpg");
                     VStr (lit "https://example.com/img1.jpg")]))
    = Ok out
    /\ py_get out (lit "image_urls")
       = VList [VStr (lit "https://example.com/img1.jpg");
                VStr (lit "https://example.com/img2.jpg")].
Proof. eexists. split; [vm_compute; reflexivity |]. vm_compute. reflexivity. Qed.

Example test_end_to_end :
  exists out,
    normalize [ (lit "product_id", VStr (lit "1"));
                (lit "name", VStr (lit "  A   B  "));
                (lit "product_url", VStr (lit "https://x"));
                (lit "scraped_at", VInt 1);
                (lit "price", VInt 2000);
                (lit "original_price", VInt 1500) ]
    = Accepted out
    /\ py_get out (lit "name") = VStr (lit "A B")
    /\ py_get out (lit "price") = VFloat (of_Z 1500)
    /\ py_get out (lit "original_price") = VInt 1500
    /\ py_get out (lit "currency") = VStr (lit "RUB").
Proof.
  eexists. split; [vm_compute; reflexivity |].
  repeat split; vm_compute; reflexivity.
Qed.

Example test_validate_variant :
  List.map (@AlkotekaSpider._validate_variant Runtime.sample)
           [lit "500ml"; lit "Red"; lit "XL"; lit "Large"; lit "Size M";
            lit "Shirt"; lit "одежда"; lit "select"; []; lit "выбрать";
            lit "material cotton"; lit "ткань шелк"]
  = [true; true; false; false; false; false; false; false; false; false;
     false; false].
Proof. vm_compute. reflexivity. Qed.

Example test_deduplicate_variants :
  @AlkotekaSpider._deduplicate_variants Runtime.sample
    [lit "500ml"; lit "500ml"; lit "700ml"; lit "500ML"]
  = [lit "500ml"; lit "700ml"].
Proof. vm_compute. reflexivity. Qed.

Example test_load_proxies_from_file :
  Middlewares.proxies
    (Middlewares.init true
       (Some [lit "http://10.0.0.1:8080"; lit "http://10.0.0.2:8080";
              lit "# Comment line"; lit "http://10.0.0.3:8080"]))
  = three_proxies.
Proof. vm_compute. reflexivity. Qed.

Example test_proxy_rotation :
  request_trace 6 (Middlewares.init true (Some three_proxies))
  = List.map Some (three_proxies ++ three_proxies).
Proof. vm_compute. reflexivity. Qed.

Example test_rotation_skips_failed_proxy :
  let m := Middlewares.init true (Some three_proxies) in
  let failed := snd (Middlewares.process_exception (Some (lit "http://10.0.0.1:8080")) m) in
  request_trace 3 failed
  = [Some (lit "http://10.0.0.2:8080"); Some (lit "http://10.0.0.3:8080");
     Some (lit "http://10.0.0.2:8080")].
Proof. vm_compute. reflexivity. Qed.

End Tests.
